(** * vrmagic_connector: the camera handle (src/camera_handle.cpp)

    A shallow embedding of [vrmagic::CameraHandle] and of the helper
    functions of its translation unit.  The VRmUsbCam SDK is an external
    library: its entry points are taken as a record of response functions,
    and every call the code makes is recorded, with the SDK's answer, in the
    list of events of the run, next to the messages handed to the ROS
    console macros. *)

From Stdlib Require Import ZArith List Lia Bool.
From Stdlib Require Import Floats.SpecFloat.
From stdpp Require Import base decidable option list strings.

Local Open Scope Z_scope.

(** ** Machine integers *)

(** [VRmDWORD], [unsigned int] and the [uint32] fields of
    [sensor_msgs::Image] are 32 bits wide; arithmetic on them wraps. *)
Definition wrap32 (z : Z) : Z := z mod 2 ^ 32.

Definition VRmDWORD := Z.

(** ** Types of the SDK header that the code names *)

(** Only the enumerators the code names are listed; every other property
    identifier of the header is under [VRM_PROPID_OTHER]. *)
Inductive VRmPropId :=
| VRM_PROPID_GRAB_SENSOR_PROPS_SELECT_E
| VRM_PROPID_GRAB_SENSOR_PROPS_SELECT_1
| VRM_PROPID_GRAB_SENSOR_PROPS_SELECT_2
| VRM_PROPID_GRAB_SENSOR_PROPS_SELECT_3
| VRM_PROPID_GRAB_SENSOR_PROPS_SELECT_4
| VRM_PROPID_CAM_GAIN_MONOCHROME_I
| VRM_PROPID_CAM_EXPOSURE_TIME_F
| VRM_PROPID_OTHER (id : Z).

Inductive VRmColorFormat :=
| VRM_BGR_3X8
| VRM_COLOR_OTHER (tag : Z).

Inductive VRmPropType :=
| VRM_PROP_TYPE_BOOL
| VRM_PROP_TYPE_INT
| VRM_PROP_TYPE_FLOAT
| VRM_PROP_TYPE_STRING
| VRM_PROP_TYPE_ENUM
| VRM_PROP_TYPE_OTHER (tag : Z).

#[global] Instance VRmPropId_eq_dec : EqDecision VRmPropId.
Proof. solve_decision. Defined.
#[global] Instance VRmColorFormat_eq_dec : EqDecision VRmColorFormat.
Proof. solve_decision. Defined.
#[global] Instance VRmPropType_eq_dec : EqDecision VRmPropType.
Proof. solve_decision. Defined.

(** A C [float]: an IEEE 754 value, compared with the comparison of the
    standard ([SFltb] answers [false] as soon as an operand is a NaN). *)
Definition float := spec_float.

(** An opened device handle.  A null handle is [None] in the fields and
    arguments of type [option VRmUsbCamDevice]. *)
Definition VRmUsbCamDevice := positive.

Record VRmDeviceKey := mkDeviceKey {
  m_serial : Z;
  m_busy : bool;
  mp_manufacturer_str : string;
  mp_product_str : string
}.

Record VRmImageFormat := mkImageFormat {
  m_width : VRmDWORD;
  m_height : VRmDWORD;
  m_color_format : VRmColorFormat;
  m_image_modifier : Z
}.

(** [mp_buffer] is a bare pointer: the bytes found at each offset from it. *)
Record VRmImage := mkVRmImage {
  m_image_format : VRmImageFormat;
  mp_buffer : Z -> Byte.byte;
  m_pitch : VRmDWORD
}.

Record VRmPropInfo := mkPropInfo {
  m_id : VRmPropId;
  m_type : VRmPropType;
  m_description : string;
  m_writeable : bool
}.

Record VRmPropAttribsI := mkAttribsI {
  m_default_i : Z;
  m_min_i : Z;
  m_max_i : Z;
  m_step_i : Z
}.

Record VRmPropAttribsF := mkAttribsF {
  m_default_f : float;
  m_min_f : float;
  m_max_f : float;
  m_step_f : float
}.

(** ** Types of ROS *)

Record Time := mkTime { sec : Z; nsec : Z }.

(** [sensor_msgs::Image], with the three fields of its header first. *)
Record Image := mkImage {
  header_seq : Z;
  header_stamp : Time;
  header_frame_id : string;
  height : Z;
  width : Z;
  encoding : string;
  is_bigendian : Z;
  step : Z;
  data : list Byte.byte
}.

Definition BGR8 : string := "bgr8".

(** ** The configuration and the object *)

(** Modelled from the spec: [camera_handle.hpp], which declares [Config]
    and the members of [CameraHandle], is not among the sources.  The
    fields are the ones that [camera_handle.cpp] reads and writes, the
    CameraConfig of the spec: two ports, gain and exposure for each with the
    flags that ask for them, the acquisition timeout, the frame identifier
    and the logging flag.  The gains are [int] and the exposures [float]:
    they are passed by reference to the [int&] and [float&] overloads of
    [checkAndSanitizeProperty]. *)
Record Config := mkConfig {
  enableLogging : bool;
  portLeft : VRmDWORD;
  portRight : VRmDWORD;
  setGain : bool;
  gainLeft : Z;
  gainRight : Z;
  setExposure : bool;
  exposureLeft : float;
  exposureRight : float;
  timeout : Z;
  frameId : string
}.

(** Modelled from the spec: the members of [CameraHandle] that
    [camera_handle.cpp] uses, the DeviceHandle and TargetFormat of the spec
    next to the configuration. *)
Record CameraHandle := mkCameraHandle {
  conf : Config;
  device : option VRmUsbCamDevice;
  targetFormat : VRmImageFormat
}.

Definition set_conf (c : Config) (s : CameraHandle) : CameraHandle :=
  mkCameraHandle c (device s) (targetFormat s).
Definition set_device (d : option VRmUsbCamDevice) (s : CameraHandle) : CameraHandle :=
  mkCameraHandle (conf s) d (targetFormat s).
Definition set_targetFormat (f : VRmImageFormat) (s : CameraHandle) : CameraHandle :=
  mkCameraHandle (conf s) (device s) f.

Definition set_gainLeft (v : Z) (c : Config) : Config :=
  mkConfig (enableLogging c) (portLeft c) (portRight c) (setGain c) v (gainRight c)
           (setExposure c) (exposureLeft c) (exposureRight c) (timeout c) (frameId c).
Definition set_gainRight (v : Z) (c : Config) : Config :=
  mkConfig (enableLogging c) (portLeft c) (portRight c) (setGain c) (gainLeft c) v
           (setExposure c) (exposureLeft c) (exposureRight c) (timeout c) (frameId c).
Definition set_exposureLeft (v : float) (c : Config) : Config :=
  mkConfig (enableLogging c) (portLeft c) (portRight c) (setGain c) (gainLeft c) (gainRight c)
           (setExposure c) v (exposureRight c) (timeout c) (frameId c).
Definition set_exposureRight (v : float) (c : Config) : Config :=
  mkConfig (enableLogging c) (portLeft c) (portRight c) (setGain c) (gainLeft c) (gainRight c)
           (setExposure c) (exposureLeft c) v (timeout c) (frameId c).

(** ** Events of a run *)

Inductive Level := Info | Warn | Error | Fatal.

(** An argument of a printf-style console message. *)
Inductive Arg :=
| ArgZ (z : Z)
| ArgS (s : string)
| ArgF (f : float).

(** One constructor for each SDK entry point the code calls, holding the
    arguments of the call and then what the SDK answered: [None] or [false]
    when the call returned failure, the value left in the output parameter
    otherwise.  [EvLog] is a message given to [ROS_INFO], [ROS_WARN],
    [ROS_ERROR] or [ROS_FATAL], which print and return.

    The value written by [VRmUsbCamSetPropertyValueE] is passed by address
    ([&sensorProp] in [setSensorActive]): an [option VRmPropId], [Some] of
    the value pointed to. *)
Inductive Event :=
| EvLog (l : Level) (fmt : string) (args : list Arg)
| EvGetLastError (r : string)
| EvEnableLogging
| EvCleanup
| EvStop (d : option VRmUsbCamDevice)
| EvCloseDevice (d : option VRmUsbCamDevice)
| EvGetVersion (r : option VRmDWORD)
| EvGetDeviceKeyListSize (r : option VRmDWORD)
| EvGetDeviceKeyListEntry (i : VRmDWORD) (r : option VRmDeviceKey)
| EvOpenDevice (k : VRmDeviceKey) (r : option VRmUsbCamDevice)
| EvFreeDeviceKey (k : VRmDeviceKey) (r : bool)
| EvSetPropertyValueE (d : option VRmUsbCamDevice) (p : VRmPropId)
                      (v : option VRmPropId) (r : bool)
| EvSetPropertyValueI (d : option VRmUsbCamDevice) (p : VRmPropId) (v : Z) (r : bool)
| EvSetPropertyValueF (d : option VRmUsbCamDevice) (p : VRmPropId) (v : float) (r : bool)
| EvSetPropertyValueB (d : option VRmUsbCamDevice) (p : VRmPropId) (v : Z) (r : bool)
| EvGetPropertySupported (d : option VRmUsbCamDevice) (p : VRmPropId) (r : option bool)
| EvGetPropertyInfo (d : option VRmUsbCamDevice) (p : VRmPropId) (r : option VRmPropInfo)
| EvGetPropertyAttribsI (d : option VRmUsbCamDevice) (p : VRmPropId)
                        (r : bool * VRmPropAttribsI)
| EvGetPropertyAttribsF (d : option VRmUsbCamDevice) (p : VRmPropId)
                        (r : bool * VRmPropAttribsF)
| EvGetSourceFormatEx (d : option VRmUsbCamDevice) (port : VRmDWORD)
                      (r : option VRmImageFormat)
| EvGetStringFromColorFormat (c : VRmColorFormat) (r : option string)
| EvGetTargetFormatListSizeEx2 (d : option VRmUsbCamDevice) (port : VRmDWORD)
                               (r : option VRmDWORD)
| EvGetTargetFormatListEntryEx2 (d : option VRmUsbCamDevice) (port i : VRmDWORD)
                                (r : option VRmImageFormat)
| EvResetFrameCounter (d : option VRmUsbCamDevice) (r : bool)
| EvStart (d : option VRmUsbCamDevice) (r : bool)
| EvLockNextImageEx2 (d : option VRmUsbCamDevice) (port : VRmDWORD) (timeout : Z)
                     (r : option (VRmImage * VRmDWORD))
| EvNewImage (f : VRmImageFormat) (r : option VRmImage)
| EvConvertImage (src tgt : VRmImage) (r : option VRmImage)
| EvFreeImage (im : VRmImage) (r : bool)
| EvUnlockNextImage (d : option VRmUsbCamDevice) (src : VRmImage) (r : bool).

Definition History := list Event.

(** ** The SDK

    Each entry point answers from the history of the run so far and its
    arguments: any deterministic device and library is such a record.
    [VRmUsbCamGetPropertyAttribsI] and [..F] give the return value and the
    content of the output structure after the call, since the code reads the
    structure without looking at the return value.  [VRmUsbCamOpenDevice]
    gives a handle that is not null when it succeeds, and
    [VRmUsbCamConvertImage] the target image as it is after the conversion. *)
Record VRmUsbCam := mkSdk {
  VRmUsbCamGetLastError : History -> string;
  VRmUsbCamGetVersion : History -> option VRmDWORD;
  VRmUsbCamGetDeviceKeyListSize : History -> option VRmDWORD;
  VRmUsbCamGetDeviceKeyListEntry : History -> VRmDWORD -> option VRmDeviceKey;
  VRmUsbCamOpenDevice : History -> VRmDeviceKey -> option VRmUsbCamDevice;
  VRmUsbCamFreeDeviceKey : History -> VRmDeviceKey -> bool;
  VRmUsbCamSetPropertyValueE :
    History -> option VRmUsbCamDevice -> VRmPropId -> option VRmPropId -> bool;
  VRmUsbCamSetPropertyValueI :
    History -> option VRmUsbCamDevice -> VRmPropId -> Z -> bool;
  VRmUsbCamSetPropertyValueF :
    History -> option VRmUsbCamDevice -> VRmPropId -> float -> bool;
  VRmUsbCamSetPropertyValueB :
    History -> option VRmUsbCamDevice -> VRmPropId -> Z -> bool;
  VRmUsbCamGetPropertySupported :
    History -> option VRmUsbCamDevice -> VRmPropId -> option bool;
  VRmUsbCamGetPropertyInfo :
    History -> option VRmUsbCamDevice -> VRmPropId -> option VRmPropInfo;
  VRmUsbCamGetPropertyAttribsI :
    History -> option VRmUsbCamDevice -> VRmPropId -> bool * VRmPropAttribsI;
  VRmUsbCamGetPropertyAttribsF :
    History -> option VRmUsbCamDevice -> VRmPropId -> bool * VRmPropAttribsF;
  VRmUsbCamGetSourceFormatEx :
    History -> option VRmUsbCamDevice -> VRmDWORD -> option VRmImageFormat;
  VRmUsbCamGetStringFromColorFormat : History -> VRmColorFormat -> option string;
  VRmUsbCamGetTargetFormatListSizeEx2 :
    History -> option VRmUsbCamDevice -> VRmDWORD -> option VRmDWORD;
  VRmUsbCamGetTargetFormatListEntryEx2 :
    History -> option VRmUsbCamDevice -> VRmDWORD -> VRmDWORD -> option VRmImageFormat;
  VRmUsbCamResetFrameCounter : History -> option VRmUsbCamDevice -> bool;
  VRmUsbCamStart : History -> option VRmUsbCamDevice -> bool;
  VRmUsbCamLockNextImageEx2 :
    History -> option VRmUsbCamDevice -> VRmDWORD -> Z -> option (VRmImage * VRmDWORD);
  VRmUsbCamNewImage : History -> VRmImageFormat -> option VRmImage;
  VRmUsbCamConvertImage : History -> VRmImage -> VRmImage -> option VRmImage;
  VRmUsbCamFreeImage : History -> VRmImage -> bool;
  VRmUsbCamUnlockNextImage : History -> option VRmUsbCamDevice -> VRmImage -> bool
}.

(** ** The monad of the member functions *)

(** How a call ends: it returns, the process has left through [exit], or
    the call has indexed a vector outside its bounds or run off the end of a
    function that returns a value, beyond which C++ says nothing. *)
Inductive Outcome (A : Type) :=
| Normal (a : A)
| Exited (code : Z)
| Undefined.
Arguments Normal {A} a.
Arguments Exited {A} code.
Arguments Undefined {A}.

Record Run (A : Type) := mkRun {
  outcome : Outcome A;
  self : CameraHandle;
  events : list Event
}.
Arguments mkRun {A} _ _ _.
Arguments outcome {A} _.
Arguments self {A} _.
Arguments events {A} _.

(** A computation reads the history so far and the object, and gives its
    outcome, the object after it and the events it has added. *)
Definition M (A : Type) : Type := History -> CameraHandle -> Run A.

Definition ret {A} (a : A) : M A := fun _ s => mkRun (Normal a) s [].

Definition bind {A B} (m : M A) (k : A -> M B) : M B :=
  fun h s =>
    match m h s with
    | mkRun (Normal a) s1 es1 =>
        match k a (h ++ es1) s1 with
        | mkRun o s2 es2 => mkRun o s2 (es1 ++ es2)
        end
    | mkRun (Exited c) s1 es1 => mkRun (Exited c) s1 es1
    | mkRun Undefined s1 es1 => mkRun Undefined s1 es1
    end.

Notation "x <- m ;; k" := (bind m (fun x => k))
  (at level 100, m at next level, right associativity).
Notation "m ;;; k" := (bind m (fun _ => k))
  (at level 100, right associativity).

Definition exit {A} (code : Z) : M A := fun _ s => mkRun (Exited code) s [].
Definition undefined {A} : M A := fun _ s => mkRun Undefined s [].
Definition emit (e : Event) : M unit := fun _ s => mkRun (Normal tt) s [e].
Definition this : M CameraHandle := fun _ s => mkRun (Normal s) s [].
Definition modify (f : CameraHandle -> CameraHandle) : M unit :=
  fun _ s => mkRun (Normal tt) (f s) [].

(** A call into the SDK: the answer is the SDK's at the current history,
    and the call is recorded with it. *)
Definition call {R} (f : History -> R) (ev : R -> Event) : M R :=
  fun h s => mkRun (Normal (f h)) s [ev (f h)].

Definition EXIT_FAILURE : Z := 1.

Definition ROS_INFO (fmt : string) (args : list Arg) : M unit := emit (EvLog Info fmt args).
Definition ROS_WARN (fmt : string) (args : list Arg) : M unit := emit (EvLog Warn fmt args).
Definition ROS_ERROR (fmt : string) (args : list Arg) : M unit := emit (EvLog Error fmt args).
Definition ROS_FATAL (fmt : string) (args : list Arg) : M unit := emit (EvLog Fatal fmt args).

(** ** Loops over vectors *)

(** [for (unsigned int i = i0; i < i0 + n; i++) body], on a value that an
    iteration may fail to produce. *)
Fixpoint for_each {D : Type} (n : nat) (i : Z) (body : Z -> D -> option D) (d : D)
  : option D :=
  match n with
  | O => Some d
  | S n' =>
      match body i d with
      | Some d' => for_each n' (i + 1) body d'
      | None => None
      end
  end.

(** [v[i] = b] on a [std::vector]: defined inside the bounds only. *)
Definition vec_store (i : Z) (b : Byte.byte) (v : list Byte.byte)
  : option (list Byte.byte) :=
  if decide (Z.to_nat i < length v)%nat then Some (<[Z.to_nat i := b]> v) else None.

(** The two nested loops at the end of [grabFrame], on 32-bit indices. *)
Definition copy_rows (tgt : VRmImage) (w h : Z) (v : list Byte.byte)
  : option (list Byte.byte) :=
  for_each (Z.to_nat h) 0
    (fun y v =>
       for_each (Z.to_nat (wrap32 (w * 3))) 0
         (fun x v =>
            vec_store (wrap32 (wrap32 (wrap32 (y * w) * 3) + x))
                      (mp_buffer tgt (wrap32 (wrap32 (y * m_pitch tgt) + x))) v)
         v)
    v.

(** ** The translation unit *)

Section Camera.

Variable sdk : VRmUsbCam.

Definition TARGET_COLOR_FORMAT : VRmColorFormat := VRM_BGR_3X8.

(** The [VRM_CHECK] macro, at the line where it is used. *)
Definition VRM_CHECK_failed {A} (line : Z) : M A :=
  err <- call (VRmUsbCamGetLastError sdk) EvGetLastError ;;
  ROS_ERROR "%s : Line %d" [ArgS err; ArgZ line] ;;;
  exit EXIT_FAILURE.

Definition VRM_CHECK {A} (line : Z) (c : M (option A)) : M A :=
  r <- c ;;
  match r with
  | Some a => ret a
  | None => VRM_CHECK_failed line
  end.

Definition VRM_CHECK_b (line : Z) (c : M bool) : M unit :=
  r <- c ;;
  if r : bool then ret tt else VRM_CHECK_failed line.

(** The [default] branch prints and then reaches the closing brace of a
    function that returns a [VRmPropId]: no [return] statement runs, and
    from there the behaviour of the program is undefined.  There is no
    [exit] after the message. *)
Definition portnumToPropId (port : VRmDWORD) : M (option VRmPropId) :=
  match port with
  | 1 => ret (Some VRM_PROPID_GRAB_SENSOR_PROPS_SELECT_1)
  | 2 => ret (Some VRM_PROPID_GRAB_SENSOR_PROPS_SELECT_2)
  | 3 => ret (Some VRM_PROPID_GRAB_SENSOR_PROPS_SELECT_3)
  | 4 => ret (Some VRM_PROPID_GRAB_SENSOR_PROPS_SELECT_4)
  | _ => ROS_FATAL "Cannot convert port to prop id: %d" [ArgZ port] ;;; undefined
  end.

Definition cameraShutdown : M unit := emit EvCleanup.

Fixpoint openDevice_loop (n : nat) (i : VRmDWORD) : M unit :=
  match n with
  | O => ret tt
  | S n' =>
      s <- this ;;
      match device s with
      | Some _ => ret tt
      | None =>
          devKey <- VRM_CHECK 92
            (call (fun h => VRmUsbCamGetDeviceKeyListEntry sdk h i)
                  (EvGetDeviceKeyListEntry i)) ;;
          (if m_busy devKey then ret tt
           else
             d <- VRM_CHECK 94
               (call (fun h => VRmUsbCamOpenDevice sdk h devKey) (EvOpenDevice devKey)) ;;
             modify (set_device (Some d)) ;;;
             ROS_INFO "Found device: %s [%s]"
                      [ArgS (mp_product_str devKey); ArgS (mp_manufacturer_str devKey)]) ;;;
          VRM_CHECK_b 97
            (call (fun h => VRmUsbCamFreeDeviceKey sdk h devKey) (EvFreeDeviceKey devKey)) ;;;
          openDevice_loop n' (i + 1)
      end
  end.

Definition openDevice : M unit :=
  libversion <- VRM_CHECK 80 (call (VRmUsbCamGetVersion sdk) EvGetVersion) ;;
  ROS_INFO "VR Magic lib has version %d" [ArgZ libversion] ;;;
  ROS_INFO "Scanning for devices" [] ;;;
  size <- VRM_CHECK 86 (call (VRmUsbCamGetDeviceKeyListSize sdk) EvGetDeviceKeyListSize) ;;
  ROS_INFO "Found %d devices" [ArgZ size] ;;;
  modify (set_device None) ;;;
  openDevice_loop (Z.to_nat size) 0 ;;;
  ROS_INFO "Trying to open device" [] ;;;
  s <- this ;;
  match device s with
  | None => ROS_FATAL "No suitable VRmagic device found!" [] ;;; exit (-1)
  | Some _ => ROS_INFO "Device opened" []
  end.

Definition setSensorActive (port : VRmDWORD) : M unit :=
  sensorProp <- portnumToPropId port ;;
  s <- this ;;
  _ <- call (fun h => VRmUsbCamSetPropertyValueE sdk h (device s)
                        VRM_PROPID_GRAB_SENSOR_PROPS_SELECT_E sensorProp)
            (EvSetPropertyValueE (device s) VRM_PROPID_GRAB_SENSOR_PROPS_SELECT_E sensorProp) ;;
  ret tt.

Definition getSourceFormat : M unit :=
  s <- this ;;
  sourceFormat <- VRM_CHECK 123
    (call (fun h => VRmUsbCamGetSourceFormatEx sdk h (device s) (portLeft (conf s)))
          (EvGetSourceFormatEx (device s) (portLeft (conf s)))) ;;
  source_color_format_str <- VRM_CHECK 126
    (call (fun h => VRmUsbCamGetStringFromColorFormat sdk h (m_color_format sourceFormat))
          (EvGetStringFromColorFormat (m_color_format sourceFormat))) ;;
  ROS_INFO "Selected source format: %d x %d (%s)"
           [ArgZ (m_width sourceFormat); ArgZ (m_height sourceFormat);
            ArgS source_color_format_str].

(** The loop of [setTargetFormat]: each entry is read into the member
    [targetFormat] itself. *)
Fixpoint setTargetFormat_loop (n : nat) (i : VRmDWORD) : M unit :=
  match n with
  | O => ret tt
  | S n' =>
      s <- this ;;
      f <- VRM_CHECK 138
        (call (fun h => VRmUsbCamGetTargetFormatListEntryEx2 sdk h (device s)
                          (portLeft (conf s)) i)
              (EvGetTargetFormatListEntryEx2 (device s) (portLeft (conf s)) i)) ;;
      modify (set_targetFormat f) ;;;
      if decide (m_color_format f = TARGET_COLOR_FORMAT) then ret tt
      else setTargetFormat_loop n' (i + 1)
  end.

Definition setTargetFormat : M unit :=
  s <- this ;;
  numberOfTargetFormats <- VRM_CHECK 136
    (call (fun h => VRmUsbCamGetTargetFormatListSizeEx2 sdk h (device s) (portLeft (conf s)))
          (EvGetTargetFormatListSizeEx2 (device s) (portLeft (conf s)))) ;;
  setTargetFormat_loop (Z.to_nat numberOfTargetFormats) 0 ;;;
  s <- this ;;
  (if decide (m_color_format (targetFormat s) = TARGET_COLOR_FORMAT) then ret tt
   else
     screen_color_format_str <- VRM_CHECK 145
       (call (fun h => VRmUsbCamGetStringFromColorFormat sdk h TARGET_COLOR_FORMAT)
             (EvGetStringFromColorFormat TARGET_COLOR_FORMAT)) ;;
     ROS_FATAL "%s not found in target format list." [ArgS screen_color_format_str] ;;;
     exit (-1)) ;;;
  targetColorFormatStr <- VRM_CHECK 151
    (call (fun h => VRmUsbCamGetStringFromColorFormat sdk h (m_color_format (targetFormat s)))
          (EvGetStringFromColorFormat (m_color_format (targetFormat s)))) ;;
  ROS_INFO "Selected target format: %d x %d (%s)"
           [ArgZ (m_width (targetFormat s)); ArgZ (m_height (targetFormat s));
            ArgS targetColorFormatStr].

(** [setSingleProperty(int, ...)].  The [bool] overloads have no caller:
    the one of [setSingleProperty] is [setSingleProperty_bool] further
    down, the one of [checkAndSanitizeProperty] is left out. *)
Definition setSingleProperty_int (value : Z) (property : VRmPropId) (port : VRmDWORD)
  : M unit :=
  setSensorActive port ;;;
  s <- this ;;
  supported <- VRM_CHECK 186
    (call (fun h => VRmUsbCamGetPropertySupported sdk h (device s) property)
          (EvGetPropertySupported (device s) property)) ;;
  if supported : bool then
    VRM_CHECK_b 189
      (call (fun h => VRmUsbCamSetPropertyValueI sdk h (device s) property value)
            (EvSetPropertyValueI (device s) property value)) ;;;
    propInfo <- VRM_CHECK 190
      (call (fun h => VRmUsbCamGetPropertyInfo sdk h (device s) property)
            (EvGetPropertyInfo (device s) property)) ;;
    ROS_INFO "%s changed to: %i" [ArgS (m_description propInfo); ArgZ value]
  else
    propInfo <- VRM_CHECK 193
      (call (fun h => VRmUsbCamGetPropertyInfo sdk h (device s) property)
            (EvGetPropertyInfo (device s) property)) ;;
    ROS_WARN "Property '%s' not supported!" [ArgS (m_description propInfo)].

(** [setSingleProperty(float, ...)] *)
Definition setSingleProperty_float (value : float) (property : VRmPropId) (port : VRmDWORD)
  : M unit :=
  setSensorActive port ;;;
  s <- this ;;
  supported <- VRM_CHECK 204
    (call (fun h => VRmUsbCamGetPropertySupported sdk h (device s) property)
          (EvGetPropertySupported (device s) property)) ;;
  if supported : bool then
    VRM_CHECK_b 207
      (call (fun h => VRmUsbCamSetPropertyValueF sdk h (device s) property value)
            (EvSetPropertyValueF (device s) property value)) ;;;
    propInfo <- VRM_CHECK 208
      (call (fun h => VRmUsbCamGetPropertyInfo sdk h (device s) property)
            (EvGetPropertyInfo (device s) property)) ;;
    ROS_INFO "%s changed to: %f ms" [ArgS (m_description propInfo); ArgF value]
  else
    propInfo <- VRM_CHECK 211
      (call (fun h => VRmUsbCamGetPropertyInfo sdk h (device s) property)
            (EvGetPropertyInfo (device s) property)) ;;
    ROS_WARN "Property '%s' not supported!" [ArgS (m_description propInfo)].

(** [checkAndSanitizeProperty(int&, ...)]: the result is the value of the
    reference parameter when the function returns. *)
Definition checkAndSanitizeProperty_int (value : Z) (property : VRmPropId) (name : string)
  : M Z :=
  s <- this ;;
  propInfo <- VRM_CHECK 256
    (call (fun h => VRmUsbCamGetPropertyInfo sdk h (device s) property)
          (EvGetPropertyInfo (device s) property)) ;;
  (if decide (VRM_PROP_TYPE_INT <> m_type propInfo)
   then ROS_ERROR "Invalid type of property!" [] else ret tt) ;;;
  r <- call (fun h => VRmUsbCamGetPropertyAttribsI sdk h (device s) property)
            (EvGetPropertyAttribsI (device s) property) ;;
  let attribs := snd r in
  if (value <? m_min_i attribs) || (value >? m_max_i attribs) then
    ROS_WARN "Invalid value for parameter %s, has to be in [%d,%d], but was: %d"
             [ArgS name; ArgZ (m_min_i attribs); ArgZ (m_max_i attribs); ArgZ value] ;;;
    ROS_WARN "Default will be used for %s: %d" [ArgS name; ArgZ (m_default_i attribs)] ;;;
    ret (m_default_i attribs)
  else ret value.

(** [checkAndSanitizeProperty(float&, ...)] *)
Definition checkAndSanitizeProperty_float (value : float) (property : VRmPropId)
  (name : string) : M float :=
  s <- this ;;
  propInfo <- VRM_CHECK 278
    (call (fun h => VRmUsbCamGetPropertyInfo sdk h (device s) property)
          (EvGetPropertyInfo (device s) property)) ;;
  (if decide (VRM_PROP_TYPE_FLOAT <> m_type propInfo)
   then ROS_ERROR "Invalid type of property!" [] else ret tt) ;;;
  r <- call (fun h => VRmUsbCamGetPropertyAttribsF sdk h (device s) property)
            (EvGetPropertyAttribsF (device s) property) ;;
  let attribs := snd r in
  if SFltb value (m_min_f attribs) || SFltb (m_max_f attribs) value then
    ROS_WARN "Invalid value for parameter %s, has to be in [%f,%f], but was: %f"
             [ArgS name; ArgF (m_min_f attribs); ArgF (m_max_f attribs); ArgF value] ;;;
    ROS_WARN "Default will be used for %s: %f" [ArgS name; ArgF (m_default_f attribs)] ;;;
    ret (m_default_f attribs)
  else ret value.

Definition checkAndSanitizeConfig : M unit :=
  s <- this ;;
  v <- checkAndSanitizeProperty_int (gainLeft (conf s))
         VRM_PROPID_CAM_GAIN_MONOCHROME_I "gainLeft" ;;
  modify (fun s => set_conf (set_gainLeft v (conf s)) s) ;;;
  s <- this ;;
  v <- checkAndSanitizeProperty_int (gainRight (conf s))
         VRM_PROPID_CAM_GAIN_MONOCHROME_I "gainRight" ;;
  modify (fun s => set_conf (set_gainRight v (conf s)) s) ;;;
  s <- this ;;
  v <- checkAndSanitizeProperty_float (exposureLeft (conf s))
         VRM_PROPID_CAM_EXPOSURE_TIME_F "exposureLeft" ;;
  modify (fun s => set_conf (set_exposureLeft v (conf s)) s) ;;;
  s <- this ;;
  v <- checkAndSanitizeProperty_float (exposureRight (conf s))
         VRM_PROPID_CAM_EXPOSURE_TIME_F "exposureRight" ;;
  modify (fun s => set_conf (set_exposureRight v (conf s)) s).

(** [setPropertyLeftAndRight<T>], at the two types it is used with. *)
Definition setPropertyLeftAndRight_int (valueLeft valueRight : Z) (property : VRmPropId)
  : M unit :=
  s <- this ;;
  setSingleProperty_int valueLeft property (portLeft (conf s)) ;;;
  s <- this ;;
  setSingleProperty_int valueRight property (portRight (conf s)).

Definition setPropertyLeftAndRight_float (valueLeft valueRight : float)
  (property : VRmPropId) : M unit :=
  s <- this ;;
  setSingleProperty_float valueLeft property (portLeft (conf s)) ;;;
  s <- this ;;
  setSingleProperty_float valueRight property (portRight (conf s)).

(** [setGain] and [setExposure]; the names without suffix are the flags of
    [Config]. *)
Definition setGainM : M unit :=
  s <- this ;;
  setPropertyLeftAndRight_int (gainLeft (conf s)) (gainRight (conf s))
                              VRM_PROPID_CAM_GAIN_MONOCHROME_I.

Definition setExposureM : M unit :=
  ROS_INFO "Set exposure" [] ;;;
  s <- this ;;
  setPropertyLeftAndRight_float (exposureLeft (conf s)) (exposureRight (conf s))
                                VRM_PROPID_CAM_EXPOSURE_TIME_F.

Definition setProperties : M unit :=
  checkAndSanitizeConfig ;;;
  s <- this ;;
  (if setGain (conf s) then setGainM else ret tt) ;;;
  s <- this ;;
  (if setExposure (conf s) then setExposureM else ret tt).

Definition initCamera : M unit :=
  openDevice ;;;
  s <- this ;;
  setSensorActive (portLeft (conf s)) ;;;
  setSensorActive (portRight (conf s)) ;;;
  getSourceFormat ;;;
  setTargetFormat ;;;
  setProperties.

Definition startCamera : M unit :=
  ROS_INFO "Starting the camera." [] ;;;
  s <- this ;;
  VRM_CHECK_b 323
    (call (fun h => VRmUsbCamResetFrameCounter sdk h (device s))
          (EvResetFrameCounter (device s))) ;;;
  VRM_CHECK_b 324
    (call (fun h => VRmUsbCamStart sdk h (device s)) (EvStart (device s))) ;;;
  ROS_INFO "Beginning to grab." [].

(** The constructor: the members [device] and [targetFormat] have no
    initialiser, so the object starts from whatever [s0] holds there. *)
Definition CameraHandle_new (c : Config) : M unit :=
  (if enableLogging c then emit EvEnableLogging else ret tt) ;;;
  modify (set_conf c) ;;;
  initCamera ;;;
  startCamera.

Definition CameraHandle_delete : M unit :=
  s <- this ;;
  emit (EvStop (device s)) ;;;
  emit (EvCloseDevice (device s)) ;;;
  emit EvCleanup.

(** [grabFrame]: [img] is the caller's message, and the result is that
    message when the function returns. *)
Definition grabFrame (port : VRmDWORD) (img : Image) (triggerTime : Time) : M Image :=
  s <- this ;;
  locked <- call (fun h => VRmUsbCamLockNextImageEx2 sdk h (device s) port (timeout (conf s)))
                 (EvLockNextImageEx2 (device s) port (timeout (conf s))) ;;
  match locked with
  | Some (sourceImg, framesDropped) =>
      fresh <- VRM_CHECK 343
        (call (fun h => VRmUsbCamNewImage sdk h (targetFormat s))
              (EvNewImage (targetFormat s))) ;;
      targetImage <- VRM_CHECK 344
        (call (fun h => VRmUsbCamConvertImage sdk h sourceImg fresh)
              (EvConvertImage sourceImg fresh)) ;;
      let img_width := m_width (m_image_format targetImage) in
      let img_height := m_height (m_image_format targetImage) in
      let img_step := wrap32 (img_width * 3) in
      let resized := resize (Z.to_nat (wrap32 (img_height * img_step))) Byte.x00 (data img) in
      match copy_rows targetImage img_width img_height resized with
      | None => undefined
      | Some packed =>
          VRM_CHECK_b 362
            (call (fun h => VRmUsbCamFreeImage sdk h targetImage) (EvFreeImage targetImage)) ;;;
          VRM_CHECK_b 364
            (call (fun h => VRmUsbCamUnlockNextImage sdk h (device s) sourceImg)
                  (EvUnlockNextImage (device s) sourceImg)) ;;;
          ret (mkImage (header_seq img) triggerTime (frameId (conf s)) img_height img_width
                       BGR8 (is_bigendian img) img_step packed)
      end
  | None =>
      err <- call (VRmUsbCamGetLastError sdk) EvGetLastError ;;
      ROS_FATAL "Could not lock image: %s" [ArgS err] ;;;
      ret img
  end.

Definition grabFrameLeft (img : Image) (triggerTime : Time) : M Image :=
  s <- this ;; grabFrame (portLeft (conf s)) img triggerTime.

Definition grabFrameRight (img : Image) (triggerTime : Time) : M Image :=
  s <- this ;; grabFrame (portRight (conf s)) img triggerTime.

End Camera.

(** ** A test bench

    An SDK that answers from fixed tables, whatever the history: the device
    key list, the target format list, the properties the sensor supports
    with their description and range, and the image that the next lock and
    conversion deliver.  It serves to run the functions on concrete input. *)

Record Bench := mkBench {
  bench_keys : list VRmDeviceKey;
  bench_formats : list VRmImageFormat;
  bench_supported : VRmPropId -> option bool;
  bench_info : VRmPropId -> option VRmPropInfo;
  bench_attribs_i : VRmPropId -> bool * VRmPropAttribsI;
  bench_attribs_f : VRmPropId -> bool * VRmPropAttribsF;
  bench_frame : option VRmImage
}.

Definition bench_sdk (b : Bench) : VRmUsbCam :=
  {| VRmUsbCamGetLastError := fun _ => "bench";
     VRmUsbCamGetVersion := fun _ => Some 4;
     VRmUsbCamGetDeviceKeyListSize := fun _ => Some (Z.of_nat (length (bench_keys b)));
     VRmUsbCamGetDeviceKeyListEntry := fun _ i => bench_keys b !! Z.to_nat i;
     VRmUsbCamOpenDevice := fun _ k => Some (Z.to_pos (m_serial k));
     VRmUsbCamFreeDeviceKey := fun _ _ => true;
     VRmUsbCamSetPropertyValueE := fun _ _ _ _ => true;
     VRmUsbCamSetPropertyValueI := fun _ _ _ _ => true;
     VRmUsbCamSetPropertyValueF := fun _ _ _ _ => true;
     VRmUsbCamSetPropertyValueB := fun _ _ _ _ => true;
     VRmUsbCamGetPropertySupported := fun _ _ p => bench_supported b p;
     VRmUsbCamGetPropertyInfo := fun _ _ p => bench_info b p;
     VRmUsbCamGetPropertyAttribsI := fun _ _ p => bench_attribs_i b p;
     VRmUsbCamGetPropertyAttribsF := fun _ _ p => bench_attribs_f b p;
     VRmUsbCamGetSourceFormatEx := fun _ _ _ => head (bench_formats b);
     VRmUsbCamGetStringFromColorFormat := fun _ c =>
       Some (match c with VRM_BGR_3X8 => "BGR_3X8" | VRM_COLOR_OTHER _ => "other" end);
     VRmUsbCamGetTargetFormatListSizeEx2 := fun _ _ _ =>
       Some (Z.of_nat (length (bench_formats b)));
     VRmUsbCamGetTargetFormatListEntryEx2 := fun _ _ _ i => bench_formats b !! Z.to_nat i;
     VRmUsbCamResetFrameCounter := fun _ _ => true;
     VRmUsbCamStart := fun _ _ => true;
     VRmUsbCamLockNextImageEx2 := fun _ _ _ _ =>
       match bench_frame b with Some im => Some (im, 0) | None => None end;
     VRmUsbCamNewImage := fun _ f => Some (mkVRmImage f (fun _ => Byte.x00) (m_width f * 3));
     VRmUsbCamConvertImage := fun _ src _ => Some src;
     VRmUsbCamFreeImage := fun _ _ => true;
     VRmUsbCamUnlockNextImage := fun _ _ _ => true |}.

Definition gain_info : VRmPropInfo :=
  mkPropInfo VRM_PROPID_CAM_GAIN_MONOCHROME_I VRM_PROP_TYPE_INT "Gain" true.
Definition exposure_info : VRmPropInfo :=
  mkPropInfo VRM_PROPID_CAM_EXPOSURE_TIME_F VRM_PROP_TYPE_FLOAT "Exposure Time" true.

(** Values of binary32 used on the bench, with their 24-bit mantissa:
    0.5, 1, 2 and 5, and a NaN. *)
Definition f_half : float := S754_finite false 8388608 (-24).
Definition f_one : float := S754_finite false 8388608 (-23).
Definition f_two : float := S754_finite false 8388608 (-22).
Definition f_five : float := S754_finite false 10485760 (-21).
Definition f_nan : float := S754_nan.

Definition bench_bgr : VRmImageFormat := mkImageFormat 2 2 VRM_BGR_3X8 0.
Definition bench_gray : VRmImageFormat := mkImageFormat 2 2 (VRM_COLOR_OTHER 4) 0.

(** A converted 2 x 2 image with a pitch of 8 bytes: the byte at offset [o]
    is [o] itself, so that the two padding bytes of each row can be told
    from the pixels. *)
Definition bench_image : VRmImage :=
  mkVRmImage bench_bgr (fun o => default Byte.xff (Byte.of_N (Z.to_N o))) 8.

Definition bench : Bench :=
  {| bench_keys := [mkDeviceKey 7 true "VRmagic" "D3"; mkDeviceKey 8 false "VRmagic" "D3";
                    mkDeviceKey 9 false "VRmagic" "D3"];
     bench_formats := [bench_gray; bench_bgr; mkImageFormat 4 4 VRM_BGR_3X8 0];
     bench_supported := fun p =>
       Some (if decide (p = VRM_PROPID_CAM_GAIN_MONOCHROME_I) then true else false);
     bench_info := fun p =>
       Some (if decide (p = VRM_PROPID_CAM_GAIN_MONOCHROME_I) then gain_info
             else exposure_info);
     bench_attribs_i := fun _ => (true, mkAttribsI 500 0 1000 1);
     bench_attribs_f := fun _ => (true, mkAttribsF f_one f_half f_two f_half);
     bench_frame := Some bench_image |}.

Definition bench_conf : Config :=
  mkConfig false 1 2 true 5000 10 true f_one f_five 100 "camera".

Definition bench_handle : CameraHandle :=
  mkCameraHandle bench_conf (Some 8%positive) bench_bgr.

Definition blank_image : Image :=
  mkImage 0 (mkTime 0 0) "" 0 0 "" 0 0 [].

(** ** Predicates on runs *)

Definition is_log (l : Level) (e : Event) : bool :=
  match e with
  | EvLog l' _ _ =>
      match l, l' with
      | Info, Info | Warn, Warn | Error, Error | Fatal, Fatal => true
      | _, _ => false
      end
  | _ => false
  end.

(** Writes of a property value: the sensor select of [setSensorActive] is
    [is_select], the typed setters of [setSingleProperty] are
    [is_value_write]. *)
Definition is_select (e : Event) : bool :=
  match e with
  | EvSetPropertyValueE _ VRM_PROPID_GRAB_SENSOR_PROPS_SELECT_E _ _ => true
  | _ => false
  end.

Definition is_value_write (e : Event) : bool :=
  match e with
  | EvSetPropertyValueI _ _ _ _ | EvSetPropertyValueF _ _ _ _
  | EvSetPropertyValueB _ _ _ _ => true
  | _ => false
  end.

(** Every call that changes the state of the device or of the library. *)
Definition is_hardware_write (e : Event) : bool :=
  match e with
  | EvSetPropertyValueE _ _ _ _ | EvSetPropertyValueI _ _ _ _
  | EvSetPropertyValueF _ _ _ _ | EvSetPropertyValueB _ _ _ _
  | EvOpenDevice _ _ | EvResetFrameCounter _ _ | EvStart _ _ | EvStop _
  | EvCloseDevice _ | EvCleanup | EvEnableLogging => true
  | _ => false
  end.

(** The sensor select that a port number stands for. *)
Definition port_select (port : VRmDWORD) : option VRmPropId :=
  match port with
  | 1 => Some VRM_PROPID_GRAB_SENSOR_PROPS_SELECT_1
  | 2 => Some VRM_PROPID_GRAB_SENSOR_PROPS_SELECT_2
  | 3 => Some VRM_PROPID_GRAB_SENSOR_PROPS_SELECT_3
  | 4 => Some VRM_PROPID_GRAB_SENSOR_PROPS_SELECT_4
  | _ => None
  end.

(** The range test of [checkAndSanitizeProperty], on [int] and on [float]:
    [value < attribs.m_min || value > attribs.m_max]. *)
Definition out_of_range_i (a : VRmPropAttribsI) (value : Z) : bool :=
  (value <? m_min_i a) || (value >? m_max_i a).

Definition out_of_range_f (a : VRmPropAttribsF) (value : float) : bool :=
  SFltb value (m_min_f a) || SFltb (m_max_f a) value.

(** The sensor that the device has selected after the calls of a history:
    the value of the last write of the sensor select, if there is one. *)
Fixpoint selected_sensor (h : History) (cur : option (option VRmPropId))
  : option (option VRmPropId) :=
  match h with
  | [] => cur
  | EvSetPropertyValueE _ VRM_PROPID_GRAB_SENSOR_PROPS_SELECT_E v true :: h' =>
      selected_sensor h' (Some v)
  | _ :: h' => selected_sensor h' cur
  end.

(** An operation selects its target port first: the first event of its run
    is the write of the sensor select of that port. *)
Definition activates_first {A} (port : VRmDWORD) (r : Run A) : Prop :=
  exists p ok rest,
    port_select port = Some p /\
    events r =
      EvSetPropertyValueE (device (self r)) VRM_PROPID_GRAB_SENSOR_PROPS_SELECT_E (Some p) ok
      :: rest.

(** A frame is tightly packed from the converted image [tgt]: the buffer
    has [height * step] bytes, a row is [width * 3] bytes, and byte [x] of
    row [y] is the byte of [tgt] at [y * pitch + x]. *)
Definition tightly_packed (tgt : VRmImage) (img : Image) : Prop :=
  Z.of_nat (length (data img)) = height img * step img /\
  step img = width img * 3 /\
  forall y x, 0 <= y < height img -> 0 <= x < width img * 3 ->
    data img !! Z.to_nat (y * (width img * 3) + x)
    = Some (mp_buffer tgt (y * m_pitch tgt + x)).

(** The events that [checkAndSanitizeProperty] adds on a value out of
    range, and on a declared type that is not the expected one. *)
Definition warnings_i (name : string) (a : VRmPropAttribsI) (value : Z) : list Event :=
  [EvLog Warn "Invalid value for parameter %s, has to be in [%d,%d], but was: %d"
     [ArgS name; ArgZ (m_min_i a); ArgZ (m_max_i a); ArgZ value];
   EvLog Warn "Default will be used for %s: %d" [ArgS name; ArgZ (m_default_i a)]].

Definition warnings_f (name : string) (a : VRmPropAttribsF) (value : float) : list Event :=
  [EvLog Warn "Invalid value for parameter %s, has to be in [%f,%f], but was: %f"
     [ArgS name; ArgF (m_min_f a); ArgF (m_max_f a); ArgF value];
   EvLog Warn "Default will be used for %s: %f" [ArgS name; ArgF (m_default_f a)]].

Definition type_error (expected actual : VRmPropType) : list Event :=
  if decide (expected <> actual) then [EvLog Error "Invalid type of property!" []] else [].

(** The history of the two activations of [initCamera] on the bench. *)
Definition bench_activations : History :=
  events ((setSensorActive (bench_sdk bench) (portLeft bench_conf) ;;;
           setSensorActive (bench_sdk bench) (portRight bench_conf)) [] bench_handle).

(** A bench on which no frame arrives before the timeout. *)
Definition bench_dark : Bench :=
  mkBench (bench_keys bench) (bench_formats bench) (bench_supported bench)
          (bench_info bench) (bench_attribs_i bench) (bench_attribs_f bench) None.


(** A converted image one pixel wide, with rows of 4 bytes, whose height
    times 3 does not fit in 32 bits: 1431655766 * 3 = 2 ^ 32 + 2. *)
Definition tall_image : VRmImage :=
  mkVRmImage (mkImageFormat 1 1431655766 VRM_BGR_3X8 0) (fun _ => Byte.x2a) 4.

Definition bench_tall : Bench :=
  mkBench (bench_keys bench) (bench_formats bench) (bench_supported bench)
          (bench_info bench) (bench_attribs_i bench) (bench_attribs_f bench)
          (Some tall_image).

(** The object once that format has been negotiated. *)
Definition tall_handle : CameraHandle :=
  mkCameraHandle bench_conf (Some 8%positive) (m_image_format tall_image).

(** The invariants of the two loops of [copy_rows] on an image of [ht]
    rows of [w] pixels: the rows before [y] are in place in [v], and the
    bytes before [x] of row [y] as well. *)
Definition rows_done (tgt : VRmImage) (w ht y : Z) (v : list Byte.byte) : Prop :=
  Z.of_nat (length v) = ht * (w * 3) /\
  forall y' x', 0 <= y' < y -> 0 <= x' < w * 3 ->
    v !! Z.to_nat (y' * (w * 3) + x') = Some (mp_buffer tgt (y' * m_pitch tgt + x')).

Definition row_partly_done (tgt : VRmImage) (w ht y x : Z) (v : list Byte.byte) : Prop :=
  rows_done tgt w ht y v /\
  forall x', 0 <= x' < x ->
    v !! Z.to_nat (y * (w * 3) + x') = Some (mp_buffer tgt (y * m_pitch tgt + x')).

(** The device key list that the SDK serves is [keys], at every moment of
    the run; an entry [None] is one whose query fails. *)
Definition serves_keys (sdk : VRmUsbCam) (keys : list (option VRmDeviceKey)) : Prop :=
  (forall h, VRmUsbCamGetDeviceKeyListSize sdk h = Some (Z.of_nat (length keys))) /\
  (forall h (j : nat) e,
     keys !! j = Some e -> VRmUsbCamGetDeviceKeyListEntry sdk h (Z.of_nat j) = e).

(** The events of the loop of [openDevice] on busy entries, from index [i]:
    each is read and freed. *)
Fixpoint skipped (i : Z) (ks : list VRmDeviceKey) : list Event :=
  match ks with
  | [] => []
  | k :: ks' =>
      EvGetDeviceKeyListEntry i (Some k) :: EvFreeDeviceKey k true :: skipped (i + 1) ks'
  end.

(** The events of [openDevice] before its loop. *)
Definition scan_events (version size : VRmDWORD) : list Event :=
  [EvGetVersion (Some version);
   EvLog Info "VR Magic lib has version %d" [ArgZ version];
   EvLog Info "Scanning for devices" [];
   EvGetDeviceKeyListSize (Some size);
   EvLog Info "Found %d devices" [ArgZ size]].

Definition is_open (e : Event) : bool :=
  match e with EvOpenDevice _ _ => true | _ => false end.

(** The list of target formats that the SDK serves is [fmts], for every
    device and port and at every moment of the run. *)
Definition serves_formats (sdk : VRmUsbCam) (fmts : list VRmImageFormat) : Prop :=
  (forall h d port,
     VRmUsbCamGetTargetFormatListSizeEx2 sdk h d port = Some (Z.of_nat (length fmts))) /\
  (forall h d port (j : nat) f,
     fmts !! j = Some f ->
     VRmUsbCamGetTargetFormatListEntryEx2 sdk h d port (Z.of_nat j) = Some f).

(** The events of the loop of [setTargetFormat] on the entries [fs], read
    from index [i]. *)
Fixpoint fetched (d : option VRmUsbCamDevice) (port i : Z) (fs : list VRmImageFormat)
  : list Event :=
  match fs with
  | [] => []
  | f :: fs' => EvGetTargetFormatListEntryEx2 d port i (Some f) :: fetched d port (i + 1) fs'
  end.

(** The object after the entries [fs] have been read into [targetFormat]. *)
Definition after_fetch (fs : list VRmImageFormat) (s : CameraHandle) : CameraHandle :=
  fold_left (fun s f => set_targetFormat f s) fs s.

Definition is_bgr (f : VRmImageFormat) : Prop := m_color_format f = TARGET_COLOR_FORMAT.

(** A bench whose device offers no target format at all. *)
Definition bench_no_formats : Bench :=
  mkBench (bench_keys bench) [] (bench_supported bench)
          (bench_info bench) (bench_attribs_i bench) (bench_attribs_f bench)
          (bench_frame bench).

(** ** Frame conditions and postconditions *)

(** [keeps f m]: whatever the SDK answers and however [m] ends, the object
    after [m] has the same [f] as before. *)
Definition keeps {A B} (f : CameraHandle -> B) (m : M A) : Prop :=
  forall h s, f (self (m h s)) = f s.

(** [ensures P Q m]: from an object in [P], when [m] returns the object is
    in [Q]. *)
Definition ensures {A} (P Q : CameraHandle -> Prop) (m : M A) : Prop :=
  forall h s, P s -> forall a, outcome (m h s) = Normal a -> Q (self (m h s)).

(** [silent f m]: no event of [m] is in [f]. *)
Definition silent {A} (f : Event -> bool) (m : M A) : Prop :=
  forall h s, existsb f (events (m h s)) = false.

(** The part of the configuration that the sanitizer leaves alone. *)
Definition setup_of (c : Config) : bool * VRmDWORD * VRmDWORD * bool * bool * Z * string :=
  (enableLogging c, portLeft c, portRight c, setGain c, setExposure c, timeout c,
   frameId c).

Definition setup (s : CameraHandle) := setup_of (conf s).

(** [setSingleProperty(bool, ...)]: the value goes to the SDK as an
    [unsigned int], 0 or 1. *)
Definition setSingleProperty_bool (sdk : VRmUsbCam) (value : bool) (property : VRmPropId)
  (port : VRmDWORD) : M unit :=
  let valAsInt := Z.b2z value in
  setSensorActive sdk port ;;;
  s <- this ;;
  supported <- VRM_CHECK sdk 223
    (call (fun h => VRmUsbCamGetPropertySupported sdk h (device s) property)
          (EvGetPropertySupported (device s) property)) ;;
  if supported : bool then
    VRM_CHECK_b sdk 226
      (call (fun h => VRmUsbCamSetPropertyValueB sdk h (device s) property valAsInt)
            (EvSetPropertyValueB (device s) property valAsInt)) ;;;
    propInfo <- VRM_CHECK sdk 227
      (call (fun h => VRmUsbCamGetPropertyInfo sdk h (device s) property)
            (EvGetPropertyInfo (device s) property)) ;;
    ROS_INFO "%s changed to: %d ms" [ArgS (m_description propInfo); ArgZ (Z.b2z value)]
  else
    propInfo <- VRM_CHECK sdk 230
      (call (fun h => VRmUsbCamGetPropertyInfo sdk h (device s) property)
            (EvGetPropertyInfo (device s) property)) ;;
    ROS_WARN "Property '%s' not supported!" [ArgS (m_description propInfo)].

(** The bench SDK with a sensor select that the device refuses. *)
Definition stuck_sdk (b : Bench) : VRmUsbCam :=
  let sdk := bench_sdk b in
  {| VRmUsbCamGetLastError := VRmUsbCamGetLastError sdk;
     VRmUsbCamGetVersion := VRmUsbCamGetVersion sdk;
     VRmUsbCamGetDeviceKeyListSize := VRmUsbCamGetDeviceKeyListSize sdk;
     VRmUsbCamGetDeviceKeyListEntry := VRmUsbCamGetDeviceKeyListEntry sdk;
     VRmUsbCamOpenDevice := VRmUsbCamOpenDevice sdk;
     VRmUsbCamFreeDeviceKey := VRmUsbCamFreeDeviceKey sdk;
     VRmUsbCamSetPropertyValueE := fun _ _ _ _ => false;
     VRmUsbCamSetPropertyValueI := VRmUsbCamSetPropertyValueI sdk;
     VRmUsbCamSetPropertyValueF := VRmUsbCamSetPropertyValueF sdk;
     VRmUsbCamSetPropertyValueB := VRmUsbCamSetPropertyValueB sdk;
     VRmUsbCamGetPropertySupported := VRmUsbCamGetPropertySupported sdk;
     VRmUsbCamGetPropertyInfo := VRmUsbCamGetPropertyInfo sdk;
     VRmUsbCamGetPropertyAttribsI := VRmUsbCamGetPropertyAttribsI sdk;
     VRmUsbCamGetPropertyAttribsF := VRmUsbCamGetPropertyAttribsF sdk;
     VRmUsbCamGetSourceFormatEx := VRmUsbCamGetSourceFormatEx sdk;
     VRmUsbCamGetStringFromColorFormat := VRmUsbCamGetStringFromColorFormat sdk;
     VRmUsbCamGetTargetFormatListSizeEx2 := VRmUsbCamGetTargetFormatListSizeEx2 sdk;
     VRmUsbCamGetTargetFormatListEntryEx2 := VRmUsbCamGetTargetFormatListEntryEx2 sdk;
     VRmUsbCamResetFrameCounter := VRmUsbCamResetFrameCounter sdk;
     VRmUsbCamStart := VRmUsbCamStart sdk;
     VRmUsbCamLockNextImageEx2 := VRmUsbCamLockNextImageEx2 sdk;
     VRmUsbCamNewImage := VRmUsbCamNewImage sdk;
     VRmUsbCamConvertImage := VRmUsbCamConvertImage sdk;
     VRmUsbCamFreeImage := VRmUsbCamFreeImage sdk;
     VRmUsbCamUnlockNextImage := VRmUsbCamUnlockNextImage sdk |}.

Definition is_start (e : Event) : bool :=
  match e with EvStart _ _ => true | _ => false end.

(** The bench SDK with devices that cannot be opened. *)
Definition locked_sdk (b : Bench) : VRmUsbCam :=
  let sdk := bench_sdk b in
  {| VRmUsbCamGetLastError := VRmUsbCamGetLastError sdk;
     VRmUsbCamGetVersion := VRmUsbCamGetVersion sdk;
     VRmUsbCamGetDeviceKeyListSize := VRmUsbCamGetDeviceKeyListSize sdk;
     VRmUsbCamGetDeviceKeyListEntry := VRmUsbCamGetDeviceKeyListEntry sdk;
     VRmUsbCamOpenDevice := fun _ _ => None;
     VRmUsbCamFreeDeviceKey := VRmUsbCamFreeDeviceKey sdk;
     VRmUsbCamSetPropertyValueE := VRmUsbCamSetPropertyValueE sdk;
     VRmUsbCamSetPropertyValueI := VRmUsbCamSetPropertyValueI sdk;
     VRmUsbCamSetPropertyValueF := VRmUsbCamSetPropertyValueF sdk;
     VRmUsbCamSetPropertyValueB := VRmUsbCamSetPropertyValueB sdk;
     VRmUsbCamGetPropertySupported := VRmUsbCamGetPropertySupported sdk;
     VRmUsbCamGetPropertyInfo := VRmUsbCamGetPropertyInfo sdk;
     VRmUsbCamGetPropertyAttribsI := VRmUsbCamGetPropertyAttribsI sdk;
     VRmUsbCamGetPropertyAttribsF := VRmUsbCamGetPropertyAttribsF sdk;
     VRmUsbCamGetSourceFormatEx := VRmUsbCamGetSourceFormatEx sdk;
     VRmUsbCamGetStringFromColorFormat := VRmUsbCamGetStringFromColorFormat sdk;
     VRmUsbCamGetTargetFormatListSizeEx2 := VRmUsbCamGetTargetFormatListSizeEx2 sdk;
     VRmUsbCamGetTargetFormatListEntryEx2 := VRmUsbCamGetTargetFormatListEntryEx2 sdk;
     VRmUsbCamResetFrameCounter := VRmUsbCamResetFrameCounter sdk;
     VRmUsbCamStart := VRmUsbCamStart sdk;
     VRmUsbCamLockNextImageEx2 := VRmUsbCamLockNextImageEx2 sdk;
     VRmUsbCamNewImage := VRmUsbCamNewImage sdk;
     VRmUsbCamConvertImage := VRmUsbCamConvertImage sdk;
     VRmUsbCamFreeImage := VRmUsbCamFreeImage sdk;
     VRmUsbCamUnlockNextImage := VRmUsbCamUnlockNextImage sdk |}.

Definition is_format_entry (e : Event) : bool :=
  match e with EvGetTargetFormatListEntryEx2 _ _ _ _ => true | _ => false end.

(** The names that the bench gives to the colour formats. *)
Definition bench_names (c : VRmColorFormat) : string :=
  match c with VRM_BGR_3X8 => "BGR_3X8" | VRM_COLOR_OTHER _ => "other" end.

(** A bench whose device converts to grey images only. *)
Definition bench_gray_only : Bench :=
  mkBench (bench_keys bench) [bench_gray] (bench_supported bench)
          (bench_info bench) (bench_attribs_i bench) (bench_attribs_f bench)
          (bench_frame bench).

Definition is_lock (e : Event) : bool :=
  match e with EvLockNextImageEx2 _ _ _ _ => true | _ => false end.

(** The bench SDK with a converter that fails. *)
Definition jammed_sdk (b : Bench) : VRmUsbCam :=
  let sdk := bench_sdk b in
  {| VRmUsbCamGetLastError := VRmUsbCamGetLastError sdk;
     VRmUsbCamGetVersion := VRmUsbCamGetVersion sdk;
     VRmUsbCamGetDeviceKeyListSize := VRmUsbCamGetDeviceKeyListSize sdk;
     VRmUsbCamGetDeviceKeyListEntry := VRmUsbCamGetDeviceKeyListEntry sdk;
     VRmUsbCamOpenDevice := VRmUsbCamOpenDevice sdk;
     VRmUsbCamFreeDeviceKey := VRmUsbCamFreeDeviceKey sdk;
     VRmUsbCamSetPropertyValueE := VRmUsbCamSetPropertyValueE sdk;
     VRmUsbCamSetPropertyValueI := VRmUsbCamSetPropertyValueI sdk;
     VRmUsbCamSetPropertyValueF := VRmUsbCamSetPropertyValueF sdk;
     VRmUsbCamSetPropertyValueB := VRmUsbCamSetPropertyValueB sdk;
     VRmUsbCamGetPropertySupported := VRmUsbCamGetPropertySupported sdk;
     VRmUsbCamGetPropertyInfo := VRmUsbCamGetPropertyInfo sdk;
     VRmUsbCamGetPropertyAttribsI := VRmUsbCamGetPropertyAttribsI sdk;
     VRmUsbCamGetPropertyAttribsF := VRmUsbCamGetPropertyAttribsF sdk;
     VRmUsbCamGetSourceFormatEx := VRmUsbCamGetSourceFormatEx sdk;
     VRmUsbCamGetStringFromColorFormat := VRmUsbCamGetStringFromColorFormat sdk;
     VRmUsbCamGetTargetFormatListSizeEx2 := VRmUsbCamGetTargetFormatListSizeEx2 sdk;
     VRmUsbCamGetTargetFormatListEntryEx2 := VRmUsbCamGetTargetFormatListEntryEx2 sdk;
     VRmUsbCamResetFrameCounter := VRmUsbCamResetFrameCounter sdk;
     VRmUsbCamStart := VRmUsbCamStart sdk;
     VRmUsbCamLockNextImageEx2 := VRmUsbCamLockNextImageEx2 sdk;
     VRmUsbCamNewImage := VRmUsbCamNewImage sdk;
     VRmUsbCamConvertImage := fun _ _ _ => None;
     VRmUsbCamFreeImage := VRmUsbCamFreeImage sdk;
     VRmUsbCamUnlockNextImage := VRmUsbCamUnlockNextImage sdk |}.

(** What [checkAndSanitizeProperty] makes of a value under the attributes
    [a], and what [checkAndSanitizeConfig] makes of a configuration under the
    attributes of the gain and of the exposure time. *)
Definition sanitized_i (a : VRmPropAttribsI) (v : Z) : Z :=
  if out_of_range_i a v then m_default_i a else v.

Definition sanitized_f (a : VRmPropAttribsF) (v : float) : float :=
  if out_of_range_f a v then m_default_f a else v.

Definition sanitized_conf (ai : VRmPropAttribsI) (af : VRmPropAttribsF) (c : Config)
  : Config :=
  mkConfig (enableLogging c) (portLeft c) (portRight c) (setGain c)
           (sanitized_i ai (gainLeft c)) (sanitized_i ai (gainRight c))
           (setExposure c)
           (sanitized_f af (exposureLeft c)) (sanitized_f af (exposureRight c))
           (timeout c) (frameId c).

(** A bench whose device supports every property. *)
Definition bench_full : Bench :=
  mkBench (bench_keys bench) (bench_formats bench) (fun _ => Some true)
          (bench_info bench) (bench_attribs_i bench) (bench_attribs_f bench)
          (bench_frame bench).

Definition is_int_write (e : Event) : bool :=
  match e with EvSetPropertyValueI _ _ _ _ => true | _ => false end.

Definition is_float_write (e : Event) : bool :=
  match e with EvSetPropertyValueF _ _ _ _ => true | _ => false end.

(** * Properties *)

(** ** Reading a run *)

Lemma bind_normal {A B} (m : M A) (k : A -> M B) h s a s1 es1 :
  m h s = mkRun (Normal a) s1 es1 ->
  bind m k h s =
    mkRun (outcome (k a (h ++ es1) s1)) (self (k a (h ++ es1) s1))
          (es1 ++ events (k a (h ++ es1) s1)).
Proof. intros E. unfold bind. rewrite E. destruct (k a (h ++ es1) s1). reflexivity. Qed.

Lemma bind_exited {A B} (m : M A) (k : A -> M B) h s c s1 es1 :
  m h s = mkRun (Exited c) s1 es1 ->
  bind m k h s = mkRun (Exited c) s1 es1.
Proof. intros E. unfold bind. rewrite E. reflexivity. Qed.

(** Unfolds the primitives of the monad in the goal and in the context. *)
Ltac run_prims :=
  unfold VRM_CHECK, VRM_CHECK_b, VRM_CHECK_failed,
         ROS_INFO, ROS_WARN, ROS_ERROR, ROS_FATAL,
         bind, call, emit, this, modify, exit, undefined, ret in *;
  simpl in *.

(** Splits a hypothesis [In e [e1; ...; en]] into its cases and keeps the
    ones where the constructors agree. *)
Ltac in_cases :=
  repeat match goal with
         | H : In _ (_ :: _) |- _ =>
             destruct H as [H | H]; [ try discriminate H | ]
         | H : In _ [] |- _ => destruct H
         | H : _ = _ \/ _ |- _ =>
             destruct H as [H | H]; [ try discriminate H | ]
         | H : False |- _ => destruct H
         | H : In _ (_ ++ _) |- _ => apply in_app_or in H; destruct H as [H | H]
         end.

(** Replaces a run [r] that the statement names with [let] by a variable
    and the equation that defines it. *)
Ltac name_run r :=
  intros r;
  let Hr := fresh "Hr" in
  match goal with
  | r' := ?body |- _ => constr_eq r r'; assert (Hr : r = body) by reflexivity
  end;
  clearbody r; revert Hr.

(** ** The sensor port selector *)

Lemma port_select_valid port : 1 <= port <= 4 -> is_Some (port_select port).
Proof.
  intros H.
  assert (port = 1 \/ port = 2 \/ port = 3 \/ port = 4) as [-> | [-> | [-> | ->]]] by lia;
    simpl; eauto.
Qed.

Lemma port_select_invalid port : ~ 1 <= port <= 4 -> port_select port = None.
Proof.
  intros H.
  destruct port as [ | p | p ]; [ reflexivity | | reflexivity ].
  destruct p as [ [ p | p | ] | [ p | [ p | p | ] | ] | ]; try reflexivity; lia.
Qed.

Section PortSelector.

Variable sdk : VRmUsbCam.

Lemma portnumToPropId_valid port p h s :
  port_select port = Some p ->
  portnumToPropId port h s = mkRun (Normal (Some p)) s [].
Proof.
  intros H.
  destruct port as [ | q | q ]; try discriminate H.
  destruct q as [ [ q | q | ] | [ q | [ q | q | ] | ] | ]; try discriminate H;
    simpl in H; injection H as <-; reflexivity.
Qed.

Lemma portnumToPropId_invalid port h s :
  port_select port = None ->
  portnumToPropId port h s =
    mkRun Undefined s [EvLog Fatal "Cannot convert port to prop id: %d" [ArgZ port]].
Proof.
  intros H.
  destruct port as [ | q | q ]; try reflexivity.
  destruct q as [ [ q | q | ] | [ q | [ q | q | ] | ] | ]; try discriminate H; reflexivity.
Qed.

(** On a port from 1 to 4, [setSensorActive] makes one call: the write of
    the sensor select for that port.  It returns whatever the SDK says. *)
Lemma setSensorActive_valid port p h s :
  port_select port = Some p ->
  setSensorActive sdk port h s =
    mkRun (Normal tt) s
      [EvSetPropertyValueE (device s) VRM_PROPID_GRAB_SENSOR_PROPS_SELECT_E (Some p)
         (VRmUsbCamSetPropertyValueE sdk h (device s)
            VRM_PROPID_GRAB_SENSOR_PROPS_SELECT_E (Some p))].
Proof.
  intros H. unfold setSensorActive, bind.
  rewrite (portnumToPropId_valid _ _ _ _ H). simpl.
  rewrite !app_nil_r. reflexivity.
Qed.

(** On any other port it prints at the fatal level and goes no further in
    any defined way: the process has not left, and no call to the device
    is part of the run. *)
Lemma setSensorActive_invalid port h s :
  port_select port = None ->
  setSensorActive sdk port h s =
    mkRun Undefined s [EvLog Fatal "Cannot convert port to prop id: %d" [ArgZ port]].
Proof.
  intros H. unfold setSensorActive, bind.
  rewrite (portnumToPropId_invalid _ _ _ H). reflexivity.
Qed.

(** The two runs of [setSensorActive]: the write of the select of the port
    and a return, or the message and nothing defined after it.  The object
    is as before in both. *)
Lemma setSensorActive_run port h s :
  (exists p ok,
     port_select port = Some p /\
     setSensorActive sdk port h s =
       mkRun (Normal tt) s
         [EvSetPropertyValueE (device s) VRM_PROPID_GRAB_SENSOR_PROPS_SELECT_E (Some p) ok])
  \/
  (port_select port = None /\
   setSensorActive sdk port h s =
     mkRun Undefined s [EvLog Fatal "Cannot convert port to prop id: %d" [ArgZ port]]).
Proof.
  destruct (port_select port) as [p | ] eqn:E.
  - left. exists p. eexists. rewrite (setSensorActive_valid _ _ _ _ E). auto.
  - right. rewrite (setSensorActive_invalid _ _ _ E). auto.
Qed.

End PortSelector.

(** ** Comparison of floats *)

Lemma SFcompare_swap (a b : float) :
  SFcompare b a = option_map CompOpp (SFcompare a b).
Proof.
  destruct a as [ sa | sa | | sa ma ea ], b as [ sb | sb | | sb mb eb ]; simpl;
    try reflexivity; try (destruct sa; reflexivity); try (destruct sb; reflexivity);
    try (destruct sa, sb; reflexivity).
  assert (Pos.compare_cont Eq mb ma = CompOpp (Pos.compare_cont Eq ma mb)) as Hm
    by (symmetry; apply (Pos.compare_cont_antisym ma mb Eq)).
  destruct sa, sb; simpl; try reflexivity;
    rewrite (Z.compare_antisym ea eb); destruct (ea ?= eb); simpl; try reflexivity;
    rewrite Hm; try rewrite CompOpp_involutive; reflexivity.
Qed.

(** [a <= b] excludes [b < a], also when an operand is a NaN. *)
Lemma SFleb_SFltb (a b : float) : SFleb a b = true -> SFltb b a = false.
Proof.
  unfold SFleb, SFltb. rewrite (SFcompare_swap a b).
  destruct (SFcompare a b) as [ [ | | ] | ]; simpl; congruence.
Qed.

Lemma in_range_f (a : VRmPropAttribsF) (v : float) :
  SFleb (m_min_f a) v = true -> SFleb v (m_max_f a) = true -> out_of_range_f a v = false.
Proof.
  intros H1 H2. unfold out_of_range_f.
  rewrite (SFleb_SFltb _ _ H1), (SFleb_SFltb _ _ H2). reflexivity.
Qed.

(** A NaN is neither below the minimum nor above the maximum. *)
Lemma out_of_range_f_nan (a : VRmPropAttribsF) : out_of_range_f a f_nan = false.
Proof. unfold out_of_range_f, SFltb. simpl. destruct (m_max_f a); reflexivity. Qed.

Lemma in_range_i (a : VRmPropAttribsI) (v : Z) :
  m_min_i a <= v <= m_max_i a <-> out_of_range_i a v = false.
Proof. unfold out_of_range_i. rewrite orb_false_iff, Z.ltb_ge, Z.gtb_ltb, Z.ltb_ge. lia. Qed.

Lemma out_of_range_i_spec (a : VRmPropAttribsI) (v : Z) :
  v < m_min_i a \/ m_max_i a < v <-> out_of_range_i a v = true.
Proof. unfold out_of_range_i. rewrite orb_true_iff, Z.ltb_lt, Z.gtb_ltb, Z.ltb_lt. lia. Qed.

Section PropertyConfigurator.

Variable sdk : VRmUsbCam.

Lemma checkAndSanitizeProperty_int_run value property name h s info :
  VRmUsbCamGetPropertyInfo sdk h (device s) property = Some info ->
  let e1 := EvGetPropertyInfo (device s) property (Some info) in
  let mism := type_error VRM_PROP_TYPE_INT (m_type info) in
  let ra := VRmUsbCamGetPropertyAttribsI sdk (h ++ e1 :: mism) (device s) property in
  checkAndSanitizeProperty_int sdk value property name h s =
    mkRun (Normal (if out_of_range_i (snd ra) value then m_default_i (snd ra) else value)) s
      (e1 :: mism ++ EvGetPropertyAttribsI (device s) property ra ::
         (if out_of_range_i (snd ra) value then warnings_i name (snd ra) value else [])).
Proof.
  intros Hinfo e1 mism ra. subst e1 mism ra.
  unfold checkAndSanitizeProperty_int, out_of_range_i, type_error, warnings_i. run_prims.
  rewrite !app_nil_r. rewrite Hinfo. simpl.
  destruct (decide (VRM_PROP_TYPE_INT <> m_type info)); simpl;
    rewrite <- ?app_assoc; simpl;
    destruct ((value <? _) || (value >? _)); reflexivity.
Qed.

Lemma checkAndSanitizeProperty_int_failed value property name h s :
  VRmUsbCamGetPropertyInfo sdk h (device s) property = None ->
  let e1 := EvGetPropertyInfo (device s) property None in
  checkAndSanitizeProperty_int sdk value property name h s =
    mkRun (Exited EXIT_FAILURE) s
      [e1; EvGetLastError (VRmUsbCamGetLastError sdk (h ++ [e1]));
       EvLog Error "%s : Line %d" [ArgS (VRmUsbCamGetLastError sdk (h ++ [e1])); ArgZ 256]].
Proof.
  intros Hinfo e1. subst e1.
  unfold checkAndSanitizeProperty_int. run_prims.
  rewrite !app_nil_r. rewrite Hinfo. simpl. reflexivity.
Qed.

Lemma checkAndSanitizeProperty_float_run value property name h s info :
  VRmUsbCamGetPropertyInfo sdk h (device s) property = Some info ->
  let e1 := EvGetPropertyInfo (device s) property (Some info) in
  let mism := type_error VRM_PROP_TYPE_FLOAT (m_type info) in
  let ra := VRmUsbCamGetPropertyAttribsF sdk (h ++ e1 :: mism) (device s) property in
  checkAndSanitizeProperty_float sdk value property name h s =
    mkRun (Normal (if out_of_range_f (snd ra) value then m_default_f (snd ra) else value)) s
      (e1 :: mism ++ EvGetPropertyAttribsF (device s) property ra ::
         (if out_of_range_f (snd ra) value then warnings_f name (snd ra) value else [])).
Proof.
  intros Hinfo e1 mism ra. subst e1 mism ra.
  unfold checkAndSanitizeProperty_float, out_of_range_f, type_error, warnings_f. run_prims.
  rewrite !app_nil_r. rewrite Hinfo. simpl.
  destruct (decide (VRM_PROP_TYPE_FLOAT <> m_type info)); simpl;
    rewrite <- ?app_assoc; simpl;
    destruct (SFltb value _ || SFltb _ value); reflexivity.
Qed.

Lemma checkAndSanitizeProperty_float_failed value property name h s :
  VRmUsbCamGetPropertyInfo sdk h (device s) property = None ->
  let e1 := EvGetPropertyInfo (device s) property None in
  checkAndSanitizeProperty_float sdk value property name h s =
    mkRun (Exited EXIT_FAILURE) s
      [e1; EvGetLastError (VRmUsbCamGetLastError sdk (h ++ [e1]));
       EvLog Error "%s : Line %d" [ArgS (VRmUsbCamGetLastError sdk (h ++ [e1])); ArgZ 278]].
Proof.
  intros Hinfo e1. subst e1.
  unfold checkAndSanitizeProperty_float. run_prims.
  rewrite !app_nil_r. rewrite Hinfo. simpl. reflexivity.
Qed.

(** What the sanitizer does once the SDK has reported a range. *)
Lemma sanitize_int_reported value property name h s d p ok a :
  let r := checkAndSanitizeProperty_int sdk value property name h s in
  In (EvGetPropertyAttribsI d p (ok, a)) (events r) ->
  outcome r = Normal (if out_of_range_i a value then m_default_i a else value)
  /\ self r = s
  /\ (out_of_range_i a value = false -> existsb (is_log Warn) (events r) = false)
  /\ (out_of_range_i a value = true ->
        exists pre, events r = pre ++ warnings_i name a value).
Proof.
  intros r Hin. subst r.
  destruct (VRmUsbCamGetPropertyInfo sdk h (device s) property) as [ info | ] eqn:Hinfo.
  - rewrite (checkAndSanitizeProperty_int_run _ _ _ _ _ _ Hinfo) in *. simpl in *.
    set (ra := VRmUsbCamGetPropertyAttribsI sdk _ _ _) in *.
    assert (ra = (ok, a)) as Hra.
    { unfold type_error, warnings_i in Hin.
      destruct (decide _), (out_of_range_i _ _); simpl in Hin; in_cases; congruence. }
    rewrite Hra in *. simpl.
    split; [ reflexivity | split; [ reflexivity | split ] ].
    + intros ->. unfold type_error. destruct (decide _); reflexivity.
    + intros ->. eexists (_ :: _ ++ [_]).
      simpl. rewrite <- app_assoc. reflexivity.
  - rewrite (checkAndSanitizeProperty_int_failed _ _ _ _ _ Hinfo) in Hin.
    simpl in Hin. in_cases.
Qed.

Lemma sanitize_float_reported value property name h s d p ok a :
  let r := checkAndSanitizeProperty_float sdk value property name h s in
  In (EvGetPropertyAttribsF d p (ok, a)) (events r) ->
  outcome r = Normal (if out_of_range_f a value then m_default_f a else value)
  /\ self r = s
  /\ (out_of_range_f a value = false -> existsb (is_log Warn) (events r) = false)
  /\ (out_of_range_f a value = true ->
        exists pre, events r = pre ++ warnings_f name a value).
Proof.
  intros r Hin. subst r.
  destruct (VRmUsbCamGetPropertyInfo sdk h (device s) property) as [ info | ] eqn:Hinfo.
  - rewrite (checkAndSanitizeProperty_float_run _ _ _ _ _ _ Hinfo) in *. simpl in *.
    set (ra := VRmUsbCamGetPropertyAttribsF sdk _ _ _) in *.
    assert (ra = (ok, a)) as Hra.
    { unfold type_error, warnings_f in Hin.
      destruct (decide _), (out_of_range_f _ _); simpl in Hin; in_cases; congruence. }
    rewrite Hra in *. simpl.
    split; [ reflexivity | split; [ reflexivity | split ] ].
    + intros ->. unfold type_error. destruct (decide _); reflexivity.
    + intros ->. eexists (_ :: _ ++ [_]).
      simpl. rewrite <- app_assoc. reflexivity.
  - rewrite (checkAndSanitizeProperty_float_failed _ _ _ _ _ Hinfo) in Hin.
    simpl in Hin. in_cases.
Qed.

End PropertyConfigurator.

(** The range test on the values that compare with the bounds.  Against
    the range that the hardware reports, a value within [min, max] comes
    back unchanged and no warning is printed; a value below [min] or above
    [max] is replaced by the reported default and the warning that names
    the default is printed.  This holds for [int] values and, with the
    comparison of IEEE 754, for the [float] values that the comparison
    orders. *)
Theorem checkAndSanitizeProperty_range sdk property name h s d p ok :
  (forall (value : Z) (a : VRmPropAttribsI),
     let r := checkAndSanitizeProperty_int sdk value property name h s in
     In (EvGetPropertyAttribsI d p (ok, a)) (events r) ->
     (m_min_i a <= value <= m_max_i a ->
        outcome r = Normal value /\ existsb (is_log Warn) (events r) = false) /\
     (value < m_min_i a \/ m_max_i a < value ->
        outcome r = Normal (m_default_i a) /\
        In (EvLog Warn "Default will be used for %s: %d" [ArgS name; ArgZ (m_default_i a)])
           (events r)))
  /\
  (forall (value : float) (a : VRmPropAttribsF),
     let r := checkAndSanitizeProperty_float sdk value property name h s in
     In (EvGetPropertyAttribsF d p (ok, a)) (events r) ->
     (SFleb (m_min_f a) value = true /\ SFleb value (m_max_f a) = true ->
        outcome r = Normal value /\ existsb (is_log Warn) (events r) = false) /\
     (SFltb value (m_min_f a) = true \/ SFltb (m_max_f a) value = true ->
        outcome r = Normal (m_default_f a) /\
        In (EvLog Warn "Default will be used for %s: %f" [ArgS name; ArgF (m_default_f a)])
           (events r))).
Proof.
  split; intros value a r Hin.
  - destruct (sanitize_int_reported _ _ _ _ _ _ _ _ _ _ Hin) as (Ho & _ & Hin_range & Hout).
    fold r in Ho, Hin_range, Hout. split; intros Hv.
    + apply in_range_i in Hv. rewrite Hv in Ho. auto.
    + apply out_of_range_i_spec in Hv. rewrite Hv in Ho. split; [ exact Ho | ].
      destruct (Hout Hv) as [pre ->]. apply in_or_app. right. simpl. auto.
  - destruct (sanitize_float_reported _ _ _ _ _ _ _ _ _ _ Hin) as (Ho & _ & Hin_range & Hout).
    fold r in Ho, Hin_range, Hout. split; intros Hv.
    + destruct Hv as [H1 H2]. pose proof (in_range_f a value H1 H2) as Hr.
      rewrite Hr in Ho. auto.
    + assert (out_of_range_f a value = true) as Hr
        by (unfold out_of_range_f; apply orb_true_iff; exact Hv).
      rewrite Hr in Ho. split; [ exact Ho | ].
      destruct (Hout Hr) as [pre ->]. apply in_or_app. right. simpl. auto.
Qed.

Lemma checkAndSanitizeProperty_range_witness :
  (outcome (checkAndSanitizeProperty_int (bench_sdk bench) 10
              VRM_PROPID_CAM_GAIN_MONOCHROME_I "gainRight" [] bench_handle) = Normal 10
   /\ outcome (checkAndSanitizeProperty_int (bench_sdk bench) 5000
              VRM_PROPID_CAM_GAIN_MONOCHROME_I "gainLeft" [] bench_handle) = Normal 500)
  /\
  (outcome (checkAndSanitizeProperty_float (bench_sdk bench) f_one
              VRM_PROPID_CAM_EXPOSURE_TIME_F "exposureLeft" [] bench_handle) = Normal f_one
   /\ outcome (checkAndSanitizeProperty_float (bench_sdk bench) f_five
              VRM_PROPID_CAM_EXPOSURE_TIME_F "exposureRight" [] bench_handle) = Normal f_one).
Proof.
  pose proof (checkAndSanitizeProperty_range (bench_sdk bench)
                VRM_PROPID_CAM_GAIN_MONOCHROME_I "gainRight" [] bench_handle
                (Some 8%positive) VRM_PROPID_CAM_GAIN_MONOCHROME_I true) as [HR _].
  pose proof (checkAndSanitizeProperty_range (bench_sdk bench)
                VRM_PROPID_CAM_GAIN_MONOCHROME_I "gainLeft" [] bench_handle
                (Some 8%positive) VRM_PROPID_CAM_GAIN_MONOCHROME_I true) as [HL _].
  pose proof (checkAndSanitizeProperty_range (bench_sdk bench)
                VRM_PROPID_CAM_EXPOSURE_TIME_F "exposureLeft" [] bench_handle
                (Some 8%positive) VRM_PROPID_CAM_EXPOSURE_TIME_F true) as [_ FL].
  pose proof (checkAndSanitizeProperty_range (bench_sdk bench)
                VRM_PROPID_CAM_EXPOSURE_TIME_F "exposureRight" [] bench_handle
                (Some 8%positive) VRM_PROPID_CAM_EXPOSURE_TIME_F true) as [_ FR].
  split; split.
  - destruct (HR 10 (mkAttribsI 500 0 1000 1)) as [Hin _];
      [ vm_compute; auto | apply Hin; simpl; lia ].
  - destruct (HL 5000 (mkAttribsI 500 0 1000 1)) as [_ Hout];
      [ vm_compute; auto | apply Hout; simpl; lia ].
  - destruct (FL f_one (mkAttribsF f_one f_half f_two f_half)) as [Hin _];
      [ vm_compute; auto | apply Hin; split; reflexivity ].
  - destruct (FR f_five (mkAttribsF f_one f_half f_two f_half)) as [_ Hout];
      [ vm_compute; auto | apply Hout; right; reflexivity ].
Defined.

(** C2, on a NaN.  The device reports the range [0.5, 2] with the default
    1 for the exposure time.  A NaN is not within that range, and the
    sanitizer gives it back as it is: both comparisons of the range test
    are false on it, so the default is not taken and no warning is printed.
    The run is the info query and the attribute query, nothing else. *)
Lemma checkAndSanitizeProperty_nan_unchanged :
  (SFleb f_half f_nan && SFleb f_nan f_two = false)
  /\ checkAndSanitizeProperty_float (bench_sdk bench) f_nan
       VRM_PROPID_CAM_EXPOSURE_TIME_F "exposureLeft" [] bench_handle
     = mkRun (Normal f_nan) bench_handle
         [EvGetPropertyInfo (Some 8%positive) VRM_PROPID_CAM_EXPOSURE_TIME_F
            (Some exposure_info);
          EvGetPropertyAttribsF (Some 8%positive) VRM_PROPID_CAM_EXPOSURE_TIME_F
            (true, mkAttribsF f_one f_half f_two f_half)].
Proof. split; reflexivity. Qed.

(** The NaN then reaches the device: with a NaN as the left exposure,
    [setProperties] on a device that supports the exposure time writes it. *)
Example setProperties_writes_nan :
  List.filter is_float_write
    (events (setProperties (bench_sdk bench_full) []
               (set_conf (mkConfig false 1 2 false 5000 10 true f_nan f_one 100 "camera")
                         bench_handle)))
  = [EvSetPropertyValueF (Some 8%positive) VRM_PROPID_CAM_EXPOSURE_TIME_F f_nan true;
     EvSetPropertyValueF (Some 8%positive) VRM_PROPID_CAM_EXPOSURE_TIME_F f_one true].
Proof. reflexivity. Qed.

(** C8.  When the type that the hardware declares for the property is not
    the type of the value, the sanitizer prints an error and goes on: its
    next call reads the range attributes of the expected type, the range
    test is made on them, and the function returns. *)
Theorem checkAndSanitizeProperty_type_mismatch sdk property name h s info :
  VRmUsbCamGetPropertyInfo sdk h (device s) property = Some info ->
  (forall value : Z,
     m_type info <> VRM_PROP_TYPE_INT ->
     let r := checkAndSanitizeProperty_int sdk value property name h s in
     exists ra rest,
       events r = EvGetPropertyInfo (device s) property (Some info)
                  :: EvLog Error "Invalid type of property!" []
                  :: EvGetPropertyAttribsI (device s) property ra :: rest
       /\ outcome r =
            Normal (if out_of_range_i (snd ra) value then m_default_i (snd ra) else value)
       /\ self r = s)
  /\
  (forall value : float,
     m_type info <> VRM_PROP_TYPE_FLOAT ->
     let r := checkAndSanitizeProperty_float sdk value property name h s in
     exists ra rest,
       events r = EvGetPropertyInfo (device s) property (Some info)
                  :: EvLog Error "Invalid type of property!" []
                  :: EvGetPropertyAttribsF (device s) property ra :: rest
       /\ outcome r =
            Normal (if out_of_range_f (snd ra) value then m_default_f (snd ra) else value)
       /\ self r = s).
Proof.
  intros Hinfo. split; intros value Hty r; subst r.
  - rewrite (checkAndSanitizeProperty_int_run _ _ _ _ _ _ _ Hinfo).
    unfold type_error. destruct (decide _) as [ _ | Heq ]; [ | exfalso; apply Heq; congruence ].
    simpl. eauto.
  - rewrite (checkAndSanitizeProperty_float_run _ _ _ _ _ _ _ Hinfo).
    unfold type_error. destruct (decide _) as [ _ | Heq ]; [ | exfalso; apply Heq; congruence ].
    simpl. eauto.
Qed.

Lemma checkAndSanitizeProperty_type_mismatch_witness :
  exists ra rest,
    events (checkAndSanitizeProperty_int (bench_sdk bench) 5000
              VRM_PROPID_CAM_EXPOSURE_TIME_F "gainLeft" [] bench_handle)
    = EvGetPropertyInfo (Some 8%positive) VRM_PROPID_CAM_EXPOSURE_TIME_F (Some exposure_info)
      :: EvLog Error "Invalid type of property!" []
      :: EvGetPropertyAttribsI (Some 8%positive) VRM_PROPID_CAM_EXPOSURE_TIME_F ra :: rest
    /\ outcome (checkAndSanitizeProperty_int (bench_sdk bench) 5000
                  VRM_PROPID_CAM_EXPOSURE_TIME_F "gainLeft" [] bench_handle)
       = Normal (if out_of_range_i (snd ra) 5000 then m_default_i (snd ra) else 5000)
    /\ self (checkAndSanitizeProperty_int (bench_sdk bench) 5000
               VRM_PROPID_CAM_EXPOSURE_TIME_F "gainLeft" [] bench_handle) = bench_handle.
Proof.
  apply (proj1 (checkAndSanitizeProperty_type_mismatch (bench_sdk bench)
                  VRM_PROPID_CAM_EXPOSURE_TIME_F "gainLeft" [] bench_handle exposure_info
                  eq_refl) 5000).
  discriminate.
Defined.

(** ** Applying a property *)

Section Apply.

Variable sdk : VRmUsbCam.









Lemma setSingleProperty_int_activates value property port p h s :
  port_select port = Some p ->
  let r := setSingleProperty_int sdk value property port h s in
  activates_first port r /\ existsb is_select (tail (events r)) = false.
Proof.
  intros Hp. name_run r. unfold setSingleProperty_int, activates_first.
  unfold bind at 1. rewrite (setSensorActive_valid sdk _ _ _ _ Hp). simpl. run_prims.
  rewrite !app_nil_r.
  destruct (VRmUsbCamGetPropertySupported sdk _ _ _) as [ [ | ] | ]; simpl;
    [ destruct (VRmUsbCamSetPropertyValueI sdk _ _ _ _); simpl;
      [ destruct (VRmUsbCamGetPropertyInfo sdk _ _ _); simpl | ]
    | destruct (VRmUsbCamGetPropertyInfo sdk _ _ _); simpl | ];
    intros ->; simpl; (split; [ eauto | reflexivity ]).
Qed.

Lemma setSingleProperty_float_activates value property port p h s :
  port_select port = Some p ->
  let r := setSingleProperty_float sdk value property port h s in
  activates_first port r /\ existsb is_select (tail (events r)) = false.
Proof.
  intros Hp. name_run r. unfold setSingleProperty_float, activates_first.
  unfold bind at 1. rewrite (setSensorActive_valid sdk _ _ _ _ Hp). simpl. run_prims.
  rewrite !app_nil_r.
  destruct (VRmUsbCamGetPropertySupported sdk _ _ _) as [ [ | ] | ]; simpl;
    [ destruct (VRmUsbCamSetPropertyValueF sdk _ _ _ _); simpl;
      [ destruct (VRmUsbCamGetPropertyInfo sdk _ _ _); simpl | ]
    | destruct (VRmUsbCamGetPropertyInfo sdk _ _ _); simpl | ];
    intros ->; simpl; (split; [ eauto | reflexivity ]).
Qed.

Lemma checkAndSanitizeProperty_int_no_select value property name h s :
  existsb is_select (events (checkAndSanitizeProperty_int sdk value property name h s))
  = false.
Proof.
  destruct (VRmUsbCamGetPropertyInfo sdk h (device s) property) as [ info | ] eqn:Hinfo.
  - rewrite (checkAndSanitizeProperty_int_run _ _ _ _ _ _ _ Hinfo). simpl.
    unfold type_error. destruct (decide _), (out_of_range_i _ _); reflexivity.
  - rewrite (checkAndSanitizeProperty_int_failed _ _ _ _ _ _ Hinfo). reflexivity.
Qed.

Lemma checkAndSanitizeProperty_float_no_select value property name h s :
  existsb is_select (events (checkAndSanitizeProperty_float sdk value property name h s))
  = false.
Proof.
  destruct (VRmUsbCamGetPropertyInfo sdk h (device s) property) as [ info | ] eqn:Hinfo.
  - rewrite (checkAndSanitizeProperty_float_run _ _ _ _ _ _ _ Hinfo). simpl.
    unfold type_error. destruct (decide _), (out_of_range_f _ _); reflexivity.
  - rewrite (checkAndSanitizeProperty_float_failed _ _ _ _ _ _ Hinfo). reflexivity.
Qed.

End Apply.




(** C5, as the code has it.  Each write of a property value, in
    [setSingleProperty], first selects its target port: on a port from 1 to
    4 the first event of the call is the write of the sensor select of that
    port, and no other select follows in the call.  The sanitizer selects
    no port at all: its reads go to the sensor that was selected before. *)
Theorem property_write_activates_first sdk property port p h s :
  port_select port = Some p ->
  (forall value : Z,
     let r := setSingleProperty_int sdk value property port h s in
     activates_first port r /\ existsb is_select (tail (events r)) = false)
  /\
  (forall value : float,
     let r := setSingleProperty_float sdk value property port h s in
     activates_first port r /\ existsb is_select (tail (events r)) = false)
  /\
  (forall (value : Z) name,
     existsb is_select
       (events (checkAndSanitizeProperty_int sdk value property name h s)) = false)
  /\
  (forall (value : float) name,
     existsb is_select
       (events (checkAndSanitizeProperty_float sdk value property name h s)) = false).
Proof.
  intros Hp. repeat split.
  - apply (setSingleProperty_int_activates sdk value property port p h s Hp).
  - apply (setSingleProperty_int_activates sdk value property port p h s Hp).
  - apply (setSingleProperty_float_activates sdk value property port p h s Hp).
  - apply (setSingleProperty_float_activates sdk value property port p h s Hp).
  - intros. apply checkAndSanitizeProperty_int_no_select.
  - intros. apply checkAndSanitizeProperty_float_no_select.
Qed.

Lemma property_write_activates_first_witness :
  activates_first 2
    (setSingleProperty_int (bench_sdk bench) 10 VRM_PROPID_CAM_GAIN_MONOCHROME_I 2 []
       bench_handle).
Proof.
  apply (proj1 (property_write_activates_first (bench_sdk bench)
                  VRM_PROPID_CAM_GAIN_MONOCHROME_I 2
                  VRM_PROPID_GRAB_SENSOR_PROPS_SELECT_2 [] bench_handle eq_refl) 10).
Defined.

(** C5, as stated, fails on the sanitizer.  After the two activations of
    [initCamera] the device has the sensor of the right port selected; the
    sanitizer of the left gain then reads the property without selecting
    the left port. *)
Lemma sanitize_reads_without_activation :
  ~ activates_first (portLeft bench_conf)
      (checkAndSanitizeProperty_int (bench_sdk bench) (gainLeft bench_conf)
         VRM_PROPID_CAM_GAIN_MONOCHROME_I "gainLeft" bench_activations bench_handle)
  /\ selected_sensor bench_activations None = Some (Some VRM_PROPID_GRAB_SENSOR_PROPS_SELECT_2)
  /\ port_select (portLeft bench_conf) = Some VRM_PROPID_GRAB_SENSOR_PROPS_SELECT_1.
Proof.
  split; [ | split; reflexivity ].
  intros (p & ok & rest & _ & Hev). vm_compute in Hev. discriminate Hev.
Qed.

(** C4, at port 5.  [setSensorActive] prints at the fatal level and the
    process does not leave: [portnumToPropId] has no [exit] after the
    message and runs off its end without a [return], so that what follows
    is undefined.  No write of the sensor select is part of the run. *)
Lemma setSensorActive_port5_undefined :
  setSensorActive (bench_sdk bench) 5 [] bench_handle =
    mkRun Undefined bench_handle
      [EvLog Fatal "Cannot convert port to prop id: %d" [ArgZ 5]].
Proof. reflexivity. Qed.

(** ** The frame acquisition engine *)

Lemma wrap32_small z : 0 <= z < 2 ^ 32 -> wrap32 z = z.
Proof. intros H. unfold wrap32. apply Z.mod_small. exact H. Qed.

(** The index arithmetic of the copy loop, when nothing wraps. *)
Lemma out_index_exact y w x :
  0 <= y * (w * 3) + x < 2 ^ 32 ->
  wrap32 (wrap32 (wrap32 (y * w) * 3) + x) = y * (w * 3) + x.
Proof.
  intros H. unfold wrap32.
  rewrite Z.mul_mod_idemp_l by lia. rewrite Z.add_mod_idemp_l by lia.
  rewrite Z.mod_small by lia. lia.
Qed.

Lemma src_index_exact y pitch x :
  0 <= y * pitch + x < 2 ^ 32 ->
  wrap32 (wrap32 (y * pitch) + x) = y * pitch + x.
Proof.
  intros H. unfold wrap32.
  rewrite Z.add_mod_idemp_l by lia. apply Z.mod_small. lia.
Qed.

(** A loop that keeps an invariant ends with it. *)
Lemma for_each_invariant {D : Type} (P : Z -> D -> Prop) (body : Z -> D -> option D) n :
  forall i0 d,
    P i0 d ->
    (forall i d, i0 <= i < i0 + Z.of_nat n -> P i d ->
                 exists d', body i d = Some d' /\ P (i + 1) d') ->
    exists d', for_each n i0 body d = Some d' /\ P (i0 + Z.of_nat n) d'.
Proof.
  induction n as [ | n IH ]; intros i0 d H0 Hstep.
  - exists d. simpl. rewrite Z.add_0_r. auto.
  - destruct (Hstep i0 d) as (d1 & Hb & H1); [ lia | exact H0 | ].
    simpl for_each. rewrite Hb.
    destruct (IH (i0 + 1) d1 H1) as (d' & Hd' & HP).
    + intros i d2 Hi. apply Hstep. lia.
    + exists d'. split; [ exact Hd' | ].
      replace (i0 + Z.of_nat (S n)) with (i0 + 1 + Z.of_nat n) by lia. exact HP.
Qed.

Lemma vec_store_in_range i b v :
  (Z.to_nat i < length v)%nat -> vec_store i b v = Some (<[Z.to_nat i := b]> v).
Proof. intros H. unfold vec_store. destruct (decide _); [ reflexivity | contradiction ]. Qed.

Section CopyRows.

Variable tgt : VRmImage.
Variables w ht : Z.
Hypothesis w_nonneg : 0 <= w.
Hypothesis ht_nonneg : 0 <= ht.
Hypothesis row_fits : w * 3 < 2 ^ 32.
Hypothesis frame_fits : ht * (w * 3) < 2 ^ 32.
Hypothesis source_fits :
  forall y x, 0 <= y < ht -> 0 <= x < w * 3 -> 0 <= y * m_pitch tgt + x < 2 ^ 32.

Lemma copy_byte y x v :
  0 <= y < ht -> 0 <= x < w * 3 -> row_partly_done tgt w ht y x v ->
  exists v',
    vec_store (wrap32 (wrap32 (wrap32 (y * w) * 3) + x))
              (mp_buffer tgt (wrap32 (wrap32 (y * m_pitch tgt) + x))) v = Some v'
    /\ row_partly_done tgt w ht y (x + 1) v'.
Proof.
  intros Hy Hx ((Hlen & Hrows) & Hrow).
  assert (0 <= y * (w * 3) + x < ht * (w * 3)) as Hidx by nia.
  rewrite out_index_exact by lia.
  rewrite src_index_exact by (apply source_fits; assumption).
  rewrite vec_store_in_range by lia.
  eexists. split; [ reflexivity | ].
  split; [ split | ].
  - rewrite length_insert. exact Hlen.
  - intros y' x' Hy' Hx'.
    rewrite list_lookup_insert_ne by nia. apply Hrows; assumption.
  - intros x' Hx'. destruct (decide (x' = x)) as [ -> | Hne ].
    + apply list_lookup_insert_eq. lia.
    + rewrite list_lookup_insert_ne by lia. apply Hrow. lia.
Qed.

Lemma copy_row y v :
  0 <= y < ht -> rows_done tgt w ht y v ->
  exists v',
    for_each (Z.to_nat (wrap32 (w * 3))) 0
      (fun x v =>
         vec_store (wrap32 (wrap32 (wrap32 (y * w) * 3) + x))
                   (mp_buffer tgt (wrap32 (wrap32 (y * m_pitch tgt) + x))) v) v = Some v'
    /\ rows_done tgt w ht (y + 1) v'.
Proof.
  intros Hy Hdone.
  rewrite wrap32_small by lia.
  destruct (for_each_invariant (row_partly_done tgt w ht y)
              (fun x v =>
                 vec_store (wrap32 (wrap32 (wrap32 (y * w) * 3) + x))
                           (mp_buffer tgt (wrap32 (wrap32 (y * m_pitch tgt) + x))) v)
              (Z.to_nat (w * 3)) 0 v) as (v' & Hv' & (Hlen & Hrows) & Hrow).
  - split; [ exact Hdone | ]. intros x' Hx'. lia.
  - intros x v0 Hx Hv0. apply copy_byte; [ exact Hy | lia | exact Hv0 ].
  - exists v'. split; [ exact Hv' | ]. split; [ exact Hlen | ].
    intros y' x' Hy' Hx'. destruct (decide (y' = y)) as [ -> | Hne ].
    + apply Hrow. lia.
    + apply Hrows; lia.
Qed.

Lemma copy_rows_packed v :
  Z.of_nat (length v) = ht * (w * 3) ->
  exists v', copy_rows tgt w ht v = Some v' /\ rows_done tgt w ht ht v'.
Proof.
  intros Hlen. unfold copy_rows.
  destruct (for_each_invariant (rows_done tgt w ht)
              (fun y v =>
                 for_each (Z.to_nat (wrap32 (w * 3))) 0
                   (fun x v =>
                      vec_store (wrap32 (wrap32 (wrap32 (y * w) * 3) + x))
                                (mp_buffer tgt (wrap32 (wrap32 (y * m_pitch tgt) + x))) v)
                   v)
              (Z.to_nat ht) 0 v) as (v' & Hv' & Hdone).
  - split; [ exact Hlen | ]. intros y' x' Hy'. lia.
  - intros y v0 Hy Hv0. apply copy_row; [ lia | exact Hv0 ].
  - exists v'. split; [ exact Hv' | ].
    replace (0 + Z.of_nat (Z.to_nat ht)) with ht in Hdone by lia. exact Hdone.
Qed.

End CopyRows.

Section GrabFrame.

Variable sdk : VRmUsbCam.

(** On a failed lock, [grabFrame] prints at the fatal level and returns
    with the caller's message and the object as they were. *)
Lemma grabFrame_lock_failed port img t h s :
  VRmUsbCamLockNextImageEx2 sdk h (device s) port (timeout (conf s)) = None ->
  grabFrame sdk port img t h s =
    mkRun (Normal img) s
      [EvLockNextImageEx2 (device s) port (timeout (conf s)) None;
       EvGetLastError
         (VRmUsbCamGetLastError sdk
            (h ++ [EvLockNextImageEx2 (device s) port (timeout (conf s)) None]));
       EvLog Fatal "Could not lock image: %s"
         [ArgS (VRmUsbCamGetLastError sdk
                  (h ++ [EvLockNextImageEx2 (device s) port (timeout (conf s)) None]))]].
Proof.
  intros Hlock. unfold grabFrame. run_prims. rewrite !app_nil_r. rewrite Hlock.
  simpl. reflexivity.
Qed.

(** X21.  Within the range of the 32-bit arithmetic [grabFrame] packs the
    frame tightly.  When the lock, the allocation, the conversion, the
    release and the unlock succeed, and the converted image has
    [width * 3], [height * width * 3] and every source offset
    [y * pitch + x] below 2 ^ 32, [grabFrame] returns a frame with the
    width and height of the converted image, a buffer of [height * step]
    bytes with [step = width * 3], and byte [x] of row [y] equal to the
    byte of the converted image at [y * pitch + x]: the padding of the
    source rows is left out, and no store leaves the buffer. *)
Theorem grabFrame_packs_in_range port img t h s src dropped fresh tgt :
  let w := m_width (m_image_format tgt) in
  let ht := m_height (m_image_format tgt) in
  VRmUsbCamLockNextImageEx2 sdk h (device s) port (timeout (conf s))
  = Some (src, dropped) ->
  (forall h', VRmUsbCamNewImage sdk h' (targetFormat s) = Some fresh) ->
  (forall h', VRmUsbCamConvertImage sdk h' src fresh = Some tgt) ->
  (forall h', VRmUsbCamFreeImage sdk h' tgt = true) ->
  (forall h', VRmUsbCamUnlockNextImage sdk h' (device s) src = true) ->
  0 <= w -> 0 <= ht -> 0 <= m_pitch tgt ->
  w * 3 < 2 ^ 32 -> ht * (w * 3) < 2 ^ 32 ->
  (forall y x, 0 <= y < ht -> 0 <= x < w * 3 -> y * m_pitch tgt + x < 2 ^ 32) ->
  exists out,
    outcome (grabFrame sdk port img t h s) = Normal out
    /\ self (grabFrame sdk port img t h s) = s
    /\ height out = ht /\ width out = w /\ tightly_packed tgt out.
Proof.
  intros w ht Hlock Hnew Hconv Hfree Hunlock Hw Hht Hpitch Hrow Hframe Hsrc.
  destruct (copy_rows_packed tgt w ht Hw Hht Hrow Hframe
              ltac:(intros y x Hy Hx; specialize (Hsrc y x Hy Hx); nia)
              (resize (Z.to_nat (wrap32 (ht * wrap32 (w * 3)))) Byte.x00 (data img)))
    as (packed & Hcopy & Hlen & Hbytes).
  { rewrite length_resize. rewrite (wrap32_small (w * 3)) by lia.
    rewrite wrap32_small by nia. nia. }
  unfold grabFrame. run_prims. rewrite !app_nil_r.
  rewrite Hlock. simpl. rewrite Hnew. simpl. rewrite Hconv. simpl.
  fold w ht. rewrite Hcopy. simpl. rewrite Hfree. simpl. rewrite Hunlock. simpl.
  eexists. split; [ reflexivity | ].
  split; [ reflexivity | split; [ reflexivity | split; [ reflexivity | ] ] ].
  unfold tightly_packed. simpl.
  rewrite (wrap32_small (w * 3)) by lia.
  split; [ exact Hlen | split; [ reflexivity | exact Hbytes ] ].
Qed.

End GrabFrame.

Lemma grabFrame_packs_in_range_witness :
  exists out,
    outcome (grabFrame (bench_sdk bench) 1 blank_image (mkTime 3 4) [] bench_handle)
    = Normal out
    /\ height out = 2 /\ width out = 2 /\ tightly_packed bench_image out.
Proof.
  destruct (grabFrame_packs_in_range (bench_sdk bench) 1 blank_image (mkTime 3 4) []
              bench_handle bench_image 0 (mkVRmImage bench_bgr (fun _ => Byte.x00) 6)
              bench_image eq_refl (fun _ => eq_refl) (fun _ => eq_refl) (fun _ => eq_refl)
              (fun _ => eq_refl))
    as (out & Ho & _ & Hh & Hw & Hp);
    [ simpl; lia | simpl; lia | simpl; lia | simpl; lia | simpl; lia
    | simpl; intros y x Hy Hx; lia | ].
  exists out. auto.
Defined.

(** C1, on a frame whose size does not fit in 32 bits.  The target format
    is one pixel wide and 1431655766 rows high, and the converted image has
    rows of 4 bytes.  [height * step] is 4294967298 and wraps to 2 in the
    [uint32] product: the buffer is resized to 2 bytes, and the third store
    of the first row, at index 2, is outside of it.  No frame comes out, and
    what the program does from there is undefined. *)
Lemma grabFrame_tall_frame_overruns :
  m_height (m_image_format tall_image) * (m_width (m_image_format tall_image) * 3)
  = 2 ^ 32 + 2
  /\ wrap32 (m_height (m_image_format tall_image)
             * wrap32 (m_width (m_image_format tall_image) * 3)) = 2
  /\ grabFrame (bench_sdk bench_tall) 1 blank_image (mkTime 3 4) [] tall_handle
     = mkRun Undefined tall_handle
         [EvLockNextImageEx2 (Some 8%positive) 1 100 (Some (tall_image, 0));
          EvNewImage (m_image_format tall_image)
            (Some (mkVRmImage (m_image_format tall_image) (fun _ => Byte.x00) 3));
          EvConvertImage tall_image
            (mkVRmImage (m_image_format tall_image) (fun _ => Byte.x00) 3)
            (Some tall_image)].
Proof. split; [ reflexivity | split; [ reflexivity | lazy; reflexivity ] ]. Qed.

(** C10.  When the lock fails or times out, [grabFrame] returns with the
    caller's message unchanged in every field, and the object unchanged. *)
Theorem grabFrame_lock_failure_keeps_image sdk port img t h s :
  VRmUsbCamLockNextImageEx2 sdk h (device s) port (timeout (conf s)) = None ->
  let r := grabFrame sdk port img t h s in
  outcome r = Normal img /\ self r = s.
Proof.
  intros Hlock r. subst r. rewrite (grabFrame_lock_failed sdk _ _ _ _ _ Hlock).
  split; reflexivity.
Qed.

Lemma grabFrame_lock_failure_keeps_image_witness :
  outcome (grabFrame (bench_sdk bench_dark) 1 blank_image (mkTime 3 4) [] bench_handle)
  = Normal blank_image.
Proof.
  apply (grabFrame_lock_failure_keeps_image (bench_sdk bench_dark) 1 blank_image
           (mkTime 3 4) [] bench_handle eq_refl).
Defined.

(** C3, on a lock that times out.  [grabFrame] prints at the fatal level
    and returns to its caller: the process does not leave. *)
Lemma grabFrame_timeout_returns :
  grabFrame (bench_sdk bench_dark) 1 blank_image (mkTime 3 4) [] bench_handle =
    mkRun (Normal blank_image) bench_handle
      [EvLockNextImageEx2 (Some 8%positive) 1 100 None;
       EvGetLastError "bench";
       EvLog Fatal "Could not lock image: %s" [ArgS "bench"]].
Proof. reflexivity. Qed.

(** ** The device manager *)

Section OpenDevice.

Variable sdk : VRmUsbCam.
Hypothesis free_ok : forall h k, VRmUsbCamFreeDeviceKey sdk h k = true.

(** Once a device is open the loop is over, whatever is left of the list. *)
Lemma openDevice_loop_opened n i h s d :
  device s = Some d -> openDevice_loop sdk n i h s = mkRun (Normal tt) s [].
Proof.
  intros Hd. destruct n; simpl; [ reflexivity | ].
  run_prims. rewrite Hd. reflexivity.
Qed.

(** Busy entries are read and freed, one after the other. *)
Lemma openDevice_loop_skips busy : forall n i h s,
  device s = None ->
  (forall h' (j : nat) k,
     busy !! j = Some k ->
     VRmUsbCamGetDeviceKeyListEntry sdk h' (i + Z.of_nat j) = Some k) ->
  Forall (fun k => m_busy k = true) busy ->
  openDevice_loop sdk (length busy + n) i h s =
    let r := openDevice_loop sdk n (i + Z.of_nat (length busy)) (h ++ skipped i busy) s in
    mkRun (outcome r) (self r) (skipped i busy ++ events r).
Proof.
  induction busy as [ | k busy IH ]; intros n i h s Hd Hserve Hbusy.
  - simpl. rewrite Z.add_0_r, app_nil_r.
    destruct (openDevice_loop sdk n i h s). reflexivity.
  - inversion Hbusy as [ | ? ? Hk Hrest ]; subst.
    pose proof (Hserve (h ++ []) 0%nat k eq_refl) as Hentry.
    rewrite Z.add_0_r in Hentry.
    simpl length. simpl Nat.add. simpl openDevice_loop.
    run_prims. rewrite Hd. rewrite Hentry. simpl. rewrite Hk. simpl.
    rewrite free_ok. simpl.
    rewrite !app_nil_r.
    rewrite (IH n (i + 1) _ s Hd); [ | | exact Hrest ].
    + replace (i + 1 + Z.of_nat (length busy)) with (i + Z.pos (Pos.of_succ_nat (length busy)))
        by lia.
      rewrite <- !app_assoc. simpl.
      destruct (openDevice_loop sdk n _ _ s). reflexivity.
    + intros h' j k' Hj.
      replace (i + 1 + Z.of_nat j) with (i + Z.of_nat (S j)) by lia.
      apply Hserve. exact Hj.
Qed.

(** The first entry that is not busy is opened, and the loop is over. *)
Lemma openDevice_loop_opens n i h s k d :
  device s = None ->
  VRmUsbCamGetDeviceKeyListEntry sdk h i = Some k ->
  m_busy k = false ->
  (forall h', VRmUsbCamOpenDevice sdk h' k = Some d) ->
  openDevice_loop sdk (S n) i h s =
    mkRun (Normal tt) (set_device (Some d) s)
      [EvGetDeviceKeyListEntry i (Some k); EvOpenDevice k (Some d);
       EvLog Info "Found device: %s [%s]"
         [ArgS (mp_product_str k); ArgS (mp_manufacturer_str k)];
       EvFreeDeviceKey k true].
Proof.
  intros Hd Hentry Hk Hopen. simpl openDevice_loop.
  run_prims. rewrite Hd, !app_nil_r, Hentry. simpl. rewrite Hk. simpl.
  rewrite Hopen. simpl. rewrite free_ok. simpl.
  rewrite (openDevice_loop_opened n _ _ (set_device (Some d) s) d eq_refl). reflexivity.
Qed.

(** An entry whose query fails ends the process, through [VRM_CHECK]. *)
Lemma openDevice_loop_entry_fails n i h s :
  device s = None ->
  VRmUsbCamGetDeviceKeyListEntry sdk h i = None ->
  let err := VRmUsbCamGetLastError sdk (h ++ [EvGetDeviceKeyListEntry i None]) in
  openDevice_loop sdk (S n) i h s =
    mkRun (Exited EXIT_FAILURE) s
      [EvGetDeviceKeyListEntry i None; EvGetLastError err;
       EvLog Error "%s : Line %d" [ArgS err; ArgZ 92]].
Proof.
  intros Hd Hentry. simpl openDevice_loop.
  run_prims. rewrite Hd, !app_nil_r, Hentry. simpl. reflexivity.
Qed.

Lemma skipped_no_open i ks : existsb is_open (skipped i ks) = false.
Proof. revert i. induction ks as [ | k ks IH ]; intros i; simpl; auto. Qed.

Lemma serves_prefix keys busy tail_ :
  serves_keys sdk keys -> keys = (Some <$> busy) ++ tail_ ->
  forall h' (j : nat) k,
    busy !! j = Some k ->
    VRmUsbCamGetDeviceKeyListEntry sdk h' (0 + Z.of_nat j) = Some k.
Proof.
  intros [_ Hserve] -> h' j k Hj. rewrite Z.add_0_l. apply Hserve.
  rewrite lookup_app_l by (rewrite length_fmap; eapply lookup_lt_Some; exact Hj).
  rewrite list_lookup_fmap, Hj. reflexivity.
Qed.

Lemma serves_next keys busy e tail_ h' :
  serves_keys sdk keys -> keys = (Some <$> busy) ++ e :: tail_ ->
  VRmUsbCamGetDeviceKeyListEntry sdk h' (0 + Z.of_nat (length busy)) = e.
Proof.
  intros [_ Hserve] ->. rewrite Z.add_0_l. apply Hserve.
  rewrite lookup_app_r by (rewrite length_fmap; lia).
  rewrite length_fmap, Nat.sub_diag. reflexivity.
Qed.

Variable version : VRmDWORD.
Hypothesis version_ok : forall h, VRmUsbCamGetVersion sdk h = Some version.

Lemma openDevice_opens_first keys busy k rest d h s :
  serves_keys sdk keys ->
  keys = (Some <$> busy) ++ Some k :: rest ->
  Forall (fun k => m_busy k = true) busy ->
  m_busy k = false ->
  (forall h', VRmUsbCamOpenDevice sdk h' k = Some d) ->
  openDevice sdk h s =
    mkRun (Normal tt) (set_device (Some d) s)
      (scan_events version (Z.of_nat (length keys)) ++ skipped 0 busy ++
       [EvGetDeviceKeyListEntry (Z.of_nat (length busy)) (Some k); EvOpenDevice k (Some d);
        EvLog Info "Found device: %s [%s]"
          [ArgS (mp_product_str k); ArgS (mp_manufacturer_str k)];
        EvFreeDeviceKey k true;
        EvLog Info "Trying to open device" []; EvLog Info "Device opened" []]).
Proof.
  intros Hserve Hkeys Hbusy Hk Hopen.
  unfold openDevice, scan_events. run_prims. rewrite ?app_nil_r.
  rewrite version_ok. simpl. rewrite (proj1 Hserve). simpl.
  rewrite Nat2Z.id.
  assert (length keys = (length busy + S (length rest))%nat) as ->
    by (rewrite Hkeys, length_app, length_fmap; reflexivity).
  rewrite (openDevice_loop_skips busy (S (length rest)) 0 _ (set_device None s) eq_refl
             (serves_prefix keys busy _ Hserve Hkeys) Hbusy).
  rewrite (openDevice_loop_opens (length rest) _ _ (set_device None s) k d eq_refl
             (serves_next keys busy _ _ _ Hserve Hkeys) Hk Hopen).
  simpl. rewrite <- !app_assoc. reflexivity.
Qed.

Lemma openDevice_all_busy keys busy h s :
  serves_keys sdk keys ->
  keys = Some <$> busy ->
  Forall (fun k => m_busy k = true) busy ->
  openDevice sdk h s =
    mkRun (Exited (-1)) (set_device None s)
      (scan_events version (Z.of_nat (length keys)) ++ skipped 0 busy ++
       [EvLog Info "Trying to open device" [];
        EvLog Fatal "No suitable VRmagic device found!" []]).
Proof.
  intros Hserve Hkeys Hbusy.
  unfold openDevice, scan_events. run_prims. rewrite ?app_nil_r.
  rewrite version_ok. simpl. rewrite (proj1 Hserve). simpl.
  rewrite Nat2Z.id.
  assert (length keys = (length busy + 0)%nat) as ->
    by (rewrite Hkeys, length_fmap; lia).
  rewrite (openDevice_loop_skips busy 0 0 _ (set_device None s) eq_refl
             (serves_prefix keys busy [] Hserve ltac:(rewrite app_nil_r; exact Hkeys)) Hbusy).
  simpl. rewrite ?app_nil_r. reflexivity.
Qed.

Lemma openDevice_entry_fails keys busy rest h s :
  serves_keys sdk keys ->
  keys = (Some <$> busy) ++ None :: rest ->
  Forall (fun k => m_busy k = true) busy ->
  outcome (openDevice sdk h s) = Exited EXIT_FAILURE
  /\ existsb is_open (events (openDevice sdk h s)) = false.
Proof.
  intros Hserve Hkeys Hbusy.
  unfold openDevice. run_prims. rewrite ?app_nil_r.
  rewrite version_ok. simpl. rewrite (proj1 Hserve). simpl.
  rewrite Nat2Z.id.
  assert (length keys = (length busy + S (length rest))%nat) as ->
    by (rewrite Hkeys, length_app, length_fmap; reflexivity).
  rewrite (openDevice_loop_skips busy (S (length rest)) 0 _ (set_device None s) eq_refl
             (serves_prefix keys busy _ Hserve Hkeys) Hbusy).
  rewrite (openDevice_loop_entry_fails (length rest) _ _ (set_device None s) eq_refl
             (serves_next keys busy _ _ _ Hserve Hkeys)).
  simpl. split; [ reflexivity | ].
  rewrite existsb_app, skipped_no_open. reflexivity.
Qed.

Lemma openDevice_size_fails h s :
  VRmUsbCamGetDeviceKeyListSize sdk
    (h ++ [EvGetVersion (Some version);
           EvLog Info "VR Magic lib has version %d" [ArgZ version];
           EvLog Info "Scanning for devices" []]) = None ->
  outcome (openDevice sdk h s) = Exited EXIT_FAILURE
  /\ existsb is_open (events (openDevice sdk h s)) = false.
Proof.
  intros Hsize. unfold openDevice. run_prims. rewrite ?app_nil_r.
  rewrite version_ok. simpl. rewrite <- !app_assoc. simpl. rewrite Hsize. simpl.
  split; reflexivity.
Qed.

End OpenDevice.

(** C9.  With a library that answers the version query and frees the keys,
    [openDevice] on the key list [keys] reads the entries in order from
    index 0; it frees every busy entry without opening it, opens the first
    entry that is not busy, and reads or opens nothing after it.  When
    every entry is busy (or the list is empty) the process leaves with
    [exit(-1)] after the fatal message, and when the query of the list size
    or of an entry fails it leaves through [VRM_CHECK]; no device is opened
    in these cases. *)
Theorem openDevice_first_free sdk version h s :
  (forall h', VRmUsbCamGetVersion sdk h' = Some version) ->
  (forall h' k, VRmUsbCamFreeDeviceKey sdk h' k = true) ->
  (forall keys busy k rest d,
     serves_keys sdk keys ->
     keys = (Some <$> busy) ++ Some k :: rest ->
     Forall (fun k => m_busy k = true) busy ->
     m_busy k = false ->
     (forall h', VRmUsbCamOpenDevice sdk h' k = Some d) ->
     openDevice sdk h s =
       mkRun (Normal tt) (set_device (Some d) s)
         (scan_events version (Z.of_nat (length keys)) ++ skipped 0 busy ++
          [EvGetDeviceKeyListEntry (Z.of_nat (length busy)) (Some k);
           EvOpenDevice k (Some d);
           EvLog Info "Found device: %s [%s]"
             [ArgS (mp_product_str k); ArgS (mp_manufacturer_str k)];
           EvFreeDeviceKey k true;
           EvLog Info "Trying to open device" []; EvLog Info "Device opened" []]))
  /\
  (forall keys busy,
     serves_keys sdk keys ->
     keys = Some <$> busy ->
     Forall (fun k => m_busy k = true) busy ->
     outcome (openDevice sdk h s) = Exited (-1)
     /\ existsb is_open (events (openDevice sdk h s)) = false
     /\ In (EvLog Fatal "No suitable VRmagic device found!" [])
           (events (openDevice sdk h s)))
  /\
  (forall keys busy rest,
     serves_keys sdk keys ->
     keys = (Some <$> busy) ++ None :: rest ->
     Forall (fun k => m_busy k = true) busy ->
     outcome (openDevice sdk h s) = Exited EXIT_FAILURE
     /\ existsb is_open (events (openDevice sdk h s)) = false)
  /\
  ((forall h', VRmUsbCamGetDeviceKeyListSize sdk h' = None) ->
   outcome (openDevice sdk h s) = Exited EXIT_FAILURE
   /\ existsb is_open (events (openDevice sdk h s)) = false).
Proof.
  intros Hversion Hfree. split; [ | split; [ | split ] ].
  - intros keys busy k rest d Hserve Hkeys Hbusy Hk Hopen.
    exact (openDevice_opens_first sdk Hfree version Hversion keys busy k rest d h s
             Hserve Hkeys Hbusy Hk Hopen).
  - intros keys busy Hserve Hkeys Hbusy.
    rewrite (openDevice_all_busy sdk Hfree version Hversion keys busy h s Hserve Hkeys Hbusy).
    simpl. split; [ reflexivity | split ].
    + rewrite existsb_app, skipped_no_open. reflexivity.
    + right. right. right. right. right. apply in_or_app. right. simpl. auto.
  - intros keys busy rest Hserve Hkeys Hbusy.
    exact (openDevice_entry_fails sdk Hfree version Hversion keys busy rest h s
             Hserve Hkeys Hbusy).
  - intros Hsize. apply (openDevice_size_fails sdk version Hversion). apply Hsize.
Qed.

Lemma bench_serves_keys b : serves_keys (bench_sdk b) (Some <$> bench_keys b).
Proof.
  split.
  - intros h. simpl. rewrite length_fmap. reflexivity.
  - intros h j e He. simpl. rewrite Nat2Z.id.
    rewrite list_lookup_fmap in He. destruct (bench_keys b !! j); simpl in He; congruence.
Qed.

Lemma openDevice_first_free_witness :
  outcome (openDevice (bench_sdk bench) [] (mkCameraHandle bench_conf None bench_gray))
  = Normal tt
  /\ device (self (openDevice (bench_sdk bench) []
                     (mkCameraHandle bench_conf None bench_gray)))
     = Some 8%positive.
Proof.
  pose proof (proj1 (openDevice_first_free (bench_sdk bench) 4 []
                       (mkCameraHandle bench_conf None bench_gray)
                       (fun _ => eq_refl) (fun _ _ => eq_refl))
                (Some <$> bench_keys bench)
                [mkDeviceKey 7 true "VRmagic" "D3"] (mkDeviceKey 8 false "VRmagic" "D3")
                [Some (mkDeviceKey 9 false "VRmagic" "D3")] 8%positive
                (bench_serves_keys bench) eq_refl
                ltac:(repeat constructor) eq_refl (fun _ => eq_refl)) as H.
  rewrite H. split; reflexivity.
Defined.

(** ** The format negotiator *)

Lemma after_fetch_fields fs : forall s,
  conf (after_fetch fs s) = conf s /\ device (after_fetch fs s) = device s
  /\ targetFormat (after_fetch fs s) = default (targetFormat s) (last fs).
Proof.
  induction fs as [ | f fs IH ]; intros s; simpl; [ auto | ].
  destruct (IH (set_targetFormat f s)) as (Hc & Hd & Ht).
  unfold after_fetch in *. simpl. rewrite Hc, Hd, Ht. simpl.
  split; [ reflexivity | split; [ reflexivity | ] ].
  destruct fs as [ | v fs' ]; [ reflexivity | ].
  change (last (f :: v :: fs')) with (last (v :: fs')).
  destruct (last (v :: fs')) eqn:E; [ reflexivity | ].
  apply last_None in E. discriminate E.
Qed.

Lemma fetched_no_write d port fs : forall i,
  existsb is_hardware_write (fetched d port i fs) = false.
Proof. induction fs as [ | f fs IH ]; intros i; simpl; auto. Qed.

Section SetTargetFormat.

Variable sdk : VRmUsbCam.

(** Entries of another colour format are read into [targetFormat], one
    after the other. *)
Lemma setTargetFormat_loop_skips pre : forall n i h s,
  (forall h' (j : nat) f,
     pre !! j = Some f ->
     VRmUsbCamGetTargetFormatListEntryEx2 sdk h' (device s) (portLeft (conf s))
       (i + Z.of_nat j) = Some f) ->
  Forall (fun f => ~ is_bgr f) pre ->
  setTargetFormat_loop sdk (length pre + n) i h s =
    let es := fetched (device s) (portLeft (conf s)) i pre in
    let r := setTargetFormat_loop sdk n (i + Z.of_nat (length pre)) (h ++ es)
               (after_fetch pre s) in
    mkRun (outcome r) (self r) (es ++ events r).
Proof.
  induction pre as [ | f pre IH ]; intros n i h s Hserve Hpre.
  - simpl. rewrite Z.add_0_r, app_nil_r.
    destruct (setTargetFormat_loop sdk n i h s). reflexivity.
  - inversion Hpre as [ | ? ? Hf Hrest ]; subst.
    pose proof (Hserve (h ++ []) 0%nat f eq_refl) as Hentry.
    rewrite Z.add_0_r in Hentry.
    simpl length. simpl Nat.add. simpl setTargetFormat_loop.
    run_prims. rewrite Hentry. simpl.
    destruct (decide (m_color_format f = TARGET_COLOR_FORMAT)) as [ Heq | _ ];
      [ contradiction | ].
    rewrite ?app_nil_r.
    rewrite (IH n (i + 1) _ (set_targetFormat f s)); [ | | exact Hrest ].
    + replace (i + 1 + Z.of_nat (length pre))
        with (i + Z.pos (Pos.of_succ_nat (length pre))) by lia.
      simpl. rewrite <- !app_assoc. simpl.
      destruct (setTargetFormat_loop sdk n _ _ _). reflexivity.
    + intros h' j f' Hj. simpl.
      replace (i + 1 + Z.of_nat j) with (i + Z.of_nat (S j)) by lia.
      apply Hserve. exact Hj.
Qed.

(** The first entry of the wanted colour format ends the loop. *)
Lemma setTargetFormat_loop_selects n i h s f :
  VRmUsbCamGetTargetFormatListEntryEx2 sdk h (device s) (portLeft (conf s)) i = Some f ->
  is_bgr f ->
  setTargetFormat_loop sdk (S n) i h s =
    mkRun (Normal tt) (set_targetFormat f s)
      [EvGetTargetFormatListEntryEx2 (device s) (portLeft (conf s)) i (Some f)].
Proof.
  intros Hentry Hf. simpl setTargetFormat_loop. run_prims.
  rewrite ?app_nil_r, Hentry. simpl.
  destruct (decide (m_color_format f = TARGET_COLOR_FORMAT)) as [ _ | Hne ];
    [ reflexivity | contradiction ].
Qed.

Variable names : VRmColorFormat -> string.
Hypothesis names_ok : forall h c, VRmUsbCamGetStringFromColorFormat sdk h c = Some (names c).

Lemma serves_formats_prefix fmts pre tail_ d port :
  serves_formats sdk fmts -> fmts = pre ++ tail_ ->
  forall h' (j : nat) f,
    pre !! j = Some f ->
    VRmUsbCamGetTargetFormatListEntryEx2 sdk h' d port (0 + Z.of_nat j) = Some f.
Proof.
  intros [_ Hserve] -> h' j f Hj. rewrite Z.add_0_l. apply Hserve.
  rewrite lookup_app_l by (eapply lookup_lt_Some; exact Hj). exact Hj.
Qed.

Lemma serves_formats_next fmts pre f tail_ d port h' :
  serves_formats sdk fmts -> fmts = pre ++ f :: tail_ ->
  VRmUsbCamGetTargetFormatListEntryEx2 sdk h' d port (0 + Z.of_nat (length pre)) = Some f.
Proof.
  intros [_ Hserve] ->. rewrite Z.add_0_l. apply Hserve.
  rewrite lookup_app_r by lia. rewrite Nat.sub_diag. reflexivity.
Qed.

(** Over a list that holds an entry of the wanted colour format, the first
    such entry becomes the cached target format, and no later entry is
    read. *)
Lemma setTargetFormat_selects_first fmts pre f rest h s :
  serves_formats sdk fmts ->
  fmts = pre ++ f :: rest ->
  Forall (fun f => ~ is_bgr f) pre ->
  is_bgr f ->
  setTargetFormat sdk h s =
    mkRun (Normal tt) (set_targetFormat f s)
      (EvGetTargetFormatListSizeEx2 (device s) (portLeft (conf s))
         (Some (Z.of_nat (length fmts)))
       :: fetched (device s) (portLeft (conf s)) 0 pre ++
       [EvGetTargetFormatListEntryEx2 (device s) (portLeft (conf s))
          (Z.of_nat (length pre)) (Some f);
        EvGetStringFromColorFormat (m_color_format f) (Some (names (m_color_format f)));
        EvLog Info "Selected target format: %d x %d (%s)"
          [ArgZ (m_width f); ArgZ (m_height f); ArgS (names (m_color_format f))]]).
Proof.
  intros Hserve Hfmts Hpre Hf.
  unfold setTargetFormat. unfold bind at 1. simpl.
  unfold bind at 1. unfold VRM_CHECK at 1. unfold bind at 1. unfold call at 1.
  rewrite ?app_nil_r. rewrite (proj1 Hserve). simpl. rewrite ?app_nil_r.
  rewrite Nat2Z.id.
  assert (length fmts = (length pre + S (length rest))%nat) as ->
    by (rewrite Hfmts, length_app; reflexivity).
  unfold bind at 1.
  rewrite (setTargetFormat_loop_skips pre (S (length rest)) 0 _ s
             (serves_formats_prefix fmts pre _ _ _ Hserve Hfmts) Hpre).
  cbv zeta.
  destruct (after_fetch_fields pre s) as (Hc & Hd & _).
  rewrite (setTargetFormat_loop_selects (length rest) _ _ (after_fetch pre s) f)
    by (rewrite ?Hc, ?Hd; try exact Hf;
        apply (serves_formats_next fmts pre f rest _ _ _ Hserve Hfmts)).
  rewrite Hc, Hd. simpl.
  run_prims.
  destruct (decide (m_color_format f = TARGET_COLOR_FORMAT)) as [ _ | Hne ];
    [ | contradiction ].
  simpl. rewrite names_ok. simpl.
  f_equal.
  - unfold set_targetFormat. simpl. rewrite Hc, Hd. reflexivity.
  - rewrite <- !app_assoc. reflexivity.
Qed.

Lemma setTargetFormat_no_match_run fmts h s :
  serves_formats sdk fmts ->
  fmts <> [] ->
  Forall (fun f => ~ is_bgr f) fmts ->
  setTargetFormat sdk h s =
    mkRun (Exited (-1)) (after_fetch fmts s)
      (EvGetTargetFormatListSizeEx2 (device s) (portLeft (conf s))
         (Some (Z.of_nat (length fmts)))
       :: fetched (device s) (portLeft (conf s)) 0 fmts ++
       [EvGetStringFromColorFormat TARGET_COLOR_FORMAT (Some (names TARGET_COLOR_FORMAT));
        EvLog Fatal "%s not found in target format list."
          [ArgS (names TARGET_COLOR_FORMAT)]]).
Proof.
  intros Hserve Hne Hall.
  assert (exists f, last fmts = Some f /\ ~ is_bgr f) as (f & Hlast & Hf).
  { destruct (last fmts) as [ f | ] eqn:Hl.
    - exists f. split; [ reflexivity | ].
      rewrite Forall_forall in Hall. apply Hall. apply last_Some_elem_of. exact Hl.
    - apply last_None in Hl. contradiction. }
  unfold setTargetFormat. unfold bind at 1. simpl.
  unfold bind at 1. unfold VRM_CHECK at 1. unfold bind at 1. unfold call at 1.
  rewrite ?app_nil_r. rewrite (proj1 Hserve). simpl. rewrite ?app_nil_r.
  rewrite Nat2Z.id.
  replace (length fmts) with (length fmts + 0)%nat at 1 by lia.
  unfold bind at 1.
  rewrite (setTargetFormat_loop_skips fmts 0 0 _ s
             (serves_formats_prefix fmts fmts [] _ _ Hserve
                ltac:(rewrite app_nil_r; reflexivity)) Hall).
  cbv zeta.
  destruct (after_fetch_fields fmts s) as (Hc & Hd & Ht).
  rewrite Hlast in Ht. simpl in Ht.
  simpl. run_prims. rewrite Ht.
  destruct (decide (m_color_format f = TARGET_COLOR_FORMAT)) as [ Heq | _ ];
    [ contradiction | ].
  simpl. rewrite names_ok. simpl.
  rewrite ?app_nil_r. reflexivity.
Qed.

(** Over a list that is not empty and holds no entry of the wanted colour
    format, the process leaves with [exit(-1)] after the fatal message, and
    has written nothing to the device. *)
Lemma setTargetFormat_no_match fmts h s :
  serves_formats sdk fmts ->
  fmts <> [] ->
  Forall (fun f => ~ is_bgr f) fmts ->
  outcome (setTargetFormat sdk h s) = Exited (-1)
  /\ existsb is_hardware_write (events (setTargetFormat sdk h s)) = false
  /\ In (EvLog Fatal "%s not found in target format list." [ArgS (names TARGET_COLOR_FORMAT)])
        (events (setTargetFormat sdk h s)).
Proof.
  intros Hserve Hne Hall.
  rewrite (setTargetFormat_no_match_run fmts h s Hserve Hne Hall). simpl.
  split; [ reflexivity | split ].
  - rewrite existsb_app, fetched_no_write. reflexivity.
  - right. apply in_or_app. right. simpl. auto.
Qed.

(** Over an empty list the loop does not run, and the test that follows it
    reads what the member [targetFormat] held before the call. *)
Lemma setTargetFormat_empty_list h s :
  serves_formats sdk [] ->
  is_bgr (targetFormat s) ->
  setTargetFormat sdk h s =
    mkRun (Normal tt) s
      [EvGetTargetFormatListSizeEx2 (device s) (portLeft (conf s)) (Some 0);
       EvGetStringFromColorFormat (m_color_format (targetFormat s))
         (Some (names (m_color_format (targetFormat s))));
       EvLog Info "Selected target format: %d x %d (%s)"
         [ArgZ (m_width (targetFormat s)); ArgZ (m_height (targetFormat s));
          ArgS (names (m_color_format (targetFormat s)))]].
Proof.
  intros Hserve Hstale. unfold setTargetFormat. run_prims.
  rewrite ?app_nil_r. rewrite (proj1 Hserve). simpl.
  destruct (decide (m_color_format (targetFormat s) = TARGET_COLOR_FORMAT)) as [ _ | Hne ];
    [ | contradiction ].
  simpl. rewrite names_ok. simpl. reflexivity.
Qed.

End SetTargetFormat.

(** C6, on an empty list.  The device offers no target format and the
    member [targetFormat], which nothing has set before, holds the wanted
    colour format: the loop does not run, the test after it reads the
    member, and [setTargetFormat] returns as if a format had been
    selected. *)
Lemma setTargetFormat_empty_list_returns :
  setTargetFormat (bench_sdk bench_no_formats) [] bench_handle =
    mkRun (Normal tt) bench_handle
      [EvGetTargetFormatListSizeEx2 (Some 8%positive) 1 (Some 0);
       EvGetStringFromColorFormat VRM_BGR_3X8 (Some "BGR_3X8");
       EvLog Info "Selected target format: %d x %d (%s)"
         [ArgZ 2; ArgZ 2; ArgS "BGR_3X8"]].
Proof. reflexivity. Qed.

(** * More of the translation unit *)

(** ** Frame conditions and postconditions of the monad *)

Section Frames.

Context {B : Type} (f : CameraHandle -> B).

Lemma keeps_bind {A C} (m : M A) (k : A -> M C) :
  keeps f m -> (forall a, keeps f (k a)) -> keeps f (bind m k).
Proof.
  intros Hm Hk h s. unfold bind.
  specialize (Hm h s).
  destruct (m h s) as [ [ a | c | ] s1 es1 ]; simpl in *; try exact Hm.
  specialize (Hk a (h ++ es1) s1).
  destruct (k a (h ++ es1) s1) as [ o s2 es2 ]; simpl in *. congruence.
Qed.

Lemma keeps_ret {A} (a : A) : keeps f (ret a).
Proof. intros h s. reflexivity. Qed.

Lemma keeps_exit {A} c : keeps f (@exit A c).
Proof. intros h s. reflexivity. Qed.

Lemma keeps_undefined {A} : keeps f (@undefined A).
Proof. intros h s. reflexivity. Qed.

Lemma keeps_emit e : keeps f (emit e).
Proof. intros h s. reflexivity. Qed.

Lemma keeps_this : keeps f this.
Proof. intros h s. reflexivity. Qed.

Lemma keeps_call {R} (g : History -> R) ev : keeps f (call g ev).
Proof. intros h s. reflexivity. Qed.

Lemma keeps_modify g : (forall s, f (g s) = f s) -> keeps f (modify g).
Proof. intros Hg h s. apply Hg. Qed.

End Frames.

Lemma keeps_all {A B} (f : CameraHandle -> B) (m : M A) :
  keeps (fun s => s) m -> keeps f m.
Proof. intros Hm h s. rewrite (Hm h s). reflexivity. Qed.

Lemma ensures_bind {A C} (P R Q : CameraHandle -> Prop) (m : M A) (k : A -> M C) :
  ensures P R m -> (forall a, ensures R Q (k a)) -> ensures P Q (bind m k).
Proof.
  intros Hm Hk h s HP c. unfold bind.
  specialize (Hm h s HP).
  destruct (m h s) as [ [ a | c' | ] s1 es1 ]; simpl in *; try discriminate.
  specialize (Hk a (h ++ es1) s1 (Hm a eq_refl)).
  destruct (k a (h ++ es1) s1) as [ o s2 es2 ]; simpl in *.
  intros ->. apply (Hk c). reflexivity.
Qed.

Lemma ensures_keeps {A B} (f : CameraHandle -> B) (P : B -> Prop) (m : M A) :
  keeps f m -> ensures (fun s => P (f s)) (fun s => P (f s)) m.
Proof. intros Hm h s HP a _. rewrite (Hm h s). exact HP. Qed.

Lemma ensures_weaken {A} (P P' Q Q' : CameraHandle -> Prop) (m : M A) :
  (forall s, P' s -> P s) -> (forall s, Q s -> Q' s) -> ensures P Q m -> ensures P' Q' m.
Proof. intros HP HQ Hm h s Hs a Ha. apply HQ, (Hm h s (HP s Hs) a Ha). Qed.

Lemma ensures_and {A} (P Q1 Q2 : CameraHandle -> Prop) (m : M A) :
  ensures P Q1 m -> ensures P Q2 m -> ensures P (fun s => Q1 s /\ Q2 s) m.
Proof. intros H1 H2 h s Hs a Ha. split; [ eapply H1 | eapply H2 ]; eauto. Qed.

Lemma silent_bind {A C} (f : Event -> bool) (m : M A) (k : A -> M C) :
  silent f m -> (forall a, silent f (k a)) -> silent f (bind m k).
Proof.
  intros Hm Hk h s. unfold bind.
  specialize (Hm h s).
  destruct (m h s) as [ [ a | c | ] s1 es1 ]; simpl in *; try exact Hm.
  specialize (Hk a (h ++ es1) s1).
  destruct (k a (h ++ es1) s1) as [ o s2 es2 ]; simpl in *.
  rewrite existsb_app, Hm, Hk. reflexivity.
Qed.

Lemma silent_ret {A} f (a : A) : silent f (ret a).
Proof. intros h s. reflexivity. Qed.

Lemma silent_exit {A} f c : silent f (@exit A c).
Proof. intros h s. reflexivity. Qed.

Lemma silent_undefined {A} f : silent f (@undefined A).
Proof. intros h s. reflexivity. Qed.

Lemma silent_this f : silent f this.
Proof. intros h s. reflexivity. Qed.

Lemma silent_modify f g : silent f (modify g).
Proof. intros h s. reflexivity. Qed.

Lemma silent_emit f e : f e = false -> silent f (emit e).
Proof. intros He h s. simpl. rewrite He. reflexivity. Qed.

Lemma silent_call {R} f (g : History -> R) ev :
  (forall r, f (ev r) = false) -> silent f (call g ev).
Proof. intros He h s. simpl. rewrite He. reflexivity. Qed.

(** Goes through the body of a function for a goal [keeps f m]. *)
Ltac keeps_step :=
  first
    [ apply keeps_ret | apply keeps_exit | apply keeps_undefined | apply keeps_emit
    | apply keeps_this | apply keeps_call
    | apply keeps_modify; intros; reflexivity
    | apply keeps_bind; [ | intros ? ]
    | match goal with
      | |- keeps _ (if ?b then _ else _) => destruct b
      | |- keeps _ (match ?x with _ => _ end) => destruct x
      end ].

Ltac keeps_body :=
  unfold VRM_CHECK, VRM_CHECK_b, VRM_CHECK_failed, ROS_INFO, ROS_WARN, ROS_ERROR, ROS_FATAL;
  repeat keeps_step.

(** The same for a goal [silent f m]. *)
Ltac silent_step :=
  first
    [ apply silent_ret | apply silent_exit | apply silent_undefined | apply silent_this
    | apply silent_modify
    | apply silent_emit; reflexivity
    | apply silent_call; intros; reflexivity
    | apply silent_bind; [ | intros ? ]
    | match goal with
      | |- silent _ (if ?b then _ else _) => destruct b
      | |- silent _ (match ?x with _ => _ end) => destruct x
      end ].

Ltac silent_body :=
  unfold VRM_CHECK, VRM_CHECK_b, VRM_CHECK_failed, ROS_INFO, ROS_WARN, ROS_ERROR, ROS_FATAL;
  repeat silent_step.

Section FrameLemmas.

Variable sdk : VRmUsbCam.

Lemma setSensorActive_keeps port : keeps (fun s => s) (setSensorActive sdk port).
Proof.
  intros h s.
  destruct (setSensorActive_run sdk port h s) as [(p & ok & _ & ->) | (_ & ->)];
    reflexivity.
Qed.

Lemma getSourceFormat_keeps : keeps (fun s => s) (getSourceFormat sdk).
Proof. unfold getSourceFormat. keeps_body. Qed.

Lemma checkAndSanitizeProperty_int_keeps v p n :
  keeps (fun s => s) (checkAndSanitizeProperty_int sdk v p n).
Proof. unfold checkAndSanitizeProperty_int. keeps_body. Qed.

Lemma checkAndSanitizeProperty_float_keeps v p n :
  keeps (fun s => s) (checkAndSanitizeProperty_float sdk v p n).
Proof. unfold checkAndSanitizeProperty_float. keeps_body. Qed.

Lemma setSingleProperty_int_keeps v p port :
  keeps (fun s => s) (setSingleProperty_int sdk v p port).
Proof.
  unfold setSingleProperty_int.
  apply keeps_bind; [ apply setSensorActive_keeps | intros ? ]. keeps_body.
Qed.

Lemma setSingleProperty_float_keeps v p port :
  keeps (fun s => s) (setSingleProperty_float sdk v p port).
Proof.
  unfold setSingleProperty_float.
  apply keeps_bind; [ apply setSensorActive_keeps | intros ? ]. keeps_body.
Qed.

Lemma startCamera_keeps : keeps (fun s => s) (startCamera sdk).
Proof. unfold startCamera. keeps_body. Qed.

Lemma grabFrame_keeps port img t : keeps (fun s => s) (grabFrame sdk port img t).
Proof. unfold grabFrame. keeps_body. Qed.

Lemma setPropertyLeftAndRight_int_keeps vl vr p :
  keeps (fun s => s) (setPropertyLeftAndRight_int sdk vl vr p).
Proof.
  unfold setPropertyLeftAndRight_int.
  repeat first [ apply setSingleProperty_int_keeps | keeps_step ].
Qed.

Lemma setPropertyLeftAndRight_float_keeps vl vr p :
  keeps (fun s => s) (setPropertyLeftAndRight_float sdk vl vr p).
Proof.
  unfold setPropertyLeftAndRight_float.
  repeat first [ apply setSingleProperty_float_keeps | keeps_step ].
Qed.

Lemma setGain_keeps : keeps (fun s => s) (setGainM sdk).
Proof.
  unfold setGainM. repeat first [ apply setPropertyLeftAndRight_int_keeps | keeps_step ].
Qed.

Lemma setExposure_keeps : keeps (fun s => s) (setExposureM sdk).
Proof.
  unfold setExposureM, ROS_INFO.
  repeat first [ apply setPropertyLeftAndRight_float_keeps | keeps_step ].
Qed.

(** The sanitizer of the configuration changes the two gains and the two
    exposures and nothing else of the object. *)
Lemma checkAndSanitizeConfig_keeps :
  keeps (fun s => (device s, targetFormat s, setup s)) (checkAndSanitizeConfig sdk).
Proof.
  unfold checkAndSanitizeConfig.
  repeat first [ apply keeps_all, checkAndSanitizeProperty_int_keeps
               | apply keeps_all, checkAndSanitizeProperty_float_keeps
               | keeps_step ].
Qed.

Lemma setProperties_keeps :
  keeps (fun s => (device s, targetFormat s, setup s)) (setProperties sdk).
Proof.
  unfold setProperties.
  repeat first [ apply checkAndSanitizeConfig_keeps
               | apply keeps_all, setGain_keeps
               | apply keeps_all, setExposure_keeps
               | keeps_step ].
Qed.

Lemma openDevice_loop_keeps n : forall i,
  keeps (fun s => (conf s, targetFormat s)) (openDevice_loop sdk n i).
Proof.
  induction n as [ | n IH ]; intros i; simpl openDevice_loop.
  - apply keeps_ret.
  - unfold VRM_CHECK, VRM_CHECK_b, VRM_CHECK_failed, ROS_INFO, ROS_ERROR.
    repeat first [ apply IH | keeps_step ].
Qed.

(** [openDevice] changes the member [device] only. *)
Lemma openDevice_keeps : keeps (fun s => (conf s, targetFormat s)) (openDevice sdk).
Proof.
  unfold openDevice.
  unfold VRM_CHECK, VRM_CHECK_b, VRM_CHECK_failed, ROS_INFO, ROS_ERROR, ROS_FATAL.
  repeat first [ apply openDevice_loop_keeps | keeps_step ].
Qed.

Lemma setTargetFormat_loop_keeps n : forall i,
  keeps (fun s => (conf s, device s)) (setTargetFormat_loop sdk n i).
Proof.
  induction n as [ | n IH ]; intros i; simpl setTargetFormat_loop.
  - apply keeps_ret.
  - unfold VRM_CHECK, VRM_CHECK_b, VRM_CHECK_failed, ROS_INFO, ROS_ERROR.
    repeat first [ apply IH | keeps_step ].
Qed.

(** [setTargetFormat] changes the member [targetFormat] only. *)
Lemma setTargetFormat_keeps : keeps (fun s => (conf s, device s)) (setTargetFormat sdk).
Proof.
  unfold setTargetFormat.
  unfold VRM_CHECK, VRM_CHECK_b, VRM_CHECK_failed, ROS_INFO, ROS_ERROR, ROS_FATAL.
  repeat first [ apply setTargetFormat_loop_keeps | keeps_step ].
Qed.

End FrameLemmas.

Lemma keeps_compose {A B C} (g : CameraHandle -> B) (pr : B -> C) (m : M A) :
  keeps g m -> keeps (fun s => pr (g s)) m.
Proof. intros Hm h s. rewrite (Hm h s). reflexivity. Qed.

Lemma ensures_any {A} (P : CameraHandle -> Prop) (m : M A) : ensures P (fun _ => True) m.
Proof. intros h s _ a _. exact I. Qed.

Section Postconditions.

Variable sdk : VRmUsbCam.

Lemma openDevice_ensures_device :
  ensures (fun _ => True) (fun s' => exists d, device s' = Some d) (openDevice sdk).
Proof.
  unfold openDevice.
  do 8 (apply ensures_bind with (R := fun _ => True); [ apply ensures_any | intros ? ]).
  intros h' s' _ r0. unfold bind, this, ROS_FATAL, ROS_INFO, emit, exit. simpl.
  destruct (device s') as [ d | ] eqn:Hd; simpl; [ intros _; eauto | discriminate ].
Qed.

Lemma setTargetFormat_ensures_bgr :
  ensures (fun _ => True) (fun s' => is_bgr (targetFormat s')) (setTargetFormat sdk).
Proof.
  unfold setTargetFormat.
  do 3 (apply ensures_bind with (R := fun _ => True); [ apply ensures_any | intros ? ]).
  intros h' s' _ r0. run_prims.
  destruct (decide (m_color_format (targetFormat s') = TARGET_COLOR_FORMAT))
    as [ Hbgr | Hne ]; simpl.
  - destruct (VRmUsbCamGetStringFromColorFormat sdk _ _); simpl; intros _; exact Hbgr.
  - destruct (VRmUsbCamGetStringFromColorFormat sdk _ _); simpl; discriminate.
Qed.

(** X1.  [openDevice] returns only with a device open: when it returns,
    the member [device] is not null, whatever the SDK has answered. *)
Theorem openDevice_returns_with_device h s :
  outcome (openDevice sdk h s) = Normal tt ->
  exists d, device (self (openDevice sdk h s)) = Some d.
Proof. intros Hret. exact (openDevice_ensures_device h s I tt Hret). Qed.

(** X2.  [setTargetFormat] returns only with the wanted colour format
    cached: when it returns, [targetFormat] has the colour format
    [VRM_BGR_3X8], whatever the SDK has answered and whatever the list. *)
Theorem setTargetFormat_returns_with_bgr h s :
  outcome (setTargetFormat sdk h s) = Normal tt ->
  is_bgr (targetFormat (self (setTargetFormat sdk h s))).
Proof. intros Hret. exact (setTargetFormat_ensures_bgr h s I tt Hret). Qed.

(** What follows [openDevice] in [initCamera]. *)
Lemma configure_keeps_device port_l port_r :
  keeps device
    (setSensorActive sdk port_l ;;; setSensorActive sdk port_r ;;;
     getSourceFormat sdk ;;; setTargetFormat sdk ;;; setProperties sdk).
Proof.
  repeat first
    [ apply keeps_all, setSensorActive_keeps
    | apply keeps_all, getSourceFormat_keeps
    | exact (keeps_compose (fun s => (conf s, device s)) snd _ (setTargetFormat_keeps sdk))
    | exact (keeps_compose (fun s => (device s, targetFormat s, setup s))
               (fun x => fst (fst x)) _ (setProperties_keeps sdk))
    | apply keeps_bind; [ | intros ? ] ].
Qed.

Lemma initCamera_keeps_setup : keeps setup (initCamera sdk).
Proof.
  unfold initCamera.
  repeat first
    [ apply keeps_all, setSensorActive_keeps
    | apply keeps_all, getSourceFormat_keeps
    | exact (keeps_compose (fun s => (conf s, targetFormat s))
               (fun x => setup_of (fst x)) _ (openDevice_keeps sdk))
    | exact (keeps_compose (fun s => (conf s, device s))
               (fun x => setup_of (fst x)) _ (setTargetFormat_keeps sdk))
    | exact (keeps_compose (fun s => (device s, targetFormat s, setup s)) snd _
               (setProperties_keeps sdk))
    | apply keeps_this
    | apply keeps_bind; [ | intros ? ] ].
Qed.

Lemma initCamera_ensures :
  ensures (fun _ => True)
    (fun s' => (exists d, device s' = Some d) /\ is_bgr (targetFormat s'))
    (initCamera sdk).
Proof.
  unfold initCamera. apply ensures_and.
  - apply ensures_bind with (R := fun s' => exists d, device s' = Some d);
      [ apply openDevice_ensures_device | intros ? ].
    apply ensures_bind with (R := fun s' => exists d, device s' = Some d);
      [ apply (ensures_keeps device (fun x => exists d, x = Some d)), keeps_this
      | intros s0 ].
    apply (ensures_keeps device (fun x => exists d, x = Some d)).
    apply configure_keeps_device.
  - do 5 (apply ensures_bind with (R := fun _ => True); [ apply ensures_any | intros ? ]).
    apply ensures_bind with (R := fun s' => is_bgr (targetFormat s'));
      [ apply setTargetFormat_ensures_bgr | intros ? ].
    apply (ensures_keeps targetFormat is_bgr).
    exact (keeps_compose (fun s => (device s, targetFormat s, setup s))
             (fun x => snd (fst x)) _ (setProperties_keeps sdk)).
Qed.

(** X3.  When the constructor returns, the object is ready for
    [grabFrame]: a device is open, the cached target format has the colour
    format [VRM_BGR_3X8], and the ports, flags, timeout and frame identifier
    are the ones of the configuration given; of the configuration only the
    gains and exposures can differ.  This holds whatever the SDK answers. *)
Theorem CameraHandle_new_ready c h s :
  outcome (CameraHandle_new sdk c h s) = Normal tt ->
  (exists d, device (self (CameraHandle_new sdk c h s)) = Some d)
  /\ is_bgr (targetFormat (self (CameraHandle_new sdk c h s)))
  /\ setup (self (CameraHandle_new sdk c h s)) = setup_of c.
Proof.
  intros Hret.
  assert (ensures (fun _ => True)
            (fun s' => ((exists d, device s' = Some d) /\ is_bgr (targetFormat s'))
                       /\ setup s' = setup_of c)
            (CameraHandle_new sdk c)) as Hens.
  { unfold CameraHandle_new. apply ensures_and.
    - do 2 (apply ensures_bind with (R := fun _ => True); [ apply ensures_any | intros ? ]).
      apply ensures_bind
        with (R := fun s' => (exists d, device s' = Some d) /\ is_bgr (targetFormat s'));
        [ apply initCamera_ensures | intros ? ].
      apply (ensures_keeps (fun s => (device s, targetFormat s))
               (fun x => (exists d, fst x = Some d) /\ is_bgr (snd x))).
      exact (keeps_compose (fun s => s) (fun s => (device s, targetFormat s)) _
               (startCamera_keeps sdk)).
    - apply ensures_bind with (R := fun _ => True); [ apply ensures_any | intros ? ].
      apply ensures_bind with (R := fun s' => setup s' = setup_of c).
      + intros h' s' _ r0 _. reflexivity.
      + intros ?. apply (ensures_keeps setup (fun x => x = setup_of c)).
        apply keeps_bind; [ apply initCamera_keeps_setup | intros ? ].
        apply keeps_all, startCamera_keeps. }
  destruct (Hens h s I tt Hret) as ((Hd & Hf) & Hs). auto.
Qed.

End Postconditions.

Lemma openDevice_returns_with_device_witness :
  exists d,
    device (self (openDevice (bench_sdk bench) []
                    (mkCameraHandle bench_conf None bench_gray))) = Some d.
Proof.
  apply (openDevice_returns_with_device (bench_sdk bench) []
           (mkCameraHandle bench_conf None bench_gray)).
  vm_compute. reflexivity.
Defined.

Lemma setTargetFormat_returns_with_bgr_witness :
  is_bgr (targetFormat (self (setTargetFormat (bench_sdk bench) []
                                (mkCameraHandle bench_conf (Some 8%positive) bench_gray)))).
Proof.
  apply (setTargetFormat_returns_with_bgr (bench_sdk bench) []
           (mkCameraHandle bench_conf (Some 8%positive) bench_gray)).
  vm_compute. reflexivity.
Defined.

Lemma CameraHandle_new_ready_witness :
  (exists d,
     device (self (CameraHandle_new (bench_sdk bench) bench_conf []
                     (mkCameraHandle bench_conf None bench_gray))) = Some d)
  /\ is_bgr (targetFormat (self (CameraHandle_new (bench_sdk bench) bench_conf []
                                   (mkCameraHandle bench_conf None bench_gray))))
  /\ setup (self (CameraHandle_new (bench_sdk bench) bench_conf []
                    (mkCameraHandle bench_conf None bench_gray)))
     = setup_of bench_conf.
Proof.
  apply (CameraHandle_new_ready (bench_sdk bench) bench_conf []
           (mkCameraHandle bench_conf None bench_gray)).
  vm_compute. reflexivity.
Defined.

(** ** The port selector and the typed setters *)

(** X4.  On the ports 1 to 4 [portnumToPropId] prints nothing and returns
    a sensor select, and two different ports never give the same one. *)
Theorem portnumToPropId_injective port1 port2 h1 s1 h2 s2 :
  1 <= port1 <= 4 -> 1 <= port2 <= 4 ->
  (exists p, portnumToPropId port1 h1 s1 = mkRun (Normal (Some p)) s1 [])
  /\ (outcome (portnumToPropId port1 h1 s1) = outcome (portnumToPropId port2 h2 s2) ->
      port1 = port2).
Proof.
  intros H1 H2.
  assert (port1 = 1 \/ port1 = 2 \/ port1 = 3 \/ port1 = 4) as Hp1 by lia.
  assert (port2 = 1 \/ port2 = 2 \/ port2 = 3 \/ port2 = 4) as Hp2 by lia.
  split.
  - destruct Hp1 as [-> | [-> | [-> | ->]]]; eexists; reflexivity.
  - destruct Hp1 as [-> | [-> | [-> | ->]]], Hp2 as [-> | [-> | [-> | ->]]];
      simpl; intros Heq; try reflexivity; discriminate Heq.
Qed.

Lemma portnumToPropId_injective_witness :
  (exists p, portnumToPropId 3 [] bench_handle = mkRun (Normal (Some p)) bench_handle [])
  /\ (outcome (portnumToPropId 3 [] bench_handle)
      = outcome (portnumToPropId 3 [EvCleanup] bench_handle) -> 3 = 3).
Proof.
  apply (portnumToPropId_injective 3 3 [] bench_handle [EvCleanup] bench_handle); lia.
Defined.

Section Setters.

Variable sdk : VRmUsbCam.

Lemma setSingleProperty_int_writes value property port h s :
  let r := setSingleProperty_int sdk value property port h s in
  List.filter is_value_write (events r) = [] \/
  exists ok,
    List.filter is_value_write (events r)
    = [EvSetPropertyValueI (device s) property value ok]
    /\ In (EvGetPropertySupported (device s) property (Some true)) (events r).
Proof.
  name_run r. unfold setSingleProperty_int.
  destruct (setSensorActive_run sdk port h s) as [(p & ok & _ & E) | (_ & E)];
    unfold bind at 1; rewrite E; simpl; [ | intros ->; left; reflexivity ].
  run_prims. rewrite !app_nil_r.
  destruct (VRmUsbCamGetPropertySupported sdk _ _ _) as [ [ | ] | ]; simpl;
    [ destruct (VRmUsbCamSetPropertyValueI sdk _ _ _ _); simpl;
      [ destruct (VRmUsbCamGetPropertyInfo sdk _ _ _); simpl | ]
    | destruct (VRmUsbCamGetPropertyInfo sdk _ _ _); simpl | ];
    intros ->; simpl;
    first [ left; reflexivity
          | right; eexists; split; [ reflexivity | ]; simpl; auto ].
Qed.

Lemma setSingleProperty_float_writes value property port h s :
  let r := setSingleProperty_float sdk value property port h s in
  List.filter is_value_write (events r) = [] \/
  exists ok,
    List.filter is_value_write (events r)
    = [EvSetPropertyValueF (device s) property value ok]
    /\ In (EvGetPropertySupported (device s) property (Some true)) (events r).
Proof.
  name_run r. unfold setSingleProperty_float.
  destruct (setSensorActive_run sdk port h s) as [(p & ok & _ & E) | (_ & E)];
    unfold bind at 1; rewrite E; simpl; [ | intros ->; left; reflexivity ].
  run_prims. rewrite !app_nil_r.
  destruct (VRmUsbCamGetPropertySupported sdk _ _ _) as [ [ | ] | ]; simpl;
    [ destruct (VRmUsbCamSetPropertyValueF sdk _ _ _ _); simpl;
      [ destruct (VRmUsbCamGetPropertyInfo sdk _ _ _); simpl | ]
    | destruct (VRmUsbCamGetPropertyInfo sdk _ _ _); simpl | ];
    intros ->; simpl;
    first [ left; reflexivity
          | right; eexists; split; [ reflexivity | ]; simpl; auto ].
Qed.

Lemma setSingleProperty_bool_writes value property port h s :
  let r := setSingleProperty_bool sdk value property port h s in
  List.filter is_value_write (events r) = [] \/
  exists ok,
    List.filter is_value_write (events r)
    = [EvSetPropertyValueB (device s) property (Z.b2z value) ok]
    /\ In (EvGetPropertySupported (device s) property (Some true)) (events r).
Proof.
  name_run r. unfold setSingleProperty_bool.
  destruct (setSensorActive_run sdk port h s) as [(p & ok & _ & E) | (_ & E)];
    unfold bind at 1; rewrite E; simpl; [ | intros ->; left; reflexivity ].
  run_prims. rewrite !app_nil_r.
  destruct (VRmUsbCamGetPropertySupported sdk _ _ _) as [ [ | ] | ]; simpl;
    [ destruct (VRmUsbCamSetPropertyValueB sdk _ _ _ _); simpl;
      [ destruct (VRmUsbCamGetPropertyInfo sdk _ _ _); simpl | ]
    | destruct (VRmUsbCamGetPropertyInfo sdk _ _ _); simpl | ];
    intros ->; simpl;
    first [ left; reflexivity
          | right; eexists; split; [ reflexivity | ]; simpl; auto ].
Qed.

(** X5.  A call of [setSingleProperty] writes at most one property value;
    when it writes, the SDK has answered that the property is supported,
    and the write is the one of the overload, for the property and with the
    value of the call (0 or 1 for a [bool]).  This holds whatever the SDK
    answers and for every port. *)
Theorem setSingleProperty_writes_only_supported property port h s :
  (forall value : Z,
     let r := setSingleProperty_int sdk value property port h s in
     List.filter is_value_write (events r) = [] \/
     exists ok,
       List.filter is_value_write (events r)
       = [EvSetPropertyValueI (device s) property value ok]
       /\ In (EvGetPropertySupported (device s) property (Some true)) (events r))
  /\
  (forall value : float,
     let r := setSingleProperty_float sdk value property port h s in
     List.filter is_value_write (events r) = [] \/
     exists ok,
       List.filter is_value_write (events r)
       = [EvSetPropertyValueF (device s) property value ok]
       /\ In (EvGetPropertySupported (device s) property (Some true)) (events r))
  /\
  (forall value : bool,
     let r := setSingleProperty_bool sdk value property port h s in
     List.filter is_value_write (events r) = [] \/
     exists ok,
       List.filter is_value_write (events r)
       = [EvSetPropertyValueB (device s) property (Z.b2z value) ok]
       /\ In (EvGetPropertySupported (device s) property (Some true)) (events r)).
Proof.
  split; [ | split ]; intros value.
  - apply setSingleProperty_int_writes.
  - apply setSingleProperty_float_writes.
  - apply setSingleProperty_bool_writes.
Qed.

(** The events of a call leave the selected sensor as it was when the
    select among them has failed. *)
Lemma selected_sensor_app h1 h2 cur :
  selected_sensor (h1 ++ h2) cur = selected_sensor h2 (selected_sensor h1 cur).
Proof.
  revert cur. induction h1 as [ | e h1 IH ]; intros cur; simpl; [ reflexivity | ].
  destruct e; try apply IH.
  destruct p; try apply IH. destruct r; apply IH.
Qed.

(** X6.  [setSensorActive] does not look at what the SDK answers to the
    select.  When the select of a port from 1 to 4 fails, [setSingleProperty]
    goes on: a supported property is written all the same, while the
    device keeps the sensor that was selected before the call. *)
Theorem setSingleProperty_after_failed_select value property port p h s cur :
  port_select port = Some p ->
  VRmUsbCamSetPropertyValueE sdk h (device s) VRM_PROPID_GRAB_SENSOR_PROPS_SELECT_E
    (Some p) = false ->
  let r := setSingleProperty_int sdk value property port h s in
  In (EvGetPropertySupported (device s) property (Some true)) (events r) ->
  (exists ok, In (EvSetPropertyValueI (device s) property value ok) (events r))
  /\ selected_sensor (events r) cur = cur.
Proof.
  intros Hp Hsel. name_run r. unfold setSingleProperty_int.
  unfold bind at 1. rewrite (setSensorActive_valid sdk _ _ _ _ Hp). rewrite Hsel.
  simpl. run_prims. rewrite !app_nil_r.
  destruct (VRmUsbCamGetPropertySupported sdk _ _ _) as [ [ | ] | ]; simpl;
    [ destruct (VRmUsbCamSetPropertyValueI sdk _ _ _ _); simpl;
      [ destruct (VRmUsbCamGetPropertyInfo sdk _ _ _); simpl | ]
    | destruct (VRmUsbCamGetPropertyInfo sdk _ _ _); simpl | ];
    intros -> Hin; simpl in Hin; in_cases; try discriminate;
    simpl; (split; [ eauto 10 | reflexivity ]).
Qed.

(** X7.  [startCamera] starts the stream only after the frame counter has
    been reset with success; it returns exactly when the start has
    succeeded, and otherwise the process leaves with [EXIT_FAILURE]. *)
Theorem startCamera_reset_then_start h s :
  let r := startCamera sdk h s in
  (forall ok, In (EvStart (device s) ok) (events r) ->
              In (EvResetFrameCounter (device s) true) (events r))
  /\ (outcome r = Normal tt <-> In (EvStart (device s) true) (events r))
  /\ (outcome r = Normal tt \/ outcome r = Exited EXIT_FAILURE)
  /\ (length (List.filter is_start (events r)) <= 1)%nat.
Proof.
  name_run r. unfold startCamera. run_prims. rewrite ?app_nil_r.
  destruct (VRmUsbCamResetFrameCounter sdk _ _); simpl;
    [ destruct (VRmUsbCamStart sdk _ _); simpl | ];
    intros ->; simpl;
    (split; [ intros ok Hin; in_cases; auto 10
            | split; [ split; [ intros Ho; try discriminate Ho; auto 10
                              | intros Hin; in_cases; try discriminate; reflexivity ]
                     | split; [ auto | lia ] ] ]).
Qed.

End Setters.

Lemma setSingleProperty_after_failed_select_witness :
  (exists ok,
     In (EvSetPropertyValueI (Some 8%positive) VRM_PROPID_CAM_GAIN_MONOCHROME_I 10 ok)
        (events (setSingleProperty_int (stuck_sdk bench) 10
                   VRM_PROPID_CAM_GAIN_MONOCHROME_I 1 [] bench_handle)))
  /\ selected_sensor
       (events (setSingleProperty_int (stuck_sdk bench) 10
                  VRM_PROPID_CAM_GAIN_MONOCHROME_I 1 [] bench_handle))
       (Some (Some VRM_PROPID_GRAB_SENSOR_PROPS_SELECT_2))
     = Some (Some VRM_PROPID_GRAB_SENSOR_PROPS_SELECT_2).
Proof.
  apply (setSingleProperty_after_failed_select (stuck_sdk bench) 10
           VRM_PROPID_CAM_GAIN_MONOCHROME_I 1 VRM_PROPID_GRAB_SENSOR_PROPS_SELECT_1 []
           bench_handle (Some (Some VRM_PROPID_GRAB_SENSOR_PROPS_SELECT_2))
           eq_refl eq_refl).
  vm_compute. auto.
Defined.

(** ** Edge cases of the device manager and of the format negotiator *)

Section OpenFailure.

Variable sdk : VRmUsbCam.

Lemma openDevice_loop_open_fails n i h s k :
  device s = None ->
  VRmUsbCamGetDeviceKeyListEntry sdk h i = Some k ->
  m_busy k = false ->
  (forall h', VRmUsbCamOpenDevice sdk h' k = None) ->
  openDevice_loop sdk (S n) i h s =
    mkRun (Exited EXIT_FAILURE) s
      [EvGetDeviceKeyListEntry i (Some k); EvOpenDevice k None;
       EvGetLastError
         (VRmUsbCamGetLastError sdk
            (h ++ [EvGetDeviceKeyListEntry i (Some k); EvOpenDevice k None]));
       EvLog Error "%s : Line %d"
         [ArgS (VRmUsbCamGetLastError sdk
                  (h ++ [EvGetDeviceKeyListEntry i (Some k); EvOpenDevice k None]));
          ArgZ 94]].
Proof.
  intros Hd Hentry Hk Hopen. simpl openDevice_loop.
  run_prims. rewrite Hd, !app_nil_r, Hentry. simpl. rewrite Hk. simpl.
  rewrite Hopen. simpl. rewrite <- !app_assoc. reflexivity.
Qed.

(** X8.  When the first entry that is not busy cannot be opened, the
    process leaves through [VRM_CHECK] with the error printed: no later
    entry of the list is read or tried, and no device is open. *)
Theorem openDevice_open_failure version keys busy k rest h s :
  (forall h', VRmUsbCamGetVersion sdk h' = Some version) ->
  (forall h' k', VRmUsbCamFreeDeviceKey sdk h' k' = true) ->
  serves_keys sdk keys ->
  keys = (Some <$> busy) ++ Some k :: rest ->
  Forall (fun k => m_busy k = true) busy ->
  m_busy k = false ->
  (forall h', VRmUsbCamOpenDevice sdk h' k = None) ->
  exists err,
    openDevice sdk h s =
      mkRun (Exited EXIT_FAILURE) (set_device None s)
        (scan_events version (Z.of_nat (length keys)) ++ skipped 0 busy ++
         [EvGetDeviceKeyListEntry (Z.of_nat (length busy)) (Some k); EvOpenDevice k None;
          EvGetLastError err; EvLog Error "%s : Line %d" [ArgS err; ArgZ 94]]).
Proof.
  intros Hversion Hfree Hserve Hkeys Hbusy Hk Hopen.
  unfold openDevice, scan_events. run_prims. rewrite ?app_nil_r.
  rewrite Hversion. simpl. rewrite (proj1 Hserve). simpl.
  rewrite Nat2Z.id.
  assert (length keys = (length busy + S (length rest))%nat) as ->
    by (rewrite Hkeys, length_app, length_fmap; reflexivity).
  rewrite (openDevice_loop_skips sdk Hfree busy (S (length rest)) 0 _ (set_device None s)
             eq_refl (serves_prefix sdk keys busy _ Hserve Hkeys) Hbusy).
  rewrite (openDevice_loop_open_fails (length rest) _ _ (set_device None s) k eq_refl
             (serves_next sdk keys busy _ _ _ Hserve Hkeys) Hk Hopen).
  simpl. eexists. rewrite <- !app_assoc. reflexivity.
Qed.

End OpenFailure.

Lemma openDevice_open_failure_witness :
  outcome (openDevice (locked_sdk bench) [] (mkCameraHandle bench_conf None bench_gray))
  = Exited EXIT_FAILURE
  /\ List.filter is_open
       (events (openDevice (locked_sdk bench) []
                  (mkCameraHandle bench_conf None bench_gray)))
     = [EvOpenDevice (mkDeviceKey 8 false "VRmagic" "D3") None].
Proof.
  destruct (openDevice_open_failure (locked_sdk bench) 4 (Some <$> bench_keys bench)
              [mkDeviceKey 7 true "VRmagic" "D3"] (mkDeviceKey 8 false "VRmagic" "D3")
              [Some (mkDeviceKey 9 false "VRmagic" "D3")] []
              (mkCameraHandle bench_conf None bench_gray)
              (fun _ => eq_refl) (fun _ _ => eq_refl)
              (bench_serves_keys bench) eq_refl
              ltac:(repeat constructor) eq_refl (fun _ => eq_refl)) as (err & H).
  rewrite H. split; reflexivity.
Defined.

Lemma fetched_app d port fs1 fs2 : forall i,
  fetched d port i (fs1 ++ fs2)
  = fetched d port i fs1 ++ fetched d port (i + Z.of_nat (length fs1)) fs2.
Proof.
  induction fs1 as [ | f fs1 IH ]; intros i.
  - simpl. rewrite Z.add_0_r. reflexivity.
  - simpl fetched. rewrite IH. simpl. do 3 f_equal. simpl length. lia.
Qed.

Lemma filter_fetched d port fs : forall i,
  List.filter is_format_entry (fetched d port i fs) = fetched d port i fs.
Proof. induction fs as [ | f fs IH ]; intros i; simpl; [ | rewrite IH ]; reflexivity. Qed.

Lemma bench_serves_formats b : serves_formats (bench_sdk b) (bench_formats b).
Proof.
  split.
  - intros h d port. reflexivity.
  - intros h d port j f Hj. simpl. rewrite Nat2Z.id. exact Hj.
Qed.

Section Negotiation.

Variable sdk : VRmUsbCam.
Variable names : VRmColorFormat -> string.
Hypothesis names_ok : forall h c, VRmUsbCamGetStringFromColorFormat sdk h c = Some (names c).

(** X9.  Over a list that holds an entry of the wanted colour format,
    [setTargetFormat] returns with the first such entry as the target
    format; the entries read are the ones up to it, in the order of the
    list, and the rest of the list is never asked for.  Nothing is written
    to the device and the rest of the object stays. *)
Theorem setTargetFormat_first_match fmts pre f rest h s :
  serves_formats sdk fmts ->
  fmts = pre ++ f :: rest ->
  Forall (fun f => ~ is_bgr f) pre ->
  is_bgr f ->
  let r := setTargetFormat sdk h s in
  outcome r = Normal tt
  /\ targetFormat (self r) = f
  /\ conf (self r) = conf s /\ device (self r) = device s
  /\ List.filter is_format_entry (events r)
     = fetched (device s) (portLeft (conf s)) 0 (pre ++ [f])
  /\ existsb is_hardware_write (events r) = false.
Proof.
  intros Hserve Hfmts Hpre Hf r. subst r.
  rewrite (setTargetFormat_selects_first sdk names names_ok fmts pre f rest h s
             Hserve Hfmts Hpre Hf).
  simpl. repeat split.
  - rewrite List.filter_app, filter_fetched, fetched_app. reflexivity.
  - rewrite existsb_app, fetched_no_write. reflexivity.
Qed.

(** X10.  Over a list that is not empty and holds no entry of the wanted
    colour format, every entry is read, the member [targetFormat] is left
    holding the last of them, and the process leaves with [exit(-1)] after
    the fatal message, with nothing written to the device. *)
Theorem setTargetFormat_without_match fmts h s :
  serves_formats sdk fmts ->
  fmts <> [] ->
  Forall (fun f => ~ is_bgr f) fmts ->
  let r := setTargetFormat sdk h s in
  outcome r = Exited (-1)
  /\ List.filter is_format_entry (events r) = fetched (device s) (portLeft (conf s)) 0 fmts
  /\ Some (targetFormat (self r)) = last fmts
  /\ existsb (is_log Fatal) (events r) = true
  /\ existsb is_hardware_write (events r) = false.
Proof.
  intros Hserve Hne Hall r. subst r.
  rewrite (setTargetFormat_no_match_run sdk names names_ok fmts h s Hserve Hne Hall).
  simpl. destruct (after_fetch_fields fmts s) as (_ & _ & Ht).
  repeat split.
  - rewrite List.filter_app, filter_fetched. simpl. rewrite app_nil_r. reflexivity.
  - rewrite Ht. destruct (last fmts) eqn:E; [ reflexivity | ].
    apply last_None in E. contradiction.
  - rewrite existsb_app. simpl. apply orb_true_r.
  - rewrite existsb_app, fetched_no_write. reflexivity.
Qed.

End Negotiation.

Lemma setTargetFormat_first_match_witness :
  outcome (setTargetFormat (bench_sdk bench) [] (mkCameraHandle bench_conf (Some 8%positive) bench_gray))
  = Normal tt
  /\ targetFormat (self (setTargetFormat (bench_sdk bench) []
                           (mkCameraHandle bench_conf (Some 8%positive) bench_gray)))
     = bench_bgr.
Proof.
  destruct (setTargetFormat_first_match (bench_sdk bench) bench_names (fun _ _ => eq_refl)
              (bench_formats bench) [bench_gray] bench_bgr [mkImageFormat 4 4 VRM_BGR_3X8 0]
              [] (mkCameraHandle bench_conf (Some 8%positive) bench_gray)
              (bench_serves_formats bench) eq_refl
              ltac:(repeat constructor; discriminate) eq_refl) as (Ho & Ht & _).
  split; assumption.
Defined.

Lemma setTargetFormat_without_match_witness :
  outcome (setTargetFormat (bench_sdk bench_gray_only) [] bench_handle) = Exited (-1)
  /\ Some (targetFormat (self (setTargetFormat (bench_sdk bench_gray_only) [] bench_handle)))
     = Some bench_gray.
Proof.
  destruct (setTargetFormat_without_match (bench_sdk bench_gray_only) bench_names
              (fun _ _ => eq_refl) (bench_formats bench_gray_only) [] bench_handle
              (bench_serves_formats bench_gray_only) ltac:(discriminate)
              ltac:(repeat constructor; discriminate)) as (Ho & _ & Ht & _).
  split; [ exact Ho | exact Ht ].
Defined.

(** ** The sanitizer as a whole *)

Section Sanitizer.

Variable sdk : VRmUsbCam.

Lemma checkAndSanitizeProperty_int_silent v p n :
  silent is_hardware_write (checkAndSanitizeProperty_int sdk v p n).
Proof. unfold checkAndSanitizeProperty_int. silent_body. Qed.

Lemma checkAndSanitizeProperty_float_silent v p n :
  silent is_hardware_write (checkAndSanitizeProperty_float sdk v p n).
Proof. unfold checkAndSanitizeProperty_float. silent_body. Qed.

Lemma checkAndSanitizeConfig_silent : silent is_hardware_write (checkAndSanitizeConfig sdk).
Proof.
  unfold checkAndSanitizeConfig.
  repeat first [ apply checkAndSanitizeProperty_int_silent
               | apply checkAndSanitizeProperty_float_silent
               | silent_step ].
Qed.

(** X11.  Sanitizing is idempotent on a device whose answers are stable
    and whose default lies within its own range: the value that comes out
    is within the range, and sanitizing it again gives it back without a
    warning.  For [float] the range test is the one of the code, which a
    NaN passes. *)
Theorem checkAndSanitizeProperty_idempotent property info s :
  (forall h, VRmUsbCamGetPropertyInfo sdk h (device s) property = Some info) ->
  (forall ok a value name h,
     (forall h', VRmUsbCamGetPropertyAttribsI sdk h' (device s) property = (ok, a)) ->
     m_min_i a <= m_default_i a <= m_max_i a ->
     exists v1,
       outcome (checkAndSanitizeProperty_int sdk value property name h s) = Normal v1
       /\ m_min_i a <= v1 <= m_max_i a
       /\ forall name' h',
            let r' := checkAndSanitizeProperty_int sdk v1 property name' h' s in
            outcome r' = Normal v1 /\ existsb (is_log Warn) (events r') = false)
  /\
  (forall ok a value name h,
     (forall h', VRmUsbCamGetPropertyAttribsF sdk h' (device s) property = (ok, a)) ->
     SFleb (m_min_f a) (m_default_f a) = true ->
     SFleb (m_default_f a) (m_max_f a) = true ->
     exists v1,
       outcome (checkAndSanitizeProperty_float sdk value property name h s) = Normal v1
       /\ out_of_range_f a v1 = false
       /\ forall name' h',
            let r' := checkAndSanitizeProperty_float sdk v1 property name' h' s in
            outcome r' = Normal v1 /\ existsb (is_log Warn) (events r') = false).
Proof.
  intros Hinfo. split.
  - intros ok a value name h Hattr Hdef.
    assert (forall v name' h',
              checkAndSanitizeProperty_int sdk v property name' h' s =
              mkRun (Normal (if out_of_range_i a v then m_default_i a else v)) s
                (EvGetPropertyInfo (device s) property (Some info)
                 :: type_error VRM_PROP_TYPE_INT (m_type info)
                 ++ EvGetPropertyAttribsI (device s) property (ok, a)
                 :: (if out_of_range_i a v then warnings_i name' a v else []))) as Hrun.
    { intros v name' h'.
      rewrite (checkAndSanitizeProperty_int_run sdk v property name' h' s info (Hinfo h')).
      cbv zeta. rewrite Hattr. reflexivity. }
    assert (out_of_range_i a (if out_of_range_i a value then m_default_i a else value)
            = false) as Hin.
    { destruct (out_of_range_i a value) eqn:E; [ apply in_range_i; exact Hdef | exact E ]. }
    eexists. split; [ rewrite Hrun; reflexivity | ]. split.
    + apply in_range_i. exact Hin.
    + intros name' h'. cbv zeta. rewrite Hrun, Hin. simpl. split; [ reflexivity | ].
      unfold type_error. destruct (decide _); reflexivity.
  - intros ok a value name h Hattr Hlo Hhi.
    assert (forall v name' h',
              checkAndSanitizeProperty_float sdk v property name' h' s =
              mkRun (Normal (if out_of_range_f a v then m_default_f a else v)) s
                (EvGetPropertyInfo (device s) property (Some info)
                 :: type_error VRM_PROP_TYPE_FLOAT (m_type info)
                 ++ EvGetPropertyAttribsF (device s) property (ok, a)
                 :: (if out_of_range_f a v then warnings_f name' a v else []))) as Hrun.
    { intros v name' h'.
      rewrite (checkAndSanitizeProperty_float_run sdk v property name' h' s info (Hinfo h')).
      cbv zeta. rewrite Hattr. reflexivity. }
    assert (out_of_range_f a (if out_of_range_f a value then m_default_f a else value)
            = false) as Hin.
    { destruct (out_of_range_f a value) eqn:E; [ apply in_range_f; assumption | exact E ]. }
    eexists. split; [ rewrite Hrun; reflexivity | ]. split.
    + exact Hin.
    + intros name' h'. cbv zeta. rewrite Hrun, Hin. simpl. split; [ reflexivity | ].
      unfold type_error. destruct (decide _); reflexivity.
Qed.

(** X12.  [checkAndSanitizeConfig] only reads from the device: whatever
    the SDK answers, no call of its run changes the device or the library,
    and of the object only the two gains and the two exposures can
    change. *)
Theorem checkAndSanitizeConfig_reads_only h s :
  let r := checkAndSanitizeConfig sdk h s in
  existsb is_hardware_write (events r) = false
  /\ device (self r) = device s
  /\ targetFormat (self r) = targetFormat s
  /\ setup (self r) = setup s.
Proof.
  intros r. subst r. split; [ apply checkAndSanitizeConfig_silent | ].
  pose proof (checkAndSanitizeConfig_keeps sdk h s) as H.
  split; [ exact (f_equal (fun x => fst (fst x)) H) | ].
  split; [ exact (f_equal (fun x => snd (fst x)) H) | exact (f_equal snd H) ].
Qed.

(** X13.  A NaN passes the range test of the [float] sanitizer: it comes
    back unchanged and without a warning, whatever range the device
    reports. *)
Theorem checkAndSanitizeProperty_nan_passes property name h s info :
  VRmUsbCamGetPropertyInfo sdk h (device s) property = Some info ->
  let r := checkAndSanitizeProperty_float sdk S754_nan property name h s in
  outcome r = Normal S754_nan /\ existsb (is_log Warn) (events r) = false.
Proof.
  intros Hinfo r. subst r.
  rewrite (checkAndSanitizeProperty_float_run sdk _ property name h s info Hinfo).
  cbv zeta. fold f_nan. rewrite out_of_range_f_nan. simpl.
  split; [ reflexivity | ]. unfold type_error. destruct (decide _); reflexivity.
Qed.

End Sanitizer.

Lemma checkAndSanitizeProperty_idempotent_witness :
  exists v1,
    outcome (checkAndSanitizeProperty_int (bench_sdk bench) 5000
               VRM_PROPID_CAM_GAIN_MONOCHROME_I "gainLeft" [] bench_handle) = Normal v1
    /\ 0 <= v1 <= 1000
    /\ outcome (checkAndSanitizeProperty_int (bench_sdk bench) v1
                  VRM_PROPID_CAM_GAIN_MONOCHROME_I "gainLeft" [] bench_handle) = Normal v1.
Proof.
  destruct (proj1 (checkAndSanitizeProperty_idempotent (bench_sdk bench)
                     VRM_PROPID_CAM_GAIN_MONOCHROME_I gain_info bench_handle
                     (fun _ => eq_refl))
              true (mkAttribsI 500 0 1000 1) 5000 "gainLeft"%string []
              (fun _ => eq_refl) ltac:(simpl; lia)) as (v1 & Ho & Hr & Hagain).
  exists v1. split; [ exact Ho | split; [ exact Hr | ] ].
  exact (proj1 (Hagain "gainLeft"%string [])).
Defined.

Lemma checkAndSanitizeProperty_nan_passes_witness :
  outcome (checkAndSanitizeProperty_float (bench_sdk bench) S754_nan
             VRM_PROPID_CAM_EXPOSURE_TIME_F "exposureLeft" [] bench_handle)
  = Normal S754_nan.
Proof.
  exact (proj1 (checkAndSanitizeProperty_nan_passes (bench_sdk bench)
                  VRM_PROPID_CAM_EXPOSURE_TIME_F "exposureLeft" [] bench_handle
                  exposure_info eq_refl)).
Defined.

(** ** Frames, whatever their size *)

Lemma for_each_preserves {D : Type} (f : D -> nat) (body : Z -> D -> option D) :
  (forall i d d', body i d = Some d' -> f d' = f d) ->
  forall n i d d', for_each n i body d = Some d' -> f d' = f d.
Proof.
  intros Hbody. induction n as [ | n IH ]; intros i d d'; simpl.
  - intros [= ->]. reflexivity.
  - destruct (body i d) as [ d1 | ] eqn:E; [ | discriminate ].
    intros H. rewrite (IH _ _ _ H). apply (Hbody _ _ _ E).
Qed.

Lemma vec_store_length i b v v' : vec_store i b v = Some v' -> length v' = length v.
Proof.
  unfold vec_store. destruct (decide _); [ | discriminate ].
  intros [= <-]. apply length_insert.
Qed.

(** The copy loop stores into the buffer and never changes its length. *)
Lemma copy_rows_length tgt w ht v v' :
  copy_rows tgt w ht v = Some v' -> length v' = length v.
Proof.
  unfold copy_rows. apply for_each_preserves.
  intros y d d'. apply for_each_preserves.
  intros x d1 d1'. apply vec_store_length.
Qed.

Section Frames32.

Variable sdk : VRmUsbCam.

(** X14.  A frame that [grabFrame] returns after a successful lock carries
    the trigger time, the frame identifier of the configuration and the
    encoding bgr8; its sequence number and endianness are the caller's.  Its
    width and height are those of the converted image, its step is
    [width * 3] in 32-bit arithmetic, and its buffer has [height * step]
    bytes in 32-bit arithmetic.  The converted image has been freed and the
    source image unlocked, in this order. *)
Theorem grabFrame_returned_frame port img t h s src dropped out :
  let r := grabFrame sdk port img t h s in
  In (EvLockNextImageEx2 (device s) port (timeout (conf s)) (Some (src, dropped)))
     (events r) ->
  outcome r = Normal out ->
  exists fresh tgt pre,
    events r = pre ++ [EvConvertImage src fresh (Some tgt); EvFreeImage tgt true;
                       EvUnlockNextImage (device s) src true]
    /\ header_stamp out = t
    /\ header_frame_id out = frameId (conf s)
    /\ encoding out = BGR8
    /\ header_seq out = header_seq img
    /\ is_bigendian out = is_bigendian img
    /\ width out = m_width (m_image_format tgt)
    /\ height out = m_height (m_image_format tgt)
    /\ step out = wrap32 (width out * 3)
    /\ length (data out) = Z.to_nat (wrap32 (height out * step out)).
Proof.
  name_run r. unfold grabFrame. run_prims. rewrite ?app_nil_r.
  destruct (VRmUsbCamLockNextImageEx2 sdk _ _ _ _) as [ [src' dropped'] | ]; simpl.
  - destruct (VRmUsbCamNewImage sdk _ _) as [ fresh | ]; simpl;
      [ | intros -> _ Ho; discriminate Ho ].
    destruct (VRmUsbCamConvertImage sdk _ _ _) as [ tgt | ]; simpl;
      [ | intros -> _ Ho; discriminate Ho ].
    destruct (copy_rows tgt _ _ _) as [ packed | ] eqn:Hcopy; simpl;
      [ | intros -> _ Ho; discriminate Ho ].
    destruct (VRmUsbCamFreeImage sdk _ _); simpl;
      [ | intros -> _ Ho; discriminate Ho ].
    destruct (VRmUsbCamUnlockNextImage sdk _ _ _); simpl;
      [ | intros -> _ Ho; discriminate Ho ].
    intros -> Hin Ho. simpl in *. in_cases.
    injection Ho as <-. injection Hin as <- <-.
    exists fresh, tgt, [EvLockNextImageEx2 (device s) port (timeout (conf s))
                          (Some (src', dropped'));
                        EvNewImage (targetFormat s) (Some fresh)].
    simpl. repeat split.
    rewrite (copy_rows_length _ _ _ _ _ Hcopy). apply length_resize.
  - intros -> Hin _. simpl in Hin. in_cases.
Qed.

(** X15.  When [grabFrame] ends the process, it does so with
    [EXIT_FAILURE] after a successful lock, and the locked source image has
    not been given back: no unlock has succeeded. *)
Theorem grabFrame_exits_locked port img t h s c :
  let r := grabFrame sdk port img t h s in
  outcome r = Exited c ->
  c = EXIT_FAILURE
  /\ (exists src dropped,
        In (EvLockNextImageEx2 (device s) port (timeout (conf s)) (Some (src, dropped)))
           (events r))
  /\ (forall d src, ~ In (EvUnlockNextImage d src true) (events r))
  /\ existsb (is_log Error) (events r) = true.
Proof.
  name_run r. unfold grabFrame. run_prims. rewrite ?app_nil_r.
  destruct (VRmUsbCamLockNextImageEx2 sdk _ _ _ _) as [ [src dropped] | ]; simpl;
    [ | intros -> Ho; discriminate Ho ].
  destruct (VRmUsbCamNewImage sdk _ _) as [ fresh | ]; simpl;
    [ destruct (VRmUsbCamConvertImage sdk _ _ _) as [ tgt | ]; simpl;
      [ destruct (copy_rows tgt _ _ _) as [ packed | ]; simpl;
        [ destruct (VRmUsbCamFreeImage sdk _ _); simpl;
          [ destruct (VRmUsbCamUnlockNextImage sdk _ _ _); simpl | ] | ] | ] | ];
    intros -> Ho; simpl in *; try discriminate Ho;
    injection Ho as <-;
    (split; [ reflexivity | split; [ eauto 10 | split; [ | reflexivity ] ] ]);
    intros d src0 Hin; in_cases.
Qed.

(** X16.  [grabFrameLeft] and [grabFrameRight] ask for a frame once, on the
    left resp. right port of the configuration and with its timeout: there
    is no second attempt.  Neither call writes to the device, selects a
    sensor or changes the object. *)
Theorem grabFrame_one_lock img t h s :
  (let r := grabFrameLeft sdk img t h s in
   (exists answer,
      List.filter is_lock (events r)
      = [EvLockNextImageEx2 (device s) (portLeft (conf s)) (timeout (conf s)) answer])
   /\ existsb is_hardware_write (events r) = false
   /\ self r = s)
  /\
  (let r := grabFrameRight sdk img t h s in
   (exists answer,
      List.filter is_lock (events r)
      = [EvLockNextImageEx2 (device s) (portRight (conf s)) (timeout (conf s)) answer])
   /\ existsb is_hardware_write (events r) = false
   /\ self r = s).
Proof.
  split; name_run r; [ unfold grabFrameLeft | unfold grabFrameRight ];
    unfold grabFrame; run_prims; rewrite ?app_nil_r;
    (destruct (VRmUsbCamLockNextImageEx2 sdk _ _ _ _) as [ [src dropped] | ]; simpl;
     [ destruct (VRmUsbCamNewImage sdk _ _) as [ fresh | ]; simpl;
       [ destruct (VRmUsbCamConvertImage sdk _ _ _) as [ tgt | ]; simpl;
         [ destruct (copy_rows tgt _ _ _) as [ packed | ]; simpl;
           [ destruct (VRmUsbCamFreeImage sdk _ _); simpl;
             [ destruct (VRmUsbCamUnlockNextImage sdk _ _ _); simpl | ] | ] | ] | ]
     | ]);
    intros ->; simpl; (split; [ eexists; reflexivity | split; reflexivity ]).
Qed.

End Frames32.

Lemma grabFrame_returned_frame_witness :
  exists out,
    outcome (grabFrame (bench_sdk bench) 1 blank_image (mkTime 3 4) [] bench_handle)
    = Normal out
    /\ header_stamp out = mkTime 3 4
    /\ header_frame_id out = "camera"%string
    /\ step out = 6
    /\ length (data out) = 12%nat.
Proof.
  eexists. split; [ reflexivity | ].
  destruct (grabFrame_returned_frame (bench_sdk bench) 1 blank_image (mkTime 3 4) []
              bench_handle bench_image 0 _ ltac:(simpl; auto) eq_refl)
    as (fresh & tgt & pre & _ & Hs & Hf & _ & _ & _ & _ & _ & _ & _).
  split; [ exact Hs | split; [ exact Hf | split; reflexivity ] ].
Defined.

Lemma grabFrame_exits_locked_witness :
  outcome (grabFrame (jammed_sdk bench) 1 blank_image (mkTime 3 4) [] bench_handle)
  = Exited EXIT_FAILURE
  /\ existsb (is_log Error)
       (events (grabFrame (jammed_sdk bench) 1 blank_image (mkTime 3 4) [] bench_handle))
     = true.
Proof.
  split; [ reflexivity | ].
  exact (proj2 (proj2 (proj2
           (grabFrame_exits_locked (jammed_sdk bench) 1 blank_image (mkTime 3 4) []
              bench_handle EXIT_FAILURE eq_refl)))).
Defined.

(** ** The property configurator as a whole *)

Lemma filter_silent (f : Event -> bool) es : existsb f es = false -> List.filter f es = [].
Proof.
  induction es as [ | e es IH ]; simpl; [ reflexivity | ].
  intros H. apply orb_false_iff in H as [-> Hes]. auto.
Qed.

Section StableDevice.

Variable sdk : VRmUsbCam.
Variable d : option VRmUsbCamDevice.
Variables gain_desc exposure_desc : VRmPropInfo.
Variables (oki : bool) (ai : VRmPropAttribsI) (okf : bool) (af : VRmPropAttribsF).

Hypothesis info_gain : forall h,
  VRmUsbCamGetPropertyInfo sdk h d VRM_PROPID_CAM_GAIN_MONOCHROME_I = Some gain_desc.
Hypothesis info_exposure : forall h,
  VRmUsbCamGetPropertyInfo sdk h d VRM_PROPID_CAM_EXPOSURE_TIME_F = Some exposure_desc.
Hypothesis attribs_gain : forall h,
  VRmUsbCamGetPropertyAttribsI sdk h d VRM_PROPID_CAM_GAIN_MONOCHROME_I = (oki, ai).
Hypothesis attribs_exposure : forall h,
  VRmUsbCamGetPropertyAttribsF sdk h d VRM_PROPID_CAM_EXPOSURE_TIME_F = (okf, af).

Lemma sanitize_gain_stable v name h s :
  device s = d ->
  exists es,
    checkAndSanitizeProperty_int sdk v VRM_PROPID_CAM_GAIN_MONOCHROME_I name h s
    = mkRun (Normal (sanitized_i ai v)) s es
    /\ List.filter is_hardware_write es = [].
Proof.
  intros Hd.
  pose proof (checkAndSanitizeProperty_int_silent sdk v VRM_PROPID_CAM_GAIN_MONOCHROME_I
                name h s) as Hs.
  revert Hs.
  rewrite (checkAndSanitizeProperty_int_run sdk v _ name h s gain_desc)
    by (rewrite Hd; apply info_gain).
  cbv zeta. rewrite Hd, attribs_gain. simpl. intros Hs.
  eexists. split; [ reflexivity | ]. apply filter_silent. exact Hs.
Qed.

Lemma sanitize_exposure_stable v name h s :
  device s = d ->
  exists es,
    checkAndSanitizeProperty_float sdk v VRM_PROPID_CAM_EXPOSURE_TIME_F name h s
    = mkRun (Normal (sanitized_f af v)) s es
    /\ List.filter is_hardware_write es = [].
Proof.
  intros Hd.
  pose proof (checkAndSanitizeProperty_float_silent sdk v VRM_PROPID_CAM_EXPOSURE_TIME_F
                name h s) as Hs.
  revert Hs.
  rewrite (checkAndSanitizeProperty_float_run sdk v _ name h s exposure_desc)
    by (rewrite Hd; apply info_exposure).
  cbv zeta. rewrite Hd, attribs_exposure. simpl. intros Hs.
  eexists. split; [ reflexivity | ]. apply filter_silent. exact Hs.
Qed.

(** Rewrites the next call of a sanitizer in the goal with its run. *)
Ltac sanitize_next :=
  match goal with
  | |- context [checkAndSanitizeProperty_int sdk ?v _ ?n ?h ?s] =>
      let es := fresh "es" in
      let E := fresh "E" in
      let Hes := fresh "Hes" in
      destruct (sanitize_gain_stable v n h s) as (es & E & Hes);
      [ try assumption; reflexivity | rewrite E; clear E; cbv beta iota ]
  | |- context [checkAndSanitizeProperty_float sdk ?v _ ?n ?h ?s] =>
      let es := fresh "es" in
      let E := fresh "E" in
      let Hes := fresh "Hes" in
      destruct (sanitize_exposure_stable v n h s) as (es & E & Hes);
      [ try assumption; reflexivity | rewrite E; clear E; cbv beta iota ]
  end.

Lemma checkAndSanitizeConfig_stable h s :
  device s = d ->
  exists es,
    checkAndSanitizeConfig sdk h s
    = mkRun (Normal tt) (set_conf (sanitized_conf ai af (conf s)) s) es
    /\ List.filter is_hardware_write es = [].
Proof.
  intros Hd.
  cbv beta iota delta [checkAndSanitizeConfig bind this modify].
  do 4 sanitize_next.
  eexists. split; [ reflexivity | ].
  rewrite ?app_nil_r, ?app_nil_l, !List.filter_app. 
  repeat match goal with H : List.filter _ _ = [] |- _ => rewrite H; clear H end.
  reflexivity.
Qed.

(** X17.  On a device whose answers about the gain and the exposure time
    are stable, [checkAndSanitizeConfig] returns, and the configuration it
    leaves is the one it found with each of the two gains and the two
    exposures sanitized under the reported attributes, the gains under those
    of the gain and the exposures under those of the exposure time: the four
    updates do not disturb one another.  With a default inside the reported
    range, both gains end within it. *)
Theorem checkAndSanitizeConfig_sanitizes h s :
  device s = d ->
  let r := checkAndSanitizeConfig sdk h s in
  outcome r = Normal tt
  /\ conf (self r) = sanitized_conf ai af (conf s)
  /\ (m_min_i ai <= m_default_i ai <= m_max_i ai ->
      m_min_i ai <= gainLeft (conf (self r)) <= m_max_i ai
      /\ m_min_i ai <= gainRight (conf (self r)) <= m_max_i ai).
Proof.
  intros Hd r. subst r.
  destruct (checkAndSanitizeConfig_stable h s Hd) as (es & -> & _). simpl.
  split; [ reflexivity | split; [ reflexivity | ] ].
  intros Hdef. unfold sanitized_i.
  split; apply in_range_i;
    match goal with
    | |- out_of_range_i ai (if ?b then _ else _) = false =>
        destruct b eqn:E; [ apply in_range_i; exact Hdef | exact E ]
    end.
Qed.

Variable sel : option VRmPropId -> bool.
Variables select_l select_r : VRmPropId.

Hypothesis select_answer : forall h v,
  VRmUsbCamSetPropertyValueE sdk h d VRM_PROPID_GRAB_SENSOR_PROPS_SELECT_E v = sel v.
Hypothesis supported : forall h p, VRmUsbCamGetPropertySupported sdk h d p = Some true.
Hypothesis write_i : forall h p v, VRmUsbCamSetPropertyValueI sdk h d p v = true.
Hypothesis write_f : forall h p v, VRmUsbCamSetPropertyValueF sdk h d p v = true.

Lemma setSingleProperty_gain_run v port p h s :
  device s = d ->
  port_select port = Some p ->
  setSingleProperty_int sdk v VRM_PROPID_CAM_GAIN_MONOCHROME_I port h s =
    mkRun (Normal tt) s
      [EvSetPropertyValueE d VRM_PROPID_GRAB_SENSOR_PROPS_SELECT_E (Some p) (sel (Some p));
       EvGetPropertySupported d VRM_PROPID_CAM_GAIN_MONOCHROME_I (Some true);
       EvSetPropertyValueI d VRM_PROPID_CAM_GAIN_MONOCHROME_I v true;
       EvGetPropertyInfo d VRM_PROPID_CAM_GAIN_MONOCHROME_I (Some gain_desc);
       EvLog Info "%s changed to: %i" [ArgS (m_description gain_desc); ArgZ v]].
Proof.
  intros Hd Hp. unfold setSingleProperty_int.
  unfold bind at 1. rewrite (setSensorActive_valid sdk _ _ _ _ Hp). simpl.
  run_prims. rewrite !app_nil_r, Hd.
  rewrite supported. simpl. rewrite write_i. simpl. rewrite info_gain. simpl.
  rewrite select_answer. reflexivity.
Qed.

Lemma setSingleProperty_exposure_run v port p h s :
  device s = d ->
  port_select port = Some p ->
  setSingleProperty_float sdk v VRM_PROPID_CAM_EXPOSURE_TIME_F port h s =
    mkRun (Normal tt) s
      [EvSetPropertyValueE d VRM_PROPID_GRAB_SENSOR_PROPS_SELECT_E (Some p) (sel (Some p));
       EvGetPropertySupported d VRM_PROPID_CAM_EXPOSURE_TIME_F (Some true);
       EvSetPropertyValueF d VRM_PROPID_CAM_EXPOSURE_TIME_F v true;
       EvGetPropertyInfo d VRM_PROPID_CAM_EXPOSURE_TIME_F (Some exposure_desc);
       EvLog Info "%s changed to: %f ms" [ArgS (m_description exposure_desc); ArgF v]].
Proof.
  intros Hd Hp. unfold setSingleProperty_float.
  unfold bind at 1. rewrite (setSensorActive_valid sdk _ _ _ _ Hp). simpl.
  run_prims. rewrite !app_nil_r, Hd.
  rewrite supported. simpl. rewrite write_f. simpl. rewrite info_exposure. simpl.
  rewrite select_answer. reflexivity.
Qed.

(** X18.  On a device that is stable, supports the gain and the exposure
    time and accepts what is written, [setProperties] returns, and the calls
    of its run that change the device are, in this order: for the gain, when
    it is asked for, the select of the left port, the write of the sanitized
    left gain, the select of the right port and the write of the sanitized
    right gain; then the same for the exposure time, when it is asked for.
    What is written is the sanitized value, never the configured one. *)
Theorem setProperties_writes_sanitized h s :
  device s = d ->
  port_select (portLeft (conf s)) = Some select_l ->
  port_select (portRight (conf s)) = Some select_r ->
  let r := setProperties sdk h s in
  let c := sanitized_conf ai af (conf s) in
  outcome r = Normal tt
  /\ conf (self r) = c
  /\ List.filter is_hardware_write (events r)
     = (if setGain (conf s)
        then [EvSetPropertyValueE d VRM_PROPID_GRAB_SENSOR_PROPS_SELECT_E (Some select_l)
                (sel (Some select_l));
              EvSetPropertyValueI d VRM_PROPID_CAM_GAIN_MONOCHROME_I (gainLeft c) true;
              EvSetPropertyValueE d VRM_PROPID_GRAB_SENSOR_PROPS_SELECT_E (Some select_r)
                (sel (Some select_r));
              EvSetPropertyValueI d VRM_PROPID_CAM_GAIN_MONOCHROME_I (gainRight c) true]
        else [])
       ++
       (if setExposure (conf s)
        then [EvSetPropertyValueE d VRM_PROPID_GRAB_SENSOR_PROPS_SELECT_E (Some select_l)
                (sel (Some select_l));
              EvSetPropertyValueF d VRM_PROPID_CAM_EXPOSURE_TIME_F (exposureLeft c) true;
              EvSetPropertyValueE d VRM_PROPID_GRAB_SENSOR_PROPS_SELECT_E (Some select_r)
                (sel (Some select_r));
              EvSetPropertyValueF d VRM_PROPID_CAM_EXPOSURE_TIME_F (exposureRight c) true]
        else []).
Proof.
  intros Hd Hl Hr. name_run r. intros Hrun c. subst c. revert Hrun.
  unfold setProperties.
  destruct (checkAndSanitizeConfig_stable h s Hd) as (es & E & Hes).
  unfold bind at 1. rewrite E. clear E.
  set (s1 := set_conf (sanitized_conf ai af (conf s)) s).
  assert (device s1 = d) as Hd1 by exact Hd.
  assert (port_select (portLeft (conf s1)) = Some select_l) as Hl1 by exact Hl.
  assert (port_select (portRight (conf s1)) = Some select_r) as Hr1 by exact Hr.
  change (setGain (conf s)) with (setGain (conf s1)).
  change (setExposure (conf s)) with (setExposure (conf s1)).
  change (sanitized_conf ai af (conf s)) with (conf s1).
  clearbody s1.
  cbv beta iota delta [bind this].
  destruct (setGain (conf s1));
    cbv beta iota delta [setGainM setPropertyLeftAndRight_int bind this ret];
    rewrite ?(setSingleProperty_gain_run _ _ _ _ _ Hd1 Hl1); cbv beta iota;
    rewrite ?(setSingleProperty_gain_run _ _ _ _ _ Hd1 Hr1); cbv beta iota;
    (destruct (setExposure (conf s1));
     cbv beta iota delta [setExposureM setPropertyLeftAndRight_float bind this ret
                            ROS_INFO emit];
     rewrite ?(setSingleProperty_exposure_run _ _ _ _ _ Hd1 Hl1); cbv beta iota;
     rewrite ?(setSingleProperty_exposure_run _ _ _ _ _ Hd1 Hr1); cbv beta iota);
    intros ->; simpl; (split; [ reflexivity | split; [ reflexivity | ] ]);
    rewrite !List.filter_app, Hes; reflexivity.
Qed.

End StableDevice.

Lemma checkAndSanitizeConfig_sanitizes_witness :
  outcome (checkAndSanitizeConfig (bench_sdk bench) [] bench_handle) = Normal tt
  /\ gainLeft (conf (self (checkAndSanitizeConfig (bench_sdk bench) [] bench_handle))) = 500
  /\ gainRight (conf (self (checkAndSanitizeConfig (bench_sdk bench) [] bench_handle))) = 10
  /\ exposureRight (conf (self (checkAndSanitizeConfig (bench_sdk bench) [] bench_handle)))
     = f_one.
Proof.
  destruct (checkAndSanitizeConfig_sanitizes (bench_sdk bench) (Some 8%positive)
              gain_info exposure_info true (mkAttribsI 500 0 1000 1)
              true (mkAttribsF f_one f_half f_two f_half)
              (fun _ => eq_refl) (fun _ => eq_refl) (fun _ => eq_refl) (fun _ => eq_refl)
              [] bench_handle eq_refl) as (Ho & Hc & _).
  split; [ exact Ho | ]. rewrite Hc. repeat split.
Defined.

Lemma setProperties_writes_sanitized_witness :
  List.filter is_hardware_write
    (events (setProperties (bench_sdk bench_full) [] bench_handle))
  = [EvSetPropertyValueE (Some 8%positive) VRM_PROPID_GRAB_SENSOR_PROPS_SELECT_E
       (Some VRM_PROPID_GRAB_SENSOR_PROPS_SELECT_1) true;
     EvSetPropertyValueI (Some 8%positive) VRM_PROPID_CAM_GAIN_MONOCHROME_I 500 true;
     EvSetPropertyValueE (Some 8%positive) VRM_PROPID_GRAB_SENSOR_PROPS_SELECT_E
       (Some VRM_PROPID_GRAB_SENSOR_PROPS_SELECT_2) true;
     EvSetPropertyValueI (Some 8%positive) VRM_PROPID_CAM_GAIN_MONOCHROME_I 10 true;
     EvSetPropertyValueE (Some 8%positive) VRM_PROPID_GRAB_SENSOR_PROPS_SELECT_E
       (Some VRM_PROPID_GRAB_SENSOR_PROPS_SELECT_1) true;
     EvSetPropertyValueF (Some 8%positive) VRM_PROPID_CAM_EXPOSURE_TIME_F f_one true;
     EvSetPropertyValueE (Some 8%positive) VRM_PROPID_GRAB_SENSOR_PROPS_SELECT_E
       (Some VRM_PROPID_GRAB_SENSOR_PROPS_SELECT_2) true;
     EvSetPropertyValueF (Some 8%positive) VRM_PROPID_CAM_EXPOSURE_TIME_F f_one true].
Proof.
  destruct (setProperties_writes_sanitized (bench_sdk bench_full) (Some 8%positive)
              gain_info exposure_info true (mkAttribsI 500 0 1000 1)
              true (mkAttribsF f_one f_half f_two f_half)
              (fun _ => eq_refl) (fun _ => eq_refl) (fun _ => eq_refl) (fun _ => eq_refl)
              (fun _ => true)
              VRM_PROPID_GRAB_SENSOR_PROPS_SELECT_1 VRM_PROPID_GRAB_SENSOR_PROPS_SELECT_2
              (fun _ _ => eq_refl) (fun _ _ => eq_refl) (fun _ _ _ => eq_refl)
              (fun _ _ _ => eq_refl)
              [] bench_handle eq_refl eq_refl eq_refl) as (_ & _ & Hw).
  exact Hw.
Defined.

(** ** What a run never holds *)

Lemma existsb_bind {A B} (f : Event -> bool) (m : M A) (k : A -> M B) h s :
  existsb f (events (bind m k h s))
  = existsb f (events (m h s))
    || match outcome (m h s) with
       | Normal a => existsb f (events (k a (h ++ events (m h s)) (self (m h s))))
       | _ => false
       end.
Proof.
  unfold bind. destruct (m h s) as [ [ a | c | ] s1 es1 ]; simpl;
    rewrite ?orb_false_r; try reflexivity.
  destruct (k a (h ++ es1) s1) as [ o s2 es2 ]; simpl. apply existsb_app.
Qed.

Lemma silent_weaken {A} (f g : Event -> bool) (m : M A) :
  (forall e, f e = true -> g e = true) -> silent g m -> silent f m.
Proof.
  intros Hfg Hm h s. specialize (Hm h s).
  induction (events (m h s)) as [ | e es IH ]; simpl in *; [ reflexivity | ].
  apply orb_false_iff in Hm as [He Hes]. rewrite (IH Hes), orb_false_r.
  destruct (f e) eqn:E; [ | reflexivity ]. rewrite (Hfg e E) in He. discriminate He.
Qed.

Section Flags.

Variable sdk : VRmUsbCam.

Lemma setSensorActive_silent f port :
  (forall e, f e = true -> is_select e = false) ->
  (forall e, f e = true -> is_log Fatal e = false) ->
  silent f (setSensorActive sdk port).
Proof.
  intros Hsel Hlog h s.
  destruct (setSensorActive_run sdk port h s) as [(p & ok & _ & ->) | (_ & ->)]; simpl;
    rewrite orb_false_r.
  - destruct (f (EvSetPropertyValueE _ _ _ _)) eqn:E; [ | reflexivity ].
    apply Hsel in E. discriminate E.
  - destruct (f (EvLog _ _ _)) eqn:E; [ | reflexivity ].
    apply Hlog in E. discriminate E.
Qed.

Lemma setGain_no_float_write : silent is_float_write (setGainM sdk).
Proof.
  unfold setGainM, setPropertyLeftAndRight_int, setSingleProperty_int.
  unfold VRM_CHECK, VRM_CHECK_b, VRM_CHECK_failed, ROS_INFO, ROS_WARN, ROS_ERROR.
  repeat first [ apply setSensorActive_silent; intros [] ?; simpl in *; congruence
               | silent_step ].
Qed.

Lemma setExposure_no_int_write : silent is_int_write (setExposureM sdk).
Proof.
  unfold setExposureM, setPropertyLeftAndRight_float, setSingleProperty_float.
  unfold VRM_CHECK, VRM_CHECK_b, VRM_CHECK_failed, ROS_INFO, ROS_WARN, ROS_ERROR.
  repeat first [ apply setSensorActive_silent; intros [] ?; simpl in *; congruence
               | silent_step ].
Qed.

Lemma checkAndSanitizeConfig_keeps_flags :
  keeps (fun s => (setGain (conf s), setExposure (conf s))) (checkAndSanitizeConfig sdk).
Proof.
  unfold checkAndSanitizeConfig.
  repeat first [ apply keeps_all, checkAndSanitizeProperty_int_keeps
               | apply keeps_all, checkAndSanitizeProperty_float_keeps
               | keeps_step ].
Qed.

(** X19.  [setProperties] respects the two flags of the configuration,
    whatever the SDK answers: without [setGain] no [int] value is written,
    without [setExposure] no [float] value is written, and without both the
    run changes nothing on the device, not even the selected sensor. *)
Theorem setProperties_respects_flags h s :
  let r := setProperties sdk h s in
  (setGain (conf s) = false -> existsb is_int_write (events r) = false)
  /\ (setExposure (conf s) = false -> existsb is_float_write (events r) = false)
  /\ (setGain (conf s) = false -> setExposure (conf s) = false ->
      existsb is_hardware_write (events r) = false).
Proof.
  intros r. subst r.
  pose proof (checkAndSanitizeConfig_keeps_flags h s) as Hflags.
  injection Hflags as Hg He.
  pose proof (checkAndSanitizeConfig_silent sdk h s) as Hsan.
  assert (existsb is_int_write (events (checkAndSanitizeConfig sdk h s)) = false) as Hsan_i
    by (apply (silent_weaken is_int_write is_hardware_write);
        [ intros []; simpl; congruence | apply checkAndSanitizeConfig_silent ]).
  assert (existsb is_float_write (events (checkAndSanitizeConfig sdk h s)) = false) as Hsan_f
    by (apply (silent_weaken is_float_write is_hardware_write);
        [ intros []; simpl; congruence | apply checkAndSanitizeConfig_silent ]).
  unfold setProperties.
  split; [ | split ].
  - intros Hoff. rewrite existsb_bind, Hsan_i. simpl.
    destruct (outcome (checkAndSanitizeConfig sdk h s)); try reflexivity.
    rewrite existsb_bind. simpl. rewrite existsb_bind. rewrite Hg, Hoff. simpl.
    rewrite existsb_bind. simpl.
    destruct (setExposure _); [ apply setExposure_no_int_write | reflexivity ].
  - intros Hoff. rewrite existsb_bind, Hsan_f. simpl.
    destruct (outcome (checkAndSanitizeConfig sdk h s)); try reflexivity.
    rewrite existsb_bind. simpl. rewrite existsb_bind.
    destruct (setGain _).
    + rewrite (setGain_no_float_write _ _). simpl.
      destruct (outcome (setGainM sdk _ _)); try reflexivity.
      rewrite existsb_bind. simpl. rewrite (setGain_keeps sdk _ _), He, Hoff. reflexivity.
    + simpl. rewrite existsb_bind. simpl. rewrite He, Hoff. reflexivity.
  - intros Hoff_g Hoff_e. rewrite existsb_bind, Hsan. simpl.
    destruct (outcome (checkAndSanitizeConfig sdk h s)); try reflexivity.
    rewrite existsb_bind. simpl. rewrite existsb_bind. rewrite Hg, Hoff_g. simpl.
    rewrite existsb_bind. simpl. rewrite He, Hoff_e. reflexivity.
Qed.

End Flags.

Lemma setProperties_respects_flags_witness :
  existsb is_float_write
    (events (setProperties (bench_sdk bench_full) []
               (set_conf (mkConfig false 1 2 true 5000 10 false f_one f_five 100 "camera")
                         bench_handle)))
  = false.
Proof.
  apply (proj1 (proj2 (setProperties_respects_flags (bench_sdk bench_full) []
                         (set_conf (mkConfig false 1 2 true 5000 10 false f_one f_five 100
                                      "camera")
                                   bench_handle)))).
  reflexivity.
Defined.

(** ** The constructor *)

Lemma bind_returns {A B} (m : M A) (k : A -> M B) h s b :
  outcome (bind m k h s) = Normal b ->
  exists a,
    outcome (m h s) = Normal a
    /\ outcome (k a (h ++ events (m h s)) (self (m h s))) = Normal b
    /\ self (bind m k h s) = self (k a (h ++ events (m h s)) (self (m h s)))
    /\ events (bind m k h s)
       = events (m h s) ++ events (k a (h ++ events (m h s)) (self (m h s))).
Proof.
  unfold bind. destruct (m h s) as [ [ a | c | ] s1 es1 ]; simpl; try discriminate.
  intros H. exists a. revert H.
  destruct (k a (h ++ es1) s1) as [ o s2 es2 ]; simpl. intros ->.
  repeat split; reflexivity.
Qed.

Section Constructor.

Variable sdk : VRmUsbCam.

Ltac no_start_step :=
  first [ apply setSensorActive_silent; intros [] ?; simpl in *; congruence
        | silent_step ].

Lemma openDevice_loop_no_start n : forall i, silent is_start (openDevice_loop sdk n i).
Proof.
  induction n as [ | n IH ]; intros i; simpl openDevice_loop.
  - apply silent_ret.
  - unfold VRM_CHECK, VRM_CHECK_b, VRM_CHECK_failed, ROS_INFO, ROS_ERROR.
    repeat first [ apply IH | silent_step ].
Qed.

Lemma setTargetFormat_loop_no_start n : forall i,
  silent is_start (setTargetFormat_loop sdk n i).
Proof.
  induction n as [ | n IH ]; intros i; simpl setTargetFormat_loop.
  - apply silent_ret.
  - unfold VRM_CHECK, VRM_CHECK_b, VRM_CHECK_failed, ROS_INFO, ROS_ERROR.
    repeat first [ apply IH | silent_step ].
Qed.

(** Nothing in [initCamera] starts the stream. *)
Lemma initCamera_no_start : silent is_start (initCamera sdk).
Proof.
  unfold initCamera, openDevice, getSourceFormat, setTargetFormat, setProperties,
    checkAndSanitizeConfig, checkAndSanitizeProperty_int, checkAndSanitizeProperty_float,
    setGainM, setExposureM, setPropertyLeftAndRight_int, setPropertyLeftAndRight_float,
    setSingleProperty_int, setSingleProperty_float.
  unfold VRM_CHECK, VRM_CHECK_b, VRM_CHECK_failed, ROS_INFO, ROS_WARN, ROS_ERROR, ROS_FATAL.
  repeat first [ apply openDevice_loop_no_start | apply setTargetFormat_loop_no_start
               | no_start_step ].
Qed.

Lemma startCamera_returns h s :
  outcome (startCamera sdk h s) = Normal tt ->
  startCamera sdk h s =
    mkRun (Normal tt) s
      [EvLog Info "Starting the camera." []; EvResetFrameCounter (device s) true;
       EvStart (device s) true; EvLog Info "Beginning to grab." []].
Proof.
  unfold startCamera. run_prims. rewrite ?app_nil_r.
  destruct (VRmUsbCamResetFrameCounter sdk _ _); simpl;
    [ destruct (VRmUsbCamStart sdk _ _); simpl | ];
    intros Ho; try discriminate Ho; reflexivity.
Qed.

(** X20.  When the constructor returns, the stream has been started once,
    at the very end and after the frame counter was reset: the run ends
    with the reset and the start on the device that the object holds, and
    nothing before them, the whole of [initCamera] included, starts the
    stream.  This holds whatever the SDK answers. *)
Theorem CameraHandle_new_starts_last c h s :
  let r := CameraHandle_new sdk c h s in
  outcome r = Normal tt ->
  exists pre,
    events r =
      pre ++ [EvLog Info "Starting the camera." [];
              EvResetFrameCounter (device (self r)) true;
              EvStart (device (self r)) true; EvLog Info "Beginning to grab." []]
    /\ existsb is_start pre = false.
Proof.
  intros r Hret. subst r. unfold CameraHandle_new in *.
  apply bind_returns in Hret as (a1 & _ & Hret & -> & ->).
  apply bind_returns in Hret as (a2 & _ & Hret & -> & ->).
  apply bind_returns in Hret as (a3 & _ & Hret & -> & ->).
  rewrite (startCamera_returns _ _ Hret). simpl.
  eexists. rewrite !app_assoc. split; [ reflexivity | ].
  rewrite !existsb_app, (initCamera_no_start _ _).
  destruct (enableLogging c); reflexivity.
Qed.

End Constructor.

Lemma CameraHandle_new_starts_last_witness :
  exists pre,
    events (CameraHandle_new (bench_sdk bench) bench_conf []
              (mkCameraHandle bench_conf None bench_gray))
    = pre ++ [EvLog Info "Starting the camera." [];
              EvResetFrameCounter (Some 8%positive) true;
              EvStart (Some 8%positive) true; EvLog Info "Beginning to grab." []]
    /\ existsb is_start pre = false.
Proof.
  apply (CameraHandle_new_starts_last (bench_sdk bench) bench_conf []
           (mkCameraHandle bench_conf None bench_gray)).
  vm_compute. reflexivity.
Defined.
